(** * ScrapCo admin backend: credential resolution, the admin gate and
      the versioned scrap rates

    A shallow embedding of [supabase/client.js] and [routes/admin.js].

    Conventions of the embedding.
    - A JavaScript string is a [string] whose characters are UTF-16 code
      units below 256 (the Latin-1 range); [trim] and [toLowerCase] are
      the ECMAScript functions restricted to that range.
    - [process.env] is a finite map from names to strings; a name that is
      not bound reads as [undefined], here [None].
    - A function that may [throw] returns a [result]; code that talks to
      the identity service or to the data service runs in the monad [M],
      which threads the tables of every project, the log of the
      requests sent to the two services, and the response object [res].
      A handler that ends in [Throw] is an [async] function whose promise
      rejects: it has not answered.
    - [createClient] of supabase-js and the conversions [String(v)] and
      [Number(v)] throw on some arguments; both are modelled as calls
      that may throw. *)

From Stdlib Require Import Ascii String ZArith QArith Bool List Lia.
From stdpp Require Import base strings gmap list.
Import ListNotations.

Local Open Scope string_scope.
Local Open Scope Z_scope.

(** ** ECMAScript primitives *)

Module Js.

(** WhiteSpace and LineTerminator code units below 256: TAB, LF, VT,
    FF, CR, SP and NBSP. *)
Definition isWhiteSpace (c : ascii) : bool :=
  let n := nat_of_ascii c in
  ((9 <=? n)%nat && (n <=? 13)%nat) || (n =? 32)%nat || (n =? 160)%nat.

Definition isEmpty (s : string) : bool :=
  match s with
  | EmptyString => true
  | String _ _ => false
  end.

Fixpoint trimStart (s : string) : string :=
  match s with
  | EmptyString => EmptyString
  | String c s' => if isWhiteSpace c then trimStart s' else s
  end.

Fixpoint trimEnd (s : string) : string :=
  match s with
  | EmptyString => EmptyString
  | String c s' =>
      let t := trimEnd s' in
      if isWhiteSpace c && isEmpty t then EmptyString else String c t
  end.

(** [String.prototype.trim] *)
Definition trim (s : string) : string := trimEnd (trimStart s).

(** Lower-casing of one code unit: A-Z, and the Latin-1 capitals
    U+00C0..U+00DE other than the multiplication sign U+00D7. *)
Definition lowerChar (c : ascii) : ascii :=
  let n := nat_of_ascii c in
  if ((65 <=? n)%nat && (n <=? 90)%nat)
     || ((192 <=? n)%nat && (n <=? 222)%nat && negb (n =? 215)%nat)
  then ascii_of_nat (n + 32)
  else c.

(** [String.prototype.toLowerCase] *)
Fixpoint toLowerCase (s : string) : string :=
  match s with
  | EmptyString => EmptyString
  | String c s' => String (lowerChar c) (toLowerCase s')
  end.

(** Truthiness of a value that is a string or [undefined]. *)
Definition truthy (v : option string) : bool :=
  match v with
  | Some s => negb (isEmpty s)
  | None => false
  end.

(** [a || b] on values that are strings or [undefined]. *)
Definition or (a b : option string) : option string :=
  if truthy a then a else b.

(** [String(v)] on a value that is a string or [undefined]. *)
Definition String_ (v : option string) : string :=
  match v with
  | Some s => s
  | None => "undefined"
  end.

(** What a [throw] carries: an [Error] with its message, or some other
    value, on which [e?.message] is [undefined]. *)
Inductive Thrown : Type :=
| Error (message : string)
| Other.

(** [e?.message] *)
Definition message_of (e : Thrown) : option string :=
  match e with
  | Error m => Some m
  | Other => None
  end.

End Js.

Abbreviation Thrown := Js.Thrown.

(** The outcome of a call that may throw. *)
Inductive result (A : Type) : Type :=
| Return (a : A)
| Throw (e : Thrown).
Arguments Return {A} a.
Arguments Throw {A} e.

(** A call that may throw, followed by what is done with its value; an
    exception ends both. *)
Definition and_then {A B} (r : result A) (k : A -> result B) : result B :=
  match r with
  | Return a => k a
  | Throw e => Throw e
  end.

Definition result_map {A B} (f : A -> B) (r : result A) : result B :=
  and_then r (fun a => Return (f a)).

Declare Scope result_scope.
Delimit Scope result_scope with result.
Notation "x <- m ;; k" := (and_then m (fun x => k))
  (at level 100, m at next level, right associativity) : result_scope.

(** [process.env] *)
Abbreviation Env := (gmap string string).

(** A string is blank when nothing is left of it after [trim]. *)
Definition blank (s : string) : bool := Js.isEmpty (Js.trim s).

(** ** supabase/client.js *)

Definition missing (name : string) : Thrown :=
  Js.Error ("Missing required env var: " ++ name).

Definition requireEnv (env : Env) (name : string) : result string :=
  let v := env !! name in
  if negb (Js.truthy v) || blank (Js.String_ v)
  then Throw (missing name)
  else Return (Js.String_ v).

Record AuthProjectEnv := {
  auth_url : option string;
  auth_anonKey : option string;
  auth_serviceKey : option string
}.

Definition getAuthProjectEnv (env : Env) : AuthProjectEnv :=
  {| auth_url := Js.or (env !! "ADMIN_AUTH_SUPABASE_URL") (env !! "SUPABASE_URL");
     auth_anonKey :=
       Js.or (env !! "ADMIN_AUTH_SUPABASE_ANON_KEY") (env !! "SUPABASE_ANON_KEY");
     auth_serviceKey :=
       Js.or (env !! "ADMIN_AUTH_SUPABASE_SERVICE_ROLE_KEY")
             (env !! "SUPABASE_SERVICE_ROLE_KEY") |}.

Record DataProjectEnv := {
  data_url : option string;
  data_serviceKey : option string
}.

Definition getCustomerProjectEnv (env : Env) : DataProjectEnv :=
  let auth := getAuthProjectEnv env in
  {| data_url := Js.or (env !! "CUSTOMER_SUPABASE_URL") (auth_url auth);
     data_serviceKey :=
       Js.or (env !! "CUSTOMER_SUPABASE_SERVICE_ROLE_KEY") (auth_serviceKey auth) |}.

Definition getVendorProjectEnv (env : Env) : DataProjectEnv :=
  let auth := getAuthProjectEnv env in
  {| data_url := Js.or (env !! "VENDOR_SUPABASE_URL") (auth_url auth);
     data_serviceKey :=
       Js.or (env !! "VENDOR_SUPABASE_SERVICE_ROLE_KEY") (auth_serviceKey auth) |}.

Definition requireEnvFromPair (env : Env) (name : string) (value : option string)
  : result string :=
  if bool_decide (is_Some (env !! name)) && blank (Js.String_ (env !! name))
  then Throw (missing name)
  else if negb (Js.truthy value) || blank (Js.String_ value)
       then Throw (missing name)
       else Return (Js.String_ value).

(** The handle [createClient] of supabase-js builds: where it points, the
    key it presents, the [Authorization] header it adds to every request,
    and the three options of [auth]. *)
Record Client := {
  client_url : string;
  client_key : string;
  client_authorization : option string;
  persistSession : bool;
  autoRefreshToken : bool;
  detectSessionInUrl : bool
}.

(** The handle to the endpoint [url] that presents [key], with the
    three options of [auth] as every factory of the file passes them. *)
Definition clientFor (url key : string) (authorization : option string) : Client :=
  {| client_url := url;
     client_key := key;
     client_authorization := authorization;
     persistSession := false;
     autoRefreshToken := false;
     detectSessionInUrl := false |}.

(** supabase-js, as far as the factories depend on it. [createClient]
    checks the endpoint and the key before it builds the handle and
    throws when it does not accept them (an endpoint that is not an http
    or https URL, for one). Which values it accepts is the library's to
    say: [refuses] is what it throws for an endpoint and a key, [None]
    when it accepts them. *)
Record SupabaseJs := {
  refuses : string -> string -> option Thrown
}.

Definition createClient (lib : SupabaseJs) (url key : string)
    (authorization : option string) : result Client :=
  match refuses lib url key with
  | Some e => Throw e
  | None => Return (clientFor url key authorization)
  end.

Definition createServiceClient (lib : SupabaseJs) (env : Env) : result Client :=
  match requireEnv env "SUPABASE_URL" with
  | Throw e => Throw e
  | Return url =>
      match requireEnv env "SUPABASE_SERVICE_ROLE_KEY" with
      | Throw e => Throw e
      | Return serviceKey => createClient lib url serviceKey None
      end
  end.

(** The three factories below share one shape: both arguments of
    [createClient] are evaluated, left to right, before the call. *)
Definition createFromPairs (lib : SupabaseJs) (env : Env)
    (urlName : string) (url : option string)
    (keyName : string) (key : option string)
    (authorization : option string) : result Client :=
  match requireEnvFromPair env urlName url with
  | Throw e => Throw e
  | Return resolvedUrl =>
      match requireEnvFromPair env keyName key with
      | Throw e => Throw e
      | Return resolvedKey => createClient lib resolvedUrl resolvedKey authorization
      end
  end.

Definition createAuthServiceClient (lib : SupabaseJs) (env : Env) : result Client :=
  let p := getAuthProjectEnv env in
  createFromPairs lib env "ADMIN_AUTH_SUPABASE_URL" (auth_url p)
                          "ADMIN_AUTH_SUPABASE_SERVICE_ROLE_KEY" (auth_serviceKey p) None.

Definition createCustomerServiceClient (lib : SupabaseJs) (env : Env) : result Client :=
  let p := getCustomerProjectEnv env in
  createFromPairs lib env "CUSTOMER_SUPABASE_URL" (data_url p)
                          "CUSTOMER_SUPABASE_SERVICE_ROLE_KEY" (data_serviceKey p) None.

Definition createVendorServiceClient (lib : SupabaseJs) (env : Env) : result Client :=
  let p := getVendorProjectEnv env in
  createFromPairs lib env "VENDOR_SUPABASE_URL" (data_url p)
                          "VENDOR_SUPABASE_SERVICE_ROLE_KEY" (data_serviceKey p) None.

Definition createAnonClientWithJwt (lib : SupabaseJs) (env : Env) (jwt : string)
  : result Client :=
  let p := getAuthProjectEnv env in
  createFromPairs lib env "ADMIN_AUTH_SUPABASE_URL" (auth_url p)
                          "ADMIN_AUTH_SUPABASE_ANON_KEY" (auth_anonKey p)
                          (Some ("Bearer " ++ jwt)).

(** Resolution of one variable over its explicit/fallback pair, as every
    factory above performs it: the value handed to [requireEnvFromPair]
    is [process.env[name] || fallback]. *)
Definition resolve (env : Env) (name : string) (fallback : option string)
  : result string :=
  requireEnvFromPair env name (Js.or (env !! name) fallback).

(** ** Values of a JSON request body *)

Module JsValue.

(** A number: the sign test and [Number.isFinite] are all the code
    asks of one, so a finite double is carried as the rational it
    denotes. *)
Inductive Number : Type :=
| NaN
| Infinity (negative : bool)
| Finite (q : Q).

(** A parsed JSON value, or [undefined] for a field that is not there.
    An object or an array is carried by what [String(v)] makes of it,
    which is all that [String] and [Number] look at: the string, or
    [None] when the conversion to a primitive throws. It throws on an
    object with an own property [toString], which in a parsed body is
    never a function, and on an array that holds such an object. *)
Inductive t : Type :=
| Undefined
| Null
| Bool (b : bool)
| Num (n : Number)
| Str (s : string)
| Obj (repr : option string).

Definition ToBoolean (v : t) : bool :=
  match v with
  | Undefined | Null => false
  | Bool b => b
  | Num NaN => false
  | Num (Infinity _) => true
  | Num (Finite q) => negb (Qeq_bool q 0)
  | Str s => negb (Js.isEmpty s)
  | Obj _ => true
  end.

(** [a || b] *)
Definition or (a b : t) : t := if ToBoolean a then a else b.

(** [a ?? b] *)
Definition coalesce (a b : t) : t :=
  match a with
  | Undefined | Null => b
  | _ => a
  end.

(** [Number.isFinite(n)] *)
Definition isFinite (n : Number) : bool :=
  match n with
  | Finite _ => true
  | _ => false
  end.

(** [n <= 0] *)
Definition le0 (n : Number) : bool :=
  match n with
  | NaN => false
  | Infinity negative => negative
  | Finite q => Qle_bool q 0
  end.

(** The two conversions between numbers and strings that ECMAScript
    builds in; they are taken as given. *)
Record Conversions := {
  NumberToString : Number -> string;
  StringToNumber : string -> Number
}.

(** The [TypeError] of a conversion to a primitive that finds neither
    [toString] nor [valueOf] to give one. *)
Definition cannotConvert : Thrown :=
  Js.Error "Cannot convert object to primitive value".

(** [String(v)] *)
Definition String_ (cv : Conversions) (v : t) : result string :=
  match v with
  | Undefined => Return "undefined"
  | Null => Return "null"
  | Bool true => Return "true"
  | Bool false => Return "false"
  | Num n => Return (NumberToString cv n)
  | Str s => Return s
  | Obj (Some repr) => Return repr
  | Obj None => Throw cannotConvert
  end.

(** [Number(v)] *)
Definition Number_ (cv : Conversions) (v : t) : result Number :=
  match v with
  | Undefined => Return NaN
  | Null => Return (Finite 0)
  | Bool true => Return (Finite 1)
  | Bool false => Return (Finite 0)
  | Num n => Return n
  | Str s => Return (StringToNumber cv s)
  | Obj (Some repr) => Return (StringToNumber cv repr)
  | Obj None => Throw cannotConvert
  end.

End JsValue.

(** ** The data service and the identity service *)

(** A row of [profiles], as far as the gate reads it. *)
Record Profile := {
  profile_id : string;
  role : option string
}.

(** A row of [scrap_rates]. [effective_from] is the instant the column
    holds, in milliseconds since the epoch, which is the value of
    [new Date(r.effective_from)]; [None] is SQL [null]. *)
Record ScrapRate := {
  scrap_type_id : string;
  rate_per_kg : JsValue.Number;
  effective_from : option Z;
  is_active : bool
}.

(** The tables of one project. A row of [vendor_backends] is read with
    [select('*')], so it is kept as the object the service returns. *)
Record Store := {
  profiles : list Profile;
  scrap_rates : list ScrapRate;
  vendor_backends : list (gmap string JsValue.t)
}.

Definition emptyStore : Store :=
  {| profiles := []; scrap_rates := []; vendor_backends := [] |}.

(** The requests the handlers send. *)
Inductive Query : Type :=
| GetUser
| SelectRole (userId : string)
| SelectActiveRates
| DeactivateRates (scrapTypeId : string)
| InsertRate (row : ScrapRate)
| SelectVendors.

(** What the handlers do that can be observed from outside. *)
Inductive Event : Type :=
| BearerRead
| Sent (c : Client) (q : Query).

(** How a request to the data service fares: it is carried out, or the
    service answers [{ data: null, error }], or the awaited promise
    rejects. *)
Inductive Fate : Type :=
| Served
| Refused (message : string)
| Rejected (e : Thrown).

(** The answer [{ data, error }] of the data service. *)
Record Answer (A : Type) := {
  data : option A;
  error : option string
}.
Arguments data {A} _.
Arguments error {A} _.

(** The answer of [auth.getUser()]: [{ data: { user }, error }], with
    [user_id] the value of [data?.user?.id]. *)
Record UserAnswer := {
  user_error : option string;
  user_id : option string
}.

Record Request := {
  headers : gmap string string;
  req_body : option (gmap string JsValue.t)
}.

(** Everything outside the two files: the environment of the process,
    supabase-js, [getBearerToken] of [supabase/auth.js], the identity
    service, the faults of the data service, the clock and the built-in
    conversions. The services and the clock are indexed by the number of
    events that came before. *)
Record World := {
  process_env : Env;
  supabase_js : SupabaseJs;
  getBearerToken : Request -> option string;
  getUser : nat -> Client -> result UserAnswer;
  fate : nat -> Fate;
  now : nat -> Z;
  conversions : JsValue.Conversions
}.

(** ** The response object and the state of the server *)

Inductive Body : Type :=
| ErrorBody (error : string)
| MeBody (userId : string)
| VendorsBody (vendors : list (list (string * JsValue.t)))
| RateBody (scrapTypeId : string) (ratePerKg : JsValue.Number) (effectiveFrom : option Z).

Record Response := {
  status : nat;
  body : Body
}.

(** The tables of every project, by endpoint; the events so far; and
    [res], which is [None] until the handler answers. *)
Record State := {
  projects : gmap string Store;
  log : list Event;
  res : option Response
}.

Definition store_at (s : State) (url : string) : Store :=
  default emptyStore (projects s !! url).

Definition set_store (url : string) (t : Store) (s : State) : State :=
  {| projects := <[url := t]> (projects s); log := log s; res := res s |}.

Definition set_rates (rs : list ScrapRate) (t : Store) : Store :=
  {| profiles := profiles t; scrap_rates := rs; vendor_backends := vendor_backends t |}.

Definition add_event (e : Event) (s : State) : State :=
  {| projects := projects s; log := log s ++ [e]; res := res s |}.

Definition set_res (r : Response) (s : State) : State :=
  {| projects := projects s; log := log s; res := Some r |}.

(** ** The monad of the handlers *)

Definition M (A : Type) : Type := State -> result A * State.

Definition ret {A} (a : A) : M A := fun s => (Return a, s).

Definition bind {A B} (m : M A) (k : A -> M B) : M B :=
  fun s =>
    match m s with
    | (Return a, s') => k a s'
    | (Throw e, s') => (Throw e, s')
    end.

Definition throw {A} (e : Thrown) : M A := fun s => (Throw e, s).

(** [try { m } catch (e) { h e }] *)
Definition try_catch {A} (m : M A) (h : Thrown -> M A) : M A :=
  fun s =>
    match m s with
    | (Return a, s') => (Return a, s')
    | (Throw e, s') => h e s'
    end.

Definition lift {A} (r : result A) : M A := fun s => (r, s).

Definition get : M State := fun s => (Return s, s).

Definition modify (f : State -> State) : M unit := fun s => (Return tt, f s).

Declare Scope handler_scope.
Delimit Scope handler_scope with handler.
Notation "x <- m ;; k" := (bind m (fun x => k))
  (at level 100, m at next level, right associativity) : handler_scope.
Notation "m ;; k" := (bind m (fun _ => k))
  (at level 100, right associativity) : handler_scope.
Local Open Scope handler_scope.

(** [res.status(code).json(body)] *)
Definition respond (code : nat) (b : Body) : M unit :=
  modify (set_res {| status := code; body := b |}).

(** [e?.message || fallback] *)
Definition messageOr (e : Thrown) (fallback : string) : string :=
  Js.String_ (Js.or (Js.message_of e) (Some fallback)).

(** Sending a request: it is logged, and the world says how it fares. *)
Definition send (w : World) (c : Client) (q : Query) : M Fate :=
  s <- get ;;
  modify (add_event (Sent c q)) ;;
  ret (fate w (length (log s))).

(** [anon.auth.getUser()] *)
Definition auth_getUser (w : World) (anon : Client) : M UserAnswer :=
  s <- get ;;
  modify (add_event (Sent anon GetUser)) ;;
  lift (getUser w (length (log s)) anon).

(** [.maybeSingle()]: no row is [data: null] without an error, one row
    is that row, several rows are an error. *)
Definition maybeSingle {A} (rows : list A) : Answer A :=
  match rows with
  | [] => {| data := None; error := None |}
  | [x] => {| data := Some x; error := None |}
  | _ => {| data := None;
            error := Some "JSON object requested, multiple (or no) rows returned" |}
  end.

(** The rows of [profiles] with the given [id]. *)
Definition profilesOf (userId : string) (t : Store) : list Profile :=
  filter (fun p => profile_id p = userId) (profiles t).

(** [from('profiles').select('role').eq('id', userId).maybeSingle()];
    the datum is the [role] of the row, [None] for SQL [null]. *)
Definition selectRole (w : World) (supabase : Client) (userId : string)
  : M (Answer (option string)) :=
  f <- send w supabase (SelectRole userId) ;;
  match f with
  | Rejected e => throw e
  | Refused m => ret {| data := None; error := Some m |}
  | Served =>
      s <- get ;;
      ret (maybeSingle (map role (profilesOf userId (store_at s (client_url supabase)))))
  end.

(** [from('scrap_rates').select(...).eq('is_active', true)] *)
Definition selectActiveRates (w : World) (supabase : Client)
  : M (Answer (list ScrapRate)) :=
  f <- send w supabase SelectActiveRates ;;
  match f with
  | Rejected e => throw e
  | Refused m => ret {| data := None; error := Some m |}
  | Served =>
      s <- get ;;
      ret {| data := Some (filter (fun r => is_active r = true)
                                  (scrap_rates (store_at s (client_url supabase))));
             error := None |}
  end.

Definition deactivate (scrapTypeId : string) (r : ScrapRate) : ScrapRate :=
  if bool_decide (scrap_type_id r = scrapTypeId) && is_active r
  then {| scrap_type_id := scrap_type_id r;
          rate_per_kg := rate_per_kg r;
          effective_from := effective_from r;
          is_active := false |}
  else r.

(** [from('scrap_rates').update({ is_active: false })
      .eq('scrap_type_id', scrapTypeId).eq('is_active', true)] *)
Definition deactivateRates (w : World) (supabase : Client) (scrapTypeId : string)
  : M (Answer unit) :=
  f <- send w supabase (DeactivateRates scrapTypeId) ;;
  match f with
  | Rejected e => throw e
  | Refused m => ret {| data := None; error := Some m |}
  | Served =>
      s <- get ;;
      let url := client_url supabase in
      let t := store_at s url in
      modify (set_store url (set_rates (map (deactivate scrapTypeId) (scrap_rates t)) t)) ;;
      ret {| data := None; error := None |}
  end.

(** [from('scrap_rates').insert([row]).select('*').single()] *)
Definition insertRate (w : World) (supabase : Client) (row : ScrapRate)
  : M (Answer ScrapRate) :=
  f <- send w supabase (InsertRate row) ;;
  match f with
  | Rejected e => throw e
  | Refused m => ret {| data := None; error := Some m |}
  | Served =>
      s <- get ;;
      let url := client_url supabase in
      let t := store_at s url in
      modify (set_store url (set_rates (scrap_rates t ++ [row]) t)) ;;
      ret {| data := Some row; error := None |}
  end.

(** [from('vendor_backends').select('*').limit(500)] *)
Definition selectVendors (w : World) (supabase : Client)
  : M (Answer (list (gmap string JsValue.t))) :=
  f <- send w supabase SelectVendors ;;
  match f with
  | Rejected e => throw e
  | Refused m => ret {| data := None; error := Some m |}
  | Served =>
      s <- get ;;
      ret {| data := Some (take 500 (vendor_backends (store_at s (client_url supabase))));
             error := None |}
  end.

(** ** routes/admin.js *)

Definition isAdminPortalAllowed (env : Env) : bool :=
  let allowAdmin :=
    bool_decide
      (Js.toLowerCase (Js.String_ (Js.or (env !! "ALLOW_ADMIN_PORTAL") (Some ""))) = "true") in
  let allowDev :=
    bool_decide
      (Js.toLowerCase (Js.String_ (Js.or (env !! "ALLOW_DEV_BYPASS") (Some ""))) = "true") in
  allowAdmin || allowDev.

Definition disabledMessage : string :=
  "Admin portal is disabled on server. Set ALLOW_ADMIN_PORTAL=true (or ALLOW_DEV_BYPASS=true) in admin_backend/.env.".

Definition requireAdminEnabled (w : World) : M bool :=
  if isAdminPortalAllowed (process_env w) then ret true
  else (respond 403 (ErrorBody disabledMessage) ;; ret false).

(** What [requireAdmin] yields on success. *)
Record Principal := {
  userId : string
}.

(** How a block that contains a [return] ends: the function returned
    from inside it, or control went on past it. *)
Inductive Flow (R V : Type) : Type :=
| Returned (r : R)
| Next (v : V).
Arguments Returned {R V} r.
Arguments Next {R V} v.

(** [getBearerToken(req)] *)
Definition readBearer (w : World) (req : Request) : M (option string) :=
  modify (add_event BearerRead) ;;
  ret (getBearerToken w req).

(** [requireAdmin], from its first line to the test of [userId]: the
    function has answered and returned, or control goes on with the
    user id the identity service vouched for. *)
Definition verifyIdentity (w : World) (req : Request)
  : M (Flow (option Principal) string) :=
  enabled <- requireAdminEnabled w ;;
  if negb enabled then ret (Returned None)
  else
    jwt <- readBearer w req ;;
    if negb (Js.truthy jwt)
    then (respond 401 (ErrorBody "Missing Authorization: Bearer <token>") ;;
          ret (Returned None))
    else
      flow <- try_catch
        (anon <- lift (createAnonClientWithJwt (supabase_js w) (process_env w) (Js.String_ jwt)) ;;
         a <- auth_getUser w anon ;;
         if bool_decide (is_Some (user_error a))
         then (respond 401 (ErrorBody "Invalid or expired token") ;; ret (Returned None))
         else ret (Next (Js.or (user_id a) None)))
        (fun e =>
           respond 500 (ErrorBody (messageOr e "Auth check failed")) ;;
           ret (Returned None)) ;;
      match flow with
      | Returned r => ret (Returned r)
      | Next id =>
          if negb (Js.truthy id)
          then (respond 401 (ErrorBody "Invalid or expired token") ;; ret (Returned None))
          else ret (Next (Js.String_ id))
      end.

(** [requireAdmin], the second [try]: the role of the verified user. *)
Definition checkRole (w : World) (id : string) : M (option Principal) :=
  try_catch
    (supabase <- lift (createServiceClient (supabase_js w) (process_env w)) ;;
     a <- selectRole w supabase id ;;
     match error a with
     | Some m => respond 400 (ErrorBody m) ;; ret None
     | None =>
         let profile_role := mjoin (data a) in
         if negb (bool_decide
                    (Js.toLowerCase (Js.String_ (Js.or profile_role (Some ""))) = "admin"))
         then (respond 403 (ErrorBody "Admin access required") ;; ret None)
         else ret (Some {| userId := id |})
     end)
    (fun e =>
       respond 500 (ErrorBody (messageOr e "Admin check failed")) ;;
       ret None).

Definition requireAdmin (w : World) (req : Request) : M (option Principal) :=
  flow <- verifyIdentity w req ;;
  match flow with
  | Returned r => ret r
  | Next id => checkRole w id
  end.

(** [r.effective_from ? new Date(r.effective_from) : new Date(0)], as
    the time value of the date. *)
Definition dateOf (effective_from : option Z) : Z :=
  match effective_from with
  | Some t => t
  | None => 0
  end.

(** One turn of the loop of [getActiveRateByType]. *)
Definition keepLatest (latest : gmap string ScrapRate) (r : ScrapRate)
  : gmap string ScrapRate :=
  match latest !! scrap_type_id r with
  | None => <[scrap_type_id r := r]> latest
  | Some prev =>
      let prevDate := dateOf (effective_from prev) in
      let nextDate := dateOf (effective_from r) in
      if nextDate >=? prevDate then <[scrap_type_id r := r]> latest else latest
  end.

(** The loop of [getActiveRateByType] over the rows in the order the
    service returned them. *)
Definition latestOf (rows : list ScrapRate) : gmap string ScrapRate :=
  fold_left keepLatest rows ∅.

Definition getActiveRateByType (w : World) (supabase : Client)
  : M (gmap string ScrapRate) :=
  a <- selectActiveRates w supabase ;;
  match error a with
  | Some m => throw (Js.Error m)
  | None => ret (latestOf (default [] (data a)))
  end.

(** The two lines every route of the file opens with:
    [const admin = await requireAdmin(req, res); if (!admin) return;],
    followed by the rest of the route. *)
Definition gated (w : World) (req : Request) (rest : Principal -> M unit) : M unit :=
  admin <- requireAdmin w req ;;
  match admin with
  | None => ret tt
  | Some a => rest a
  end.

(** GET /api/admin/me *)
Definition getMe (w : World) (req : Request) : M unit :=
  gated w req (fun admin => respond 200 (MeBody (userId admin))).

(** [v.name] on a row object *)
Definition prop (v : gmap string JsValue.t) (name : string) : JsValue.t :=
  default JsValue.Undefined (v !! name).

Definition vendorRow (v : gmap string JsValue.t) : list (string * JsValue.t) :=
  [ ("vendor_id", JsValue.coalesce (prop v "vendor_id") JsValue.Null);
    ("vendor_ref", JsValue.coalesce (prop v "vendor_ref") JsValue.Null);
    ("offer_url", JsValue.coalesce (prop v "offer_url") JsValue.Null);
    ("latitude",
      JsValue.coalesce (JsValue.coalesce (prop v "latitude") (prop v "last_latitude"))
                       JsValue.Null);
    ("longitude",
      JsValue.coalesce (JsValue.coalesce (prop v "longitude") (prop v "last_longitude"))
                       JsValue.Null);
    ("updated_at", JsValue.coalesce (prop v "updated_at") JsValue.Null) ].

(** GET /api/admin/vendors *)
Definition getVendors (w : World) (req : Request) : M unit :=
  gated w req (fun _ =>
    try_catch
      (supabase <- lift (createServiceClient (supabase_js w) (process_env w)) ;;
       a <- selectVendors w supabase ;;
       match error a with
       | Some m => respond 400 (ErrorBody m)
       | None => respond 200 (VendorsBody (map vendorRow (default [] (data a))))
       end)
      (fun e => respond 500 (ErrorBody (messageOr e "Admin request failed")))).

(** [req.body?.name] *)
Definition field (req : Request) (name : string) : JsValue.t :=
  match req_body req with
  | Some b => default JsValue.Undefined (b !! name)
  | None => JsValue.Undefined
  end.

(** [String(req.body?.scrapTypeId || '')] *)
Definition rawScrapTypeId (w : World) (req : Request) : result string :=
  JsValue.String_ (conversions w) (JsValue.or (field req "scrapTypeId") (JsValue.Str "")).

(** [String(req.body?.scrapTypeId || '').trim()] *)
Definition scrapTypeIdOf (w : World) (req : Request) : result string :=
  result_map Js.trim (rawScrapTypeId w req).

(** [Number(req.body?.ratePerKg)] *)
Definition ratePerKgOf (w : World) (req : Request) : result JsValue.Number :=
  JsValue.Number_ (conversions w) (field req "ratePerKg").

(** POST /api/admin/scrap-rates, the body of [try]: every active row of
    the scrap type is made inactive, then the new row is inserted. *)
Definition deactivateThenInsert (w : World) (scrapTypeId : string)
    (ratePerKg : JsValue.Number) : M unit :=
  supabase <- lift (createServiceClient (supabase_js w) (process_env w)) ;;
  d <- deactivateRates w supabase scrapTypeId ;;
  match error d with
  | Some m => respond 400 (ErrorBody m)
  | None =>
      s <- get ;;
      let row := {| scrap_type_id := scrapTypeId;
                    rate_per_kg := ratePerKg;
                    effective_from := Some (now w (length (log s)));
                    is_active := true |} in
      a <- insertRate w supabase row ;;
      match error a with
      | Some m => respond 400 (ErrorBody m)
      | None =>
          match data a with
          | Some inserted =>
              respond 201 (RateBody (scrap_type_id inserted) (rate_per_kg inserted)
                                    (effective_from inserted))
          | None =>
              throw (Js.Error "Cannot read properties of null (reading 'scrap_type_id')")
          end
      end
  end.

(** POST /api/admin/scrap-rates once the gate has let the request in:
    the two conversions, which are outside the [try], the two
    validations, then the two writes. *)
Definition setRate (w : World) (req : Request) : M unit :=
  scrapTypeId <- lift (scrapTypeIdOf w req) ;;
  ratePerKg <- lift (ratePerKgOf w req) ;;
  if Js.isEmpty scrapTypeId
  then respond 400 (ErrorBody "scrapTypeId is required")
  else if negb (JsValue.isFinite ratePerKg) || JsValue.le0 ratePerKg
       then respond 400 (ErrorBody "ratePerKg must be a positive number")
       else try_catch (deactivateThenInsert w scrapTypeId ratePerKg)
              (fun e => respond 500 (ErrorBody (messageOr e "Admin request failed"))).

(** POST /api/admin/scrap-rates *)
Definition postScrapRates (w : World) (req : Request) : M unit :=
  gated w req (fun _ => setRate w req).

(** One request handled to its end: [res] is fresh when the handler
    starts, the tables and the log are those the requests before it
    left. *)
Definition handle (h : World -> Request -> M unit) (w : World) (req : Request)
    (s : State) : State :=
  snd (h w req {| projects := projects s; log := log s; res := None |}).

(** The active rows of one scrap type. *)
Definition activeRows (scrapTypeId : string) (t : Store) : list ScrapRate :=
  filter (fun r => scrap_type_id r = scrapTypeId ∧ is_active r = true) (scrap_rates t).

(** ** Notions the statements use *)

(** Every character of the string is white space. *)
Fixpoint allWhiteSpace (s : string) : bool :=
  match s with
  | EmptyString => true
  | String c s' => Js.isWhiteSpace c && allWhiteSpace s'
  end.

(** [c] is the letter [l], lower case, or its capital. *)
Definition sameLetter (l c : ascii) : bool :=
  bool_decide (c = l) || bool_decide (nat_of_ascii c + 32 = nat_of_ascii l)%nat.

(** [s] spells the lower-case word [word], in any mix of cases. *)
Fixpoint spells (word s : string) : bool :=
  match word, s with
  | EmptyString, EmptyString => true
  | String l word', String c s' => sameLetter l c && spells word' s'
  | _, _ => false
  end.

(** Every character of the word is one of a..z. *)
Fixpoint lowerWord (word : string) : bool :=
  match word with
  | EmptyString => true
  | String l word' =>
      (97 <=? nat_of_ascii l)%nat && (nat_of_ascii l <=? 122)%nat && lowerWord word'
  end.

(** The configuration value is the word true, in any mix of cases. *)
Definition saysTrue (v : option string) : Prop :=
  exists s, v = Some s /\ spells "true" s = true.

(** A number is finite and strictly greater than 0. *)
Definition positiveFinite (n : JsValue.Number) : Prop :=
  match n with
  | JsValue.Finite q => (0 < q)%Q
  | _ => False
  end.

(** The role is the word admin, in any mix of cases. *)
Definition isAdminRole (stored : option string) : Prop :=
  exists r, stored = Some r /\ spells "admin" r = true.

(** The role the data project stores for a user: that of the row of
    [profiles] with the user's id; no row, or SQL [null], is [None]. *)
Definition storedRole (userId : string) (t : Store) : option string :=
  head (profilesOf userId t) ≫= role.

(** The fallback texts of the three kinds of [catch]. *)
Definition genericMessages : list string :=
  ["Auth check failed"; "Admin check failed"; "Admin request failed"].

(** Where the exception came from that a [catch] of the gate, or of a
    route when it reads the vendors or the rates, caught in the run that
    took the state [s] to [s']: a factory that threw for the environment
    and the token of this request; the identity service rejecting the
    [getUser] this run sent; the data service rejecting a request this
    run sent; or the error the data service answered to the query of
    the active rates this run sent, which [getActiveRateByType] throws.
    The request numbered [n] is the one at place [n] of the log. *)
Inductive caughtFrom (w : World) (req : Request) (s s' : State) : Thrown -> Prop :=
| from_anon_factory (jwt : string) (e : Thrown) :
    getBearerToken w req = Some jwt ->
    createAnonClientWithJwt (supabase_js w) (process_env w) jwt = Throw e ->
    caughtFrom w req s s' e
| from_service_factory (e : Thrown) :
    createServiceClient (supabase_js w) (process_env w) = Throw e ->
    caughtFrom w req s s' e
| from_getUser (n : nat) (anon : Client) (e : Thrown) :
    (length (log s) <= n)%nat -> log s' !! n = Some (Sent anon GetUser) ->
    getUser w n anon = Throw e ->
    caughtFrom w req s s' e
| from_rejection (n : nat) (c : Client) (q : Query) (e : Thrown) :
    (length (log s) <= n)%nat -> log s' !! n = Some (Sent c q) -> q <> GetUser ->
    fate w n = Rejected e ->
    caughtFrom w req s s' e
| from_rates_error (n : nat) (c : Client) (m : string) :
    (length (log s) <= n)%nat -> log s' !! n = Some (Sent c SelectActiveRates) ->
    fate w n = Refused m ->
    caughtFrom w req s s' (Js.Error m).


(** At the end of a run from [s] to [s'], a response with status 500
    says what the exception the run caught says, or, when that says
    nothing, one of the fallback texts. *)
Definition carriesCaught (w : World) (req : Request) (s s' : State) : Prop :=
  forall r, res s' = Some r -> status r = 500%nat ->
  exists e fallback,
    caughtFrom w req s s' e /\ fallback ∈ genericMessages /\
    body r = ErrorBody (messageOr e fallback).

(** The rate of the request is a finite number above 0, as the
    specification words the validation: on the value the request
    carries, before any conversion. *)
Definition validRateAsSpecified (v : JsValue.t) : Prop :=
  exists q, v = JsValue.Num (JsValue.Finite q) /\ (0 < q)%Q.

(** The comparison the specification words: the later or equal
    timestamp wins, and an absent timestamp is the earliest possible
    instant, before every timestamp. *)
Definition laterOrEqual (next prev : option Z) : bool :=
  match prev, next with
  | None, _ => true
  | Some _, None => false
  | Some p, Some n => n >=? p
  end.

(** The reduction of [getActiveRateByType] as the specification words
    it, to be compared with [latestOf]. *)
Definition latestOfAsSpecified (rows : list ScrapRate) : gmap string ScrapRate :=
  fold_left
    (fun latest r =>
       match latest !! scrap_type_id r with
       | None => <[scrap_type_id r := r]> latest
       | Some prev =>
           if laterOrEqual (effective_from r) (effective_from prev)
           then <[scrap_type_id r := r]> latest
           else latest
       end)
    rows ∅.

(** The instant the reduction takes a row to be in force from. *)
Definition since (r : ScrapRate) : Z := dateOf (effective_from r).

(** ** Worlds and requests of the examples *)

(** Modelled from the spec: [getBearerToken] of [supabase/auth.js], which
    is not in the tree. It reads the bearer token from the authorization
    header: what follows [Bearer ] there, and [null] when the header is
    absent or does not start so. *)
Definition headerBearer (req : Request) : option string :=
  match headers req !! "authorization" with
  | Some h =>
      if String.prefix "Bearer " h
      then Some (String.substring 7 (String.length h - 7) h)
      else None
  | None => None
  end.

(** Modelled from the documentation of supabase-js, for the examples
    only: an endpoint has to start with [http://] or [https://]. *)
Definition httpOnly : SupabaseJs :=
  {| refuses := fun url _ =>
       if String.prefix "https://" url || String.prefix "http://" url then None
       else Some (Js.Error "Invalid supabaseUrl: Must be a valid HTTP or HTTPS URL.") |}.

(** The examples convert no number to a string and no string to a
    number; this stand-in answers [NaN] to both. *)
Definition noConversions : JsValue.Conversions :=
  {| JsValue.NumberToString := fun _ => "NaN";
     JsValue.StringToNumber := fun _ => JsValue.NaN |}.

Definition bothProjects : Env :=
  <[ "ALLOW_ADMIN_PORTAL" := "true" ]>
  (<[ "ADMIN_AUTH_SUPABASE_URL" := "https://auth.supabase.co" ]>
  (<[ "ADMIN_AUTH_SUPABASE_ANON_KEY" := "auth-anon-key" ]>
  (<[ "SUPABASE_URL" := "https://data.supabase.co" ]>
  {[ "SUPABASE_SERVICE_ROLE_KEY" := "data-service-key" ]}))).

(** A world where both sets of variables are configured, the identity
    service vouches for user [u-1] whatever the token, the data service
    carries out every request, and the clock shows the number of events
    so far. *)
Definition calmWorld : World :=
  {| process_env := bothProjects;
     supabase_js := httpOnly;
     getBearerToken := headerBearer;
     getUser := fun _ _ => Return {| user_error := None; user_id := Some "u-1" |};
     fate := fun _ => Served;
     now := fun n => Z.of_nat n;
     conversions := noConversions |}.


(** The same with nothing configured at all: the portal is disabled. *)
Definition closedWorld : World :=
  {| process_env := ∅;
     supabase_js := httpOnly;
     getBearerToken := headerBearer;
     getUser := fun _ _ => Return {| user_error := None; user_id := Some "u-1" |};
     fate := fun _ => Served;
     now := fun n => Z.of_nat n;
     conversions := noConversions |}.

Definition withBearer (body : option (gmap string JsValue.t)) : Request :=
  {| headers := {[ "authorization" := "Bearer token-1" ]}; req_body := body |}.

Definition withoutBearer : Request :=
  {| headers := ∅; req_body := None |}.

Definition rateRequest (scrapTypeId : string) (ratePerKg : JsValue.t) : Request :=
  withBearer (Some (<[ "scrapTypeId" := JsValue.Str scrapTypeId ]>
                      {[ "ratePerKg" := ratePerKg ]})).

(** The data project knows [u-1] with the given role and holds no rate. *)
Definition startState (r : option string) : State :=
  {| projects :=
       {[ "https://data.supabase.co" :=
            {| profiles := [ {| profile_id := "u-1"; role := r |} ];
               scrap_rates := [];
               vendor_backends := [] |} ]};
     log := [];
     res := None |}.

(** ** More of the two files *)

(** A configuration value that cannot be used: not set, or blank. *)
Definition unusable (v : option string) : Prop :=
  v = None \/ exists s, v = Some s /\ blank s = true.

(** The exception is what [createClient] throws for some endpoint and
    some key that are both not blank, so that the checks of the file
    let them through. *)
Definition thrownByLibrary (lib : SupabaseJs) (e : Thrown) : Prop :=
  exists url key, blank url = false /\ blank key = false /\ refuses lib url key = Some e.

(** A world in which the data service answers the request numbered [n]
    with an error and carries out the others. *)
Definition refusingWorld (n : nat) : World :=
  {| process_env := bothProjects;
     supabase_js := httpOnly;
     getBearerToken := headerBearer;
     getUser := fun _ _ => Return {| user_error := None; user_id := Some "u-1" |};
     fate := fun k => if (k =? n)%nat then Refused "permission denied for table scrap_rates"
                      else Served;
     now := fun k => Z.of_nat k;
     conversions := noConversions |}.

(** ** The routes of the scrap types, the site statistics and the
       testimonials

    These routes talk to three more tables. What the data service
    answers to them is given from outside, request by request; the
    embedding keeps the requests sent, in order, and the answer the
    route gives. Error answers go through [res] as before. *)

(** A row object of the data service, and a row or a patch sent to it. *)
Abbreviation Row := (gmap string JsValue.t).

(** The requests of these routes, by table: [select] with the columns,
    order and limit the route fixes for the table; [insert([row])] read
    back with [single()]; [update(patch).eq('id', id)] read back with
    [maybeSingle()]. *)
Inductive ContentQuery : Type :=
| SelectFrom (table : string)
| InsertInto (table : string) (row : Row)
| UpdateIn (table : string) (id : string) (patch : Row).

(** The world of these routes: the world of the gate and of the rates,
    and what the data service answers to the request numbered [n] of a
    run, to a [select] and to a write. *)
Record Backend := {
  world : World;
  listed : nat -> Client -> string -> result (Answer (list Row));
  written : nat -> Client -> ContentQuery -> result (Answer Row)
}.

(** A scrap type as GET /scrap-types lists it. *)
Record ScrapTypeOut := {
  out_id : JsValue.t;
  out_name : JsValue.t;
  out_ratePerKg : option JsValue.Number;
  out_effectiveFrom : option Z
}.

(** The payloads of the answers with [success: true]. *)
Inductive ContentBody : Type :=
| ScrapTypesBody (scrapTypes : list ScrapTypeOut)
| ScrapTypeBody (scrapType : option Row)
| StatsBody (stats : list (list (string * JsValue.t)))
| StatBody (stat : list (string * JsValue.t))
| TestimonialsBody (testimonials : list (list (string * JsValue.t)))
| TestimonialBody (testimonial : list (string * JsValue.t)).

(** The state of the server for these routes: the state of before, the
    requests sent to the three tables, and the successful answer, if
    one was given. *)
Record Site := {
  core : State;
  sent : list (Client * ContentQuery);
  page : option (nat * ContentBody)
}.

Definition C (A : Type) : Type := Site -> result A * Site.

Definition retC {A} (a : A) : C A := fun t => (Return a, t).

Definition bindC {A B} (m : C A) (k : A -> C B) : C B :=
  fun t =>
    match m t with
    | (Return a, t') => k a t'
    | (Throw e, t') => (Throw e, t')
    end.

Definition throwC {A} (e : Thrown) : C A := fun t => (Throw e, t).

(** [try { m } catch (e) { h e }] *)
Definition try_catchC {A} (m : C A) (h : Thrown -> C A) : C A :=
  fun t =>
    match m t with
    | (Return a, t') => (Return a, t')
    | (Throw e, t') => h e t'
    end.

(** A step of the gate or of the rates, run on the state of before. *)
Definition liftM {A} (m : M A) : C A :=
  fun t =>
    let (r, s') := m (core t) in
    (r, {| core := s'; sent := sent t; page := page t |}).

Declare Scope content_scope.
Delimit Scope content_scope with content.
Notation "x <- m ;; k" := (bindC m (fun x => k))
  (at level 100, m at next level, right associativity) : content_scope.
Local Open Scope content_scope.

(** [res.status(code).json({ success: false, error })] *)
Definition fail (code : nat) (message : string) : C unit :=
  liftM (respond code (ErrorBody message)).

(** [res.status(code).json({ success: true, ... })] *)
Definition succeed (code : nat) (b : ContentBody) : C unit :=
  fun t => (Return tt, {| core := core t; sent := sent t; page := Some (code, b) |}).

(** A [select], logged and answered from outside. *)
Definition selectFrom (b : Backend) (supabase : Client) (table : string)
  : C (Answer (list Row)) :=
  fun t =>
    (listed b (length (sent t)) supabase table,
     {| core := core t; sent := sent t ++ [(supabase, SelectFrom table)]; page := page t |}).

(** A write read back, logged and answered from outside. *)
Definition write (b : Backend) (supabase : Client) (q : ContentQuery)
  : C (Answer Row) :=
  fun t =>
    (written b (length (sent t)) supabase q,
     {| core := core t; sent := sent t ++ [(supabase, q)]; page := page t |}).

(** The opening of every route, as [gated]. *)
Definition gatedC (b : Backend) (req : Request) (rest : Principal -> C unit) : C unit :=
  admin <- liftM (requireAdmin (world b) req) ;;
  match admin with
  | None => retC tt
  | Some a => rest a
  end.

(** [catch (e) { return res.status(500).json(...) }] of these routes *)
Definition caught (e : Thrown) : C unit :=
  fail 500 (messageOr e "Admin request failed").

(** [String(v || '').trim()] *)
Definition trimmedText (b : Backend) (v : JsValue.t) : result string :=
  result_map Js.trim
    (JsValue.String_ (conversions (world b)) (JsValue.or v (JsValue.Str ""))).

(** [String(req.params.id || '').trim()], for the string the router
    took from the path. *)
Definition trimmedParam (id : string) : string :=
  Js.trim (Js.String_ (Js.or (Some id) (Some ""))).

(** [v === undefined] *)
Definition isUndefined (v : JsValue.t) : bool :=
  match v with
  | JsValue.Undefined => true
  | _ => false
  end.

(** [v === null] *)
Definition isNull (v : JsValue.t) : bool :=
  match v with
  | JsValue.Null => true
  | _ => false
  end.

(** A number or [null], as a value. *)
Definition numberOrNull (n : option JsValue.Number) : JsValue.t :=
  match n with
  | Some x => JsValue.Num x
  | None => JsValue.Null
  end.

(** [n !== null && !Number.isFinite(n)] *)
Definition notFinite (n : option JsValue.Number) : bool :=
  match n with
  | Some x => negb (JsValue.isFinite x)
  | None => false
  end.

(** [a < b] on numbers *)
Definition numLt (a b : JsValue.Number) : bool :=
  match a, b with
  | JsValue.NaN, _ | _, JsValue.NaN => false
  | JsValue.Infinity true, JsValue.Infinity true => false
  | JsValue.Infinity true, _ => true
  | _, JsValue.Infinity true => false
  | JsValue.Infinity false, _ => false
  | JsValue.Finite _, JsValue.Infinity false => true
  | JsValue.Finite p, JsValue.Finite q => negb (Qle_bool q p)
  end.

(** [rating !== null && (!Number.isFinite(rating) || rating < 1 || rating > 5)] *)
Definition badRating (rating : option JsValue.Number) : bool :=
  match rating with
  | Some x =>
      negb (JsValue.isFinite x) || numLt x (JsValue.Finite 1) || numLt (JsValue.Finite 5) x
  | None => false
  end.

(** What reading a property of [null] throws. *)
Definition nullRead (name : string) : Thrown :=
  Js.Error ("Cannot read properties of null (reading '" ++ name ++ "')").

(** The [try] of the three PATCH routes, which share one shape: the
    update read back with [maybeSingle()], 400 on an error, 404 when no
    row came back, else 200 with the row. *)
Definition updateRow (b : Backend) (table id : string) (patch : Row)
    (notFound : string) (wrap : Row -> ContentBody) : C unit :=
  try_catchC
    (supabase <- liftM (lift (createServiceClient (supabase_js (world b)) (process_env (world b)))) ;;
     a <- write b supabase (UpdateIn table id patch) ;;
     match error a with
     | Some m => fail 400 m
     | None =>
         match data a with
         | None => fail 404 notFound
         | Some d => succeed 200 (wrap d)
         end
     end)
    caught.

(** The [try] of POST /site-stats and POST /testimonials: the insert
    read back with [single()], 400 on an error, else 201 with the
    fields of the row; reading them off [null] throws. *)
Definition insertRow (b : Backend) (table : string) (row : Row)
    (wrap : Row -> ContentBody) : C unit :=
  try_catchC
    (supabase <- liftM (lift (createServiceClient (supabase_js (world b)) (process_env (world b)))) ;;
     a <- write b supabase (InsertInto table row) ;;
     match error a with
     | Some m => fail 400 m
     | None =>
         match data a with
         | Some d => succeed 201 (wrap d)
         | None => throwC (nullRead "id")
         end
     end)
    caught.

(** The [try] of GET /site-stats and GET /testimonials: 400 on an
    error, else 200 with one object for each row of [data || []]. *)
Definition listRows (b : Backend) (table : string)
    (wrap : list Row -> ContentBody) : C unit :=
  try_catchC
    (supabase <- liftM (lift (createServiceClient (supabase_js (world b)) (process_env (world b)))) ;;
     a <- selectFrom b supabase table ;;
     match error a with
     | Some m => fail 400 m
     | None => succeed 200 (wrap (default [] (data a)))
     end)
    caught.

(** *** Scrap types *)

(** One row of GET /scrap-types: [rates.get(t.id)], then the four
    fields. The keys of [rates] are strings. *)
Definition scrapTypeOut (rates : gmap string ScrapRate) (t : Row) : ScrapTypeOut :=
  let r := match prop t "id" with
           | JsValue.Str k => rates !! k
           | _ => None
           end in
  {| out_id := prop t "id";
     out_name := prop t "name";
     out_ratePerKg := rate_per_kg <$> r;
     out_effectiveFrom := r ≫= effective_from |}.

(** GET /api/admin/scrap-types *)
Definition getScrapTypes (b : Backend) (req : Request) : C unit :=
  gatedC b req (fun _ =>
    try_catchC
      (supabase <- liftM (lift (createServiceClient (supabase_js (world b)) (process_env (world b)))) ;;
       types <- selectFrom b supabase "scrap_types" ;;
       match error types with
       | Some m => fail 400 m
       | None =>
           rates <- liftM (getActiveRateByType (world b) supabase) ;;
           succeed 200 (ScrapTypesBody (map (scrapTypeOut rates) (default [] (data types))))
       end)
      caught).

(** POST /api/admin/scrap-types *)
Definition postScrapType (b : Backend) (req : Request) : C unit :=
  gatedC b req (fun _ =>
    name <- liftM (lift (trimmedText b (field req "name"))) ;;
    if Js.isEmpty name then fail 400 "name is required"
    else
      try_catchC
        (supabase <- liftM (lift (createServiceClient (supabase_js (world b)) (process_env (world b)))) ;;
         a <- write b supabase (InsertInto "scrap_types" {[ "name" := JsValue.Str name ]}) ;;
         match error a with
         | Some m => fail 400 m
         | None => succeed 201 (ScrapTypeBody (data a))
         end)
        caught).

(** PATCH /api/admin/scrap-types/:id *)
Definition patchScrapType (b : Backend) (param : string) (req : Request) : C unit :=
  gatedC b req (fun _ =>
    let id := trimmedParam param in
    name <- liftM (lift (trimmedText b (field req "name"))) ;;
    if Js.isEmpty id then fail 400 "id is required"
    else if Js.isEmpty name then fail 400 "name is required"
    else updateRow b "scrap_types" id {[ "name" := JsValue.Str name ]}
                   "scrap type not found" (fun d => ScrapTypeBody (Some d))).

(** *** Site statistics *)

(** The object the routes answer for one row of [site_stats]. *)
Definition statOut (r : Row) : list (string * JsValue.t) :=
  [ ("id", prop r "id");
    ("label", prop r "label");
    ("value", prop r "value");
    ("sortOrder", JsValue.coalesce (prop r "sort_order") JsValue.Null);
    ("isActive", JsValue.Bool (JsValue.ToBoolean (prop r "is_active"))) ].

(** GET /api/admin/site-stats *)
Definition getSiteStats (b : Backend) (req : Request) : C unit :=
  gatedC b req (fun _ =>
    listRows b "site_stats" (fun rows => StatsBody (map statOut rows))).

(** [v === undefined ? null : Number(v)] *)
Definition numberUnlessUndefined (b : Backend) (v : JsValue.t)
  : result (option JsValue.Number) :=
  if isUndefined v then Return None
  else result_map Some (JsValue.Number_ (conversions (world b)) v).

(** [v === null ? null : Number(v)] *)
Definition numberUnlessNull (b : Backend) (v : JsValue.t)
  : result (option JsValue.Number) :=
  if isNull v then Return None
  else result_map Some (JsValue.Number_ (conversions (world b)) v).

(** [v === undefined ? true : Boolean(v)] *)
Definition activeUnlessUndefined (v : JsValue.t) : bool :=
  if isUndefined v then true else JsValue.ToBoolean v.

(** POST /api/admin/site-stats; the conversions come first and are
    outside the [try]. *)
Definition postSiteStat (b : Backend) (req : Request) : C unit :=
  gatedC b req (fun _ =>
    label <- liftM (lift (trimmedText b (field req "label"))) ;;
    value <- liftM (lift (trimmedText b (field req "value"))) ;;
    sortOrder <- liftM (lift (numberUnlessUndefined b (field req "sortOrder"))) ;;
    let isActive := activeUnlessUndefined (field req "isActive") in
    if Js.isEmpty label then fail 400 "label is required"
    else if Js.isEmpty value then fail 400 "value is required"
    else if notFinite sortOrder then fail 400 "sortOrder must be a number"
    else
      insertRow b "site_stats"
        (<[ "label" := JsValue.Str label ]>
         (<[ "value" := JsValue.Str value ]>
         (<[ "sort_order" := numberOrNull sortOrder ]>
         {[ "is_active" := JsValue.Bool isActive ]})))
        (fun d => StatBody (statOut d))).

(** [if (req.body?.name !== undefined) patch.column =
    String(req.body.name || '').trim();], a line the two patches have
    for each of their text fields. *)
Definition withText (b : Backend) (req : Request) (name column : string) (patch : Row)
  : result Row :=
  if negb (isUndefined (field req name))
  then (text <- trimmedText b (field req name) ;;
        Return (<[ column := JsValue.Str text ]> patch))%result
  else Return patch.

(** [if (req.body?.isActive !== undefined) patch.is_active =
    Boolean(req.body.isActive);] *)
Definition withActive (req : Request) (patch : Row) : Row :=
  if negb (isUndefined (field req "isActive"))
  then <[ "is_active" := JsValue.Bool (JsValue.ToBoolean (field req "isActive")) ]> patch
  else patch.

(** The end of the patches of PATCH /site-stats/:id and PATCH
    /testimonials/:id, which is the same in both: [sortOrder], which
    may end the route with a 400, then [isActive]. *)
Definition orderAndActive (b : Backend) (req : Request) (patch : Row)
  : result (string + Row) :=
  if negb (isUndefined (field req "sortOrder"))
  then
    (sortOrder <- numberUnlessNull b (field req "sortOrder") ;;
     if notFinite sortOrder then Return (inl "sortOrder must be a number")
     else Return (inr (withActive req (<[ "sort_order" := numberOrNull sortOrder ]> patch))))%result
  else Return (inr (withActive req patch)).

(** The patch of PATCH /site-stats/:id, built field by field: the
    patch, or the message of the 400 that ends the route while it is
    built, or the exception of a conversion. *)
Definition statPatch (b : Backend) (req : Request) : result (string + Row) :=
  (patch <- withText b req "label" "label" ∅ ;;
   patch <- withText b req "value" "value" patch ;;
   orderAndActive b req patch)%result.

(** PATCH /api/admin/site-stats/:id *)
Definition patchSiteStat (b : Backend) (param : string) (req : Request) : C unit :=
  gatedC b req (fun _ =>
    let id := trimmedParam param in
    if Js.isEmpty id then fail 400 "id is required"
    else
      built <- liftM (lift (statPatch b req)) ;;
      match built with
      | inl message => fail 400 message
      | inr patch =>
          if (size patch =? 0)%nat then fail 400 "No fields to update"
          else updateRow b "site_stats" id patch "stat not found"
                         (fun d => StatBody (statOut d))
      end).

(** *** Testimonials *)

(** The object the routes answer for one row of [testimonials]. *)
Definition testimonialOut (r : Row) : list (string * JsValue.t) :=
  [ ("id", prop r "id");
    ("name", prop r "name");
    ("quote", prop r "quote");
    ("role", JsValue.coalesce (prop r "role") JsValue.Null);
    ("rating", JsValue.coalesce (prop r "rating") JsValue.Null);
    ("sortOrder", JsValue.coalesce (prop r "sort_order") JsValue.Null);
    ("isActive", JsValue.Bool (JsValue.ToBoolean (prop r "is_active"))) ].

(** GET /api/admin/testimonials *)
Definition getTestimonials (b : Backend) (req : Request) : C unit :=
  gatedC b req (fun _ =>
    listRows b "testimonials" (fun rows => TestimonialsBody (map testimonialOut rows))).

(** [role || null], for a role that is a string or [null] *)
Definition roleOrNull (role : option string) : JsValue.t :=
  match role with
  | Some s => if Js.isEmpty s then JsValue.Null else JsValue.Str s
  | None => JsValue.Null
  end.

(** [v === undefined ? null : String(v || '').trim()] *)
Definition textUnlessUndefined (b : Backend) (v : JsValue.t) : result (option string) :=
  if isUndefined v then Return None else result_map Some (trimmedText b v).

(** POST /api/admin/testimonials; the conversions come first and are
    outside the [try]. *)
Definition postTestimonial (b : Backend) (req : Request) : C unit :=
  gatedC b req (fun _ =>
    name <- liftM (lift (trimmedText b (field req "name"))) ;;
    quote <- liftM (lift (trimmedText b (field req "quote"))) ;;
    role <- liftM (lift (textUnlessUndefined b (field req "role"))) ;;
    rating <- liftM (lift (numberUnlessUndefined b (field req "rating"))) ;;
    sortOrder <- liftM (lift (numberUnlessUndefined b (field req "sortOrder"))) ;;
    let isActive := activeUnlessUndefined (field req "isActive") in
    if Js.isEmpty name then fail 400 "name is required"
    else if Js.isEmpty quote then fail 400 "quote is required"
    else if badRating rating then fail 400 "rating must be between 1 and 5"
    else if notFinite sortOrder then fail 400 "sortOrder must be a number"
    else
      insertRow b "testimonials"
        (<[ "name" := JsValue.Str name ]>
         (<[ "quote" := JsValue.Str quote ]>
         (<[ "role" := roleOrNull role ]>
         (<[ "rating" := numberOrNull rating ]>
         (<[ "sort_order" := numberOrNull sortOrder ]>
         {[ "is_active" := JsValue.Bool isActive ]})))))
        (fun d => TestimonialBody (testimonialOut d))).

(** [req.body.role ? String(req.body.role).trim() : null] *)
Definition patchedRole (b : Backend) (v : JsValue.t) : result JsValue.t :=
  if JsValue.ToBoolean v
  then result_map (fun text => JsValue.Str (Js.trim text))
                  (JsValue.String_ (conversions (world b)) v)
  else Return JsValue.Null.

(** The patch of PATCH /testimonials/:id, built field by field: the
    patch, or the message of the 400 that ends the route while it is
    built, or the exception of a conversion. *)
Definition testimonialPatch (b : Backend) (req : Request) : result (string + Row) :=
  (patch <- withText b req "name" "name" ∅ ;;
   patch <- withText b req "quote" "quote" patch ;;
   patch <- (if negb (isUndefined (field req "role"))
             then role <- patchedRole b (field req "role") ;;
                  Return (<[ "role" := role ]> patch)
             else Return patch) ;;
   if negb (isUndefined (field req "rating"))
   then
     rating <- numberUnlessNull b (field req "rating") ;;
     if badRating rating then Return (inl "rating must be between 1 and 5")
     else orderAndActive b req (<[ "rating" := numberOrNull rating ]> patch)
   else orderAndActive b req patch)%result.

(** PATCH /api/admin/testimonials/:id *)
Definition patchTestimonial (b : Backend) (param : string) (req : Request) : C unit :=
  gatedC b req (fun _ =>
    let id := trimmedParam param in
    if Js.isEmpty id then fail 400 "id is required"
    else
      built <- liftM (lift (testimonialPatch b req)) ;;
      match built with
      | inl message => fail 400 message
      | inr patch =>
          if (size patch =? 0)%nat then fail 400 "No fields to update"
          else updateRow b "testimonials" id patch "testimonial not found"
                         (fun d => TestimonialBody (testimonialOut d))
      end).

Close Scope content_scope.

(** The nine routes of the three tables, for one request; [param] is
    the [:id] of the path, which only the PATCH routes read. *)
Definition contentRoutes (b : Backend) (param : string) (req : Request) : list (C unit) :=
  [ getScrapTypes b req; postScrapType b req; patchScrapType b param req;
    getSiteStats b req; postSiteStat b req; patchSiteStat b param req;
    getTestimonials b req; postTestimonial b req; patchTestimonial b param req ].

(** A state with another [core]. *)
Definition with_core (s : State) (t : Site) : Site :=
  {| core := s; sent := sent t; page := page t |}.

(** A state with a successful answer. *)
Definition with_page (code : nat) (body : ContentBody) (t : Site) : Site :=
  {| core := core t; sent := sent t; page := Some (code, body) |}.

(** The backend of the examples: the calm world, a data service that
    finds no row to list and answers every write with the row it was
    sent, or with the patch and the id for an update. *)
Definition calmBackend : Backend :=
  {| world := calmWorld;
     listed := fun _ _ _ => Return {| data := Some []; error := None |};
     written := fun _ _ q =>
       match q with
       | SelectFrom _ => Return {| data := None; error := None |}
       | InsertInto _ row =>
           Return {| data := Some (<[ "id" := JsValue.Str "row-1" ]> row); error := None |}
       | UpdateIn _ id patch =>
           Return {| data := Some (<[ "id" := JsValue.Str id ]> patch); error := None |}
       end |}.


(** A state of the examples: user [u-1] with the given role, nothing
    sent, nothing answered. *)
Definition startSite (r : option string) : Site :=
  {| core := startState r; sent := []; page := None |}.

(** The state the gate leaves from [startState] when it lets [u-1] in. *)
Definition admittedState (r : option string) : State :=
  add_event
    (Sent (clientFor "https://data.supabase.co" "data-service-key" None)
          (SelectRole "u-1"))
    (add_event
       (Sent (clientFor "https://auth.supabase.co" "auth-anon-key"
                           (Some "Bearer token-1")) GetUser)
       (add_event BearerRead (startState r))).

Definition dataClient : Client :=
  clientFor "https://data.supabase.co" "data-service-key" None.

Definition bodyOf (fields : list (string * JsValue.t)) : Request :=
  withBearer (Some (list_to_map fields)).

(** None of the named fields is in the body of the request. *)
Definition absent (req : Request) (names : list string) : Prop :=
  Forall (fun name => field req name = JsValue.Undefined) names.

(** The string is empty or starts with a character that is not white
    space. *)
Definition startsClean (s : string) : Prop :=
  match s with
  | EmptyString => True
  | String c _ => Js.isWhiteSpace c = false
  end.

(** [String(v)] and [Number(v)] give a value for [v]: it is not an
    object or an array whose conversion to a primitive throws. *)
Definition converts (v : JsValue.t) : Prop := v <> JsValue.Obj None.



(** * Properties *)

(** ** Strings *)

Lemma isEmpty_true (s : string) : Js.isEmpty s = true <-> s = "".
Proof. destruct s; simpl; split; congruence. Qed.

Lemma isEmpty_trimEnd (s : string) : Js.isEmpty (Js.trimEnd s) = allWhiteSpace s.
Proof.
  induction s as [|c s IH]; simpl; [reflexivity|].
  rewrite <- IH.
  destruct (Js.isWhiteSpace c), (Js.isEmpty (Js.trimEnd s)); reflexivity.
Qed.

Lemma allWhiteSpace_trimStart (s : string) :
  allWhiteSpace (Js.trimStart s) = allWhiteSpace s.
Proof.
  induction s as [|c s IH]; simpl; [reflexivity|].
  destruct (Js.isWhiteSpace c) eqn:Hc; simpl; [exact IH | now rewrite Hc].
Qed.

(** A string is blank exactly when it is empty or white space only. *)
Lemma blank_allWhiteSpace (s : string) : blank s = allWhiteSpace s.
Proof.
  unfold blank, Js.trim. now rewrite isEmpty_trimEnd, allWhiteSpace_trimStart.
Qed.

Lemma blank_not_empty (s : string) : blank s = false -> Js.isEmpty s = false.
Proof. destruct s; [vm_compute; congruence | reflexivity]. Qed.

Lemma lowerChar_letter (l c : ascii) :
  (97 <= nat_of_ascii l <= 122)%nat ->
  Js.lowerChar c = l <-> sameLetter l c = true.
Proof.
  intros Hl. unfold Js.lowerChar, sameLetter.
  pose proof (nat_ascii_bounded c) as Hc.
  rewrite orb_true_iff, !bool_decide_eq_true.
  destruct (_ || _) eqn:Hcase.
  - assert (Hrange : (65 <= nat_of_ascii c <= 90 \/ 192 <= nat_of_ascii c <= 222)%nat).
    { apply orb_true_iff in Hcase as [H|H].
      - apply andb_true_iff in H as [H1 H2].
        apply Nat.leb_le in H1, H2. lia.
      - apply andb_true_iff in H as [H _]. apply andb_true_iff in H as [H1 H2].
        apply Nat.leb_le in H1, H2. lia. }
    split.
    + intros <-. right. rewrite nat_ascii_embedding; lia.
    + intros [-> | H]; [lia|].
      rewrite H. apply ascii_nat_embedding.
  - split; [now left|].
    intros [H | H]; [exact H|]. exfalso.
    apply orb_false_iff in Hcase as [H1 _].
    apply andb_false_iff in H1 as [H1 | H1]; apply Nat.leb_gt in H1; lia.
Qed.

(** Lower-casing gives a lower-case word exactly on the strings that
    spell it in some mix of cases. *)
Lemma toLowerCase_spells (word s : string) :
  lowerWord word = true ->
  Js.toLowerCase s = word <-> spells word s = true.
Proof.
  revert s. induction word as [|l word IH]; intros [|c s] Hw;
    cbn [lowerWord Js.toLowerCase spells] in *; try (split; congruence).
  apply andb_true_iff in Hw as [Hl Hw]. apply andb_true_iff in Hl as [Hl1 Hl2].
  apply Nat.leb_le in Hl1, Hl2.
  rewrite andb_true_iff, <- (IH s Hw), <- (lowerChar_letter l c) by lia.
  split; [intros [= H1 H2]; auto | intros [-> ->]; reflexivity].
Qed.

(** ** Credential resolution *)

Lemma requireEnv_Return (env : Env) (name v : string) :
  requireEnv env name = Return v <-> env !! name = Some v /\ blank v = false.
Proof.
  unfold requireEnv. destruct (env !! name) as [x|] eqn:Hx; simpl.
  - destruct (blank x) eqn:Hb.
    + rewrite orb_true_r. split; [congruence | intros [[= ->] ?]; congruence].
    + rewrite (blank_not_empty x Hb). simpl.
      split; [intros [= ->]; auto | intros [[= ->] _]; reflexivity].
  - split; [congruence | intros [? _]; congruence].
Qed.

Lemma requireEnv_Throw (env : Env) (name : string) (e : Thrown) :
  requireEnv env name = Throw e -> e = missing name.
Proof. unfold requireEnv. case_match; congruence. Qed.

Lemma requireEnvFromPair_Throw (env : Env) (name : string) (value : option string)
    (e : Thrown) :
  requireEnvFromPair env name value = Throw e -> e = missing name.
Proof. unfold requireEnvFromPair. repeat case_match; congruence. Qed.

(** How the factories resolve a variable: [resolve] on the explicit
    name, with the legacy value as the fallback. *)
Lemma createAnonClientWithJwt_resolve (lib : SupabaseJs) (env : Env) (jwt : string) :
  createAnonClientWithJwt lib env jwt =
  match resolve env "ADMIN_AUTH_SUPABASE_URL" (env !! "SUPABASE_URL") with
  | Throw e => Throw e
  | Return url =>
      match resolve env "ADMIN_AUTH_SUPABASE_ANON_KEY" (env !! "SUPABASE_ANON_KEY") with
      | Throw e => Throw e
      | Return key => createClient lib url key (Some ("Bearer " ++ jwt))
      end
  end.
Proof. reflexivity. Qed.

Lemma createAuthServiceClient_resolve (lib : SupabaseJs) (env : Env) :
  createAuthServiceClient lib env =
  match resolve env "ADMIN_AUTH_SUPABASE_URL" (env !! "SUPABASE_URL") with
  | Throw e => Throw e
  | Return url =>
      match resolve env "ADMIN_AUTH_SUPABASE_SERVICE_ROLE_KEY"
                    (env !! "SUPABASE_SERVICE_ROLE_KEY") with
      | Throw e => Throw e
      | Return key => createClient lib url key None
      end
  end.
Proof. reflexivity. Qed.

Lemma createCustomerServiceClient_resolve (lib : SupabaseJs) (env : Env) :
  createCustomerServiceClient lib env =
  match resolve env "CUSTOMER_SUPABASE_URL" (auth_url (getAuthProjectEnv env)) with
  | Throw e => Throw e
  | Return url =>
      match resolve env "CUSTOMER_SUPABASE_SERVICE_ROLE_KEY"
                    (auth_serviceKey (getAuthProjectEnv env)) with
      | Throw e => Throw e
      | Return key => createClient lib url key None
      end
  end.
Proof. reflexivity. Qed.

Lemma createVendorServiceClient_resolve (lib : SupabaseJs) (env : Env) :
  createVendorServiceClient lib env =
  match resolve env "VENDOR_SUPABASE_URL" (auth_url (getAuthProjectEnv env)) with
  | Throw e => Throw e
  | Return url =>
      match resolve env "VENDOR_SUPABASE_SERVICE_ROLE_KEY"
                    (auth_serviceKey (getAuthProjectEnv env)) with
      | Throw e => Throw e
      | Return key => createClient lib url key None
      end
  end.
Proof. reflexivity. Qed.

Lemma resolve_explicit (env : Env) (name e : string) (fallback : option string) :
  env !! name = Some e -> blank e = false -> resolve env name fallback = Return e.
Proof.
  unfold resolve, requireEnvFromPair, Js.or. intros -> Hb.
  cbn [Js.truthy Js.String_].
  rewrite (blank_not_empty e Hb), Hb. cbn [negb Js.String_ Js.truthy].
  rewrite (blank_not_empty e Hb), Hb, andb_false_r. reflexivity.
Qed.

Lemma resolve_explicit_blank (env : Env) (name e : string) (fallback : option string) :
  env !! name = Some e -> blank e = true ->
  resolve env name fallback = Throw (missing name).
Proof.
  unfold resolve, requireEnvFromPair. intros -> Hb.
  cbn [Js.String_]. rewrite Hb, andb_true_r.
  rewrite bool_decide_eq_true_2; [reflexivity | eauto].
Qed.

Lemma resolve_fallback (env : Env) (name f : string) :
  env !! name = None -> blank f = false -> resolve env name (Some f) = Return f.
Proof.
  unfold resolve, requireEnvFromPair, Js.or. intros -> Hb.
  cbn [Js.truthy Js.String_].
  rewrite (blank_not_empty f Hb), Hb. reflexivity.
Qed.

Lemma resolve_nothing (env : Env) (name : string) (fallback : option string) :
  env !! name = None -> (forall f, fallback = Some f -> blank f = true) ->
  resolve env name fallback = Throw (missing name).
Proof.
  unfold resolve, requireEnvFromPair, Js.or. intros -> Hf.
  cbn [Js.truthy]. destruct fallback as [f|]; [|reflexivity].
  cbn [Js.truthy Js.String_]. rewrite (Hf f eq_refl), orb_true_r. reflexivity.
Qed.

(** C1, as the code has it. For every variable name: an explicit value
    that is set and not blank is returned as it is; an explicit value
    that is set but blank makes resolution fail with the error that
    names the variable, whatever the fallback; when the explicit
    variable is not set, a fallback that is not blank is returned, and a
    fallback that is absent or blank makes resolution fail with the
    error that names the variable. *)
Theorem resolve_explicit_then_fallback (env : Env) (name : string)
    (fallback : option string) :
  (forall e, env !! name = Some e -> blank e = false ->
     resolve env name fallback = Return e) /\
  (forall e, env !! name = Some e -> blank e = true ->
     resolve env name fallback = Throw (missing name)) /\
  (forall f, env !! name = None -> fallback = Some f -> blank f = false ->
     resolve env name fallback = Return f) /\
  (env !! name = None -> (forall f, fallback = Some f -> blank f = true) ->
     resolve env name fallback = Throw (missing name)).
Proof.
  split; [|split; [|split]].
  - intros e. apply resolve_explicit.
  - intros e. apply resolve_explicit_blank.
  - intros f Hname ->. apply resolve_fallback. exact Hname.
  - apply resolve_nothing.
Qed.

Lemma resolve_explicit_then_fallback_witness :
  resolve {[ "SUPABASE_URL" := "https://legacy.supabase.co" ]}
          "ADMIN_AUTH_SUPABASE_URL" (Some "https://legacy.supabase.co")
  = Return "https://legacy.supabase.co".
Proof.
  apply (resolve_explicit_then_fallback
           {[ "SUPABASE_URL" := "https://legacy.supabase.co" ]}
           "ADMIN_AUTH_SUPABASE_URL" (Some "https://legacy.supabase.co"));
    reflexivity.
Defined.

(** C1 as it was stated fails: the explicit variable set to white space
    and a fallback that is present do not resolve to the fallback. *)
Lemma blank_explicit_shadows_fallback :
  ~ (forall (env : Env) (name e f : string),
       env !! name = Some e -> blank e = true -> blank f = false ->
       resolve env name (Some f) = Return f).
Proof.
  intros H.
  specialize (H {[ "ADMIN_AUTH_SUPABASE_URL" := "   " ]}
                "ADMIN_AUTH_SUPABASE_URL" "   " "https://legacy.supabase.co"
                eq_refl eq_refl eq_refl).
  vm_compute in H. discriminate H.
Qed.

(** The same through a factory: with ADMIN_AUTH_SUPABASE_URL set to the
    empty string, the legacy SUPABASE_URL is not used. *)
Example createAnonClientWithJwt_empty_explicit :
  createAnonClientWithJwt httpOnly
    (<[ "ADMIN_AUTH_SUPABASE_URL" := "" ]>
       (<[ "SUPABASE_URL" := "https://legacy.supabase.co" ]>
          {[ "SUPABASE_ANON_KEY" := "anon-key" ]}))
    "token"
  = Throw (missing "ADMIN_AUTH_SUPABASE_URL").
Proof. vm_compute. reflexivity. Qed.

(** ** The feature gate *)

Lemma lowered_says (word : string) (v : option string) :
  lowerWord word = true -> word <> "" ->
  Js.toLowerCase (Js.String_ (Js.or v (Some ""))) = word <->
  exists s, v = Some s /\ spells word s = true.
Proof.
  intros Hw Hne. unfold Js.or. destruct v as [s|]; cbn [Js.truthy].
  - destruct s as [|c s]; cbn [Js.isEmpty negb Js.String_].
    + split; [intros H; cbn in H; congruence|].
      intros (s & [= <-] & H). destruct word; [congruence | discriminate H].
    + rewrite toLowerCase_spells by exact Hw.
      split; [eauto | intros (s' & [= <-] & H); exact H].
  - cbn [Js.String_ Js.toLowerCase].
    split; [congruence | intros (s & [=] & _)].
Qed.

(** C9. The admin surface is enabled exactly when ALLOW_ADMIN_PORTAL is
    the word true in some mix of cases or ALLOW_DEV_BYPASS is; so
    ALLOW_DEV_BYPASS=true alone enables it, with ALLOW_ADMIN_PORTAL not
    set. *)
Theorem isAdminPortalAllowed_iff :
  (forall env : Env,
     isAdminPortalAllowed env = true <->
     saysTrue (env !! "ALLOW_ADMIN_PORTAL") \/ saysTrue (env !! "ALLOW_DEV_BYPASS")) /\
  (forall env : Env,
     env !! "ALLOW_DEV_BYPASS" = Some "true" -> env !! "ALLOW_ADMIN_PORTAL" = None ->
     isAdminPortalAllowed env = true).
Proof.
  assert (Hiff : forall env : Env,
     isAdminPortalAllowed env = true <->
     saysTrue (env !! "ALLOW_ADMIN_PORTAL") \/ saysTrue (env !! "ALLOW_DEV_BYPASS")).
  { intros env. unfold isAdminPortalAllowed, saysTrue.
    rewrite orb_true_iff, !bool_decide_eq_true.
    rewrite !(lowered_says "true") by (reflexivity || discriminate).
    reflexivity. }
  split; [exact Hiff|].
  intros env Hdev _. apply Hiff. right. exists "true". split; [exact Hdev | reflexivity].
Qed.

Lemma isAdminPortalAllowed_iff_witness :
  isAdminPortalAllowed {[ "ALLOW_DEV_BYPASS" := "true" ]} = true.
Proof.
  apply (proj2 isAdminPortalAllowed_iff {[ "ALLOW_DEV_BYPASS" := "true" ]});
    reflexivity.
Defined.

Example isAdminPortalAllowed_mixed_case :
  isAdminPortalAllowed {[ "ALLOW_ADMIN_PORTAL" := "TrUe" ]} = true.
Proof. vm_compute. reflexivity. Qed.

Example isAdminPortalAllowed_other_words :
  isAdminPortalAllowed (<[ "ALLOW_ADMIN_PORTAL" := "1" ]> {[ "ALLOW_DEV_BYPASS" := "yes" ]})
  = false.
Proof. vm_compute. reflexivity. Qed.

(** ** The gate *)

Ltac run :=
  cbv beta iota delta
    [requireAdmin verifyIdentity checkRole requireAdminEnabled readBearer
     gated getMe getVendors postScrapRates setRate deactivateThenInsert
     getActiveRateByType selectRole selectActiveRates selectVendors
     deactivateRates insertRate auth_getUser send respond
     bind ret throw try_catch lift get modify handle].

(** C4. With the admin surface not enabled, the gate answers 403 and
    returns at once: the state it leaves is the one it found with only
    the response set, so no event was added to the log (the bearer token
    was not read, nothing was sent to the identity service or to the
    data service) and no table was touched; every route, whatever comes
    after its opening, ends there with that answer. *)
Theorem disabled_portal_denies_at_once (w : World) (req : Request) (s : State) :
  isAdminPortalAllowed (process_env w) = false ->
  let denied := set_res {| status := 403; body := ErrorBody disabledMessage |} s in
  requireAdmin w req s = (Return None, denied) /\
  (forall rest, gated w req rest s = (Return tt, denied)) /\
  log denied = log s /\
  projects denied = projects s.
Proof.
  intros Hoff denied. subst denied. run. rewrite Hoff. cbn.
  repeat split; reflexivity.
Qed.

Lemma disabled_portal_denies_at_once_witness :
  requireAdmin closedWorld (withBearer None) (startState (Some "admin"))
  = (Return None,
     set_res {| status := 403; body := ErrorBody disabledMessage |}
             (startState (Some "admin"))).
Proof.
  apply (disabled_portal_denies_at_once closedWorld (withBearer None)
           (startState (Some "admin"))).
  reflexivity.
Defined.

(** C5. With the admin surface enabled and no bearer token in the
    request, the gate answers 401 having only read the token: nothing
    was sent to the identity service or to the data service, and every
    route, whatever comes after its opening, ends there with that
    answer. *)
Theorem missing_bearer_denies_before_any_call (w : World) (req : Request) (s : State) :
  isAdminPortalAllowed (process_env w) = true ->
  Js.truthy (getBearerToken w req) = false ->
  let denied :=
    set_res {| status := 401; body := ErrorBody "Missing Authorization: Bearer <token>" |}
            (add_event BearerRead s) in
  requireAdmin w req s = (Return None, denied) /\
  (forall rest, gated w req rest s = (Return tt, denied)) /\
  log denied = (log s ++ [BearerRead])%list /\
  projects denied = projects s.
Proof.
  intros Hon Hjwt denied. subst denied. run. rewrite Hon. cbn. rewrite Hjwt. cbn.
  repeat split; reflexivity.
Qed.

Lemma missing_bearer_denies_before_any_call_witness :
  requireAdmin calmWorld withoutBearer (startState (Some "admin"))
  = (Return None,
     set_res {| status := 401; body := ErrorBody "Missing Authorization: Bearer <token>" |}
             (add_event BearerRead (startState (Some "admin")))).
Proof.
  apply (missing_bearer_denies_before_any_call calmWorld withoutBearer
           (startState (Some "admin"))); reflexivity.
Defined.


Lemma head_map_role (rows : list Profile) :
  mjoin (head (map role rows)) = head rows ≫= role.
Proof. destruct rows; reflexivity. Qed.

(** The role test of the gate, on the stored role. *)
Lemma role_test (stored : option string) :
  Js.toLowerCase (Js.String_ (Js.or stored (Some ""))) = "admin" <-> isAdminRole stored.
Proof. apply lowered_says; [reflexivity | discriminate]. Qed.



Example role_decides_admission_no_profile :
  requireAdmin calmWorld (withBearer None)
               {| projects := ∅; log := []; res := None |}
  = (Return None,
     {| projects := ∅;
        log := [BearerRead;
                Sent (clientFor "https://auth.supabase.co" "auth-anon-key"
                                   (Some "Bearer token-1")) GetUser;
                Sent (clientFor "https://data.supabase.co" "data-service-key" None)
                     (SelectRole "u-1")];
        res := Some {| status := 403; body := ErrorBody "Admin access required" |} |}).
Proof. reflexivity. Qed.

Lemma maybeSingle_no_error {A} (rows : list A) :
  error (maybeSingle rows) = None -> data (maybeSingle rows) = head rows.
Proof. destruct rows as [|x [|y rows]]; simpl; congruence. Qed.

(** When the gate lets a request in, it has read the token, asked the
    identity service once and the data service once, answered nothing,
    and found the role admin stored for the user. *)
Lemma requireAdmin_admits (w : World) (req : Request) (s s' : State) (a : Principal) :
  requireAdmin w req s = (Return (Some a), s') ->
  exists jwt anon supabase,
    getBearerToken w req = Some jwt /\
    createAnonClientWithJwt (supabase_js w) (process_env w) jwt = Return anon /\
    createServiceClient (supabase_js w) (process_env w) = Return supabase /\
    s' = add_event (Sent supabase (SelectRole (userId a)))
           (add_event (Sent anon GetUser) (add_event BearerRead s)) /\
    isAdminRole (storedRole (userId a) (store_at s (client_url supabase))).
Proof.
  run. intros H.
  repeat (case_match; simplify_eq/=).
  destruct (getBearerToken w req) as [jwt|] eqn:Hjwt; [|discriminate].
  do 3 eexists. repeat split; eauto.
  match goal with
  | Hrole : negb (bool_decide _) = false, Herr : error (maybeSingle _) = None |- _ =>
      apply negb_false_iff, bool_decide_eq_true in Hrole;
      rewrite (maybeSingle_no_error _ Herr), head_map_role in Hrole;
      apply role_test in Hrole; exact Hrole
  end.
Qed.

(** ** Which project each client points to *)

(** [createClient] returns the handle to the endpoint and the key it
    was given, when the library accepts them, and throws what the
    library throws when it does not. *)
Lemma createClient_Return (lib : SupabaseJs) (url key : string)
    (authorization : option string) (c : Client) :
  createClient lib url key authorization = Return c <->
  refuses lib url key = None /\ c = clientFor url key authorization.
Proof.
  unfold createClient. destruct (refuses lib url key); split.
  - discriminate.
  - intros [[=] _].
  - intros [= <-]. auto.
  - intros [_ ->]. reflexivity.
Qed.

Lemma createClient_Throw (lib : SupabaseJs) (url key : string)
    (authorization : option string) (e : Thrown) :
  createClient lib url key authorization = Throw e <-> refuses lib url key = Some e.
Proof.
  unfold createClient. destruct (refuses lib url key); split; congruence.
Qed.

Lemma createServiceClient_Return (lib : SupabaseJs) (env : Env) (c : Client) :
  createServiceClient lib env = Return c <->
  exists url key,
    env !! "SUPABASE_URL" = Some url /\ blank url = false /\
    env !! "SUPABASE_SERVICE_ROLE_KEY" = Some key /\ blank key = false /\
    refuses lib url key = None /\
    c = clientFor url key None.
Proof.
  unfold createServiceClient. split.
  - destruct (requireEnv env "SUPABASE_URL") as [url|] eqn:Hu; [|discriminate].
    destruct (requireEnv env "SUPABASE_SERVICE_ROLE_KEY") as [key|] eqn:Hk; [|discriminate].
    apply requireEnv_Return in Hu as [? ?], Hk as [? ?].
    intros [? ->]%createClient_Return. eauto 10.
  - intros (url & key & Hu & Hbu & Hk & Hbk & Hlib & ->).
    rewrite (proj2 (requireEnv_Return env _ url)), (proj2 (requireEnv_Return env _ key))
      by auto.
    apply createClient_Return. auto.
Qed.

Lemma createAnonClientWithJwt_url (lib : SupabaseJs) (env : Env) (jwt u : string)
    (c : Client) :
  env !! "ADMIN_AUTH_SUPABASE_URL" = Some u ->
  createAnonClientWithJwt lib env jwt = Return c ->
  client_url c = u.
Proof.
  intros Hu. rewrite createAnonClientWithJwt_resolve.
  destruct (blank u) eqn:Hb.
  - rewrite (resolve_explicit_blank env _ u _ Hu Hb). discriminate.
  - rewrite (resolve_explicit env _ u _ Hu Hb).
    case_match; [|discriminate]. intros [_ ->]%createClient_Return. reflexivity.
Qed.

(** C10. The service client takes its endpoint and its key from
    SUPABASE_URL and SUPABASE_SERVICE_ROLE_KEY and from nothing else: two
    environments that agree on these two build the same client, whatever
    the ADMIN_AUTH variables say. The client that verifies the token
    points to ADMIN_AUTH_SUPABASE_URL when that is set. So a request the
    gate lets in had its token verified at ADMIN_AUTH_SUPABASE_URL and
    its role looked up at SUPABASE_URL, in the tables of that project. *)
Theorem role_lookup_targets_legacy_project :
  (forall (lib : SupabaseJs) (env env' : Env),
     env !! "SUPABASE_URL" = env' !! "SUPABASE_URL" ->
     env !! "SUPABASE_SERVICE_ROLE_KEY" = env' !! "SUPABASE_SERVICE_ROLE_KEY" ->
     createServiceClient lib env = createServiceClient lib env') /\
  (forall (lib : SupabaseJs) (env : Env) (c : Client),
     createServiceClient lib env = Return c ->
     env !! "SUPABASE_URL" = Some (client_url c) /\
     env !! "SUPABASE_SERVICE_ROLE_KEY" = Some (client_key c)) /\
  (forall (lib : SupabaseJs) (env : Env) (jwt u : string) (c : Client),
     env !! "ADMIN_AUTH_SUPABASE_URL" = Some u ->
     createAnonClientWithJwt lib env jwt = Return c ->
     client_url c = u) /\
  (forall (w : World) (req : Request) (s s' : State) (a : Principal) (issuer : string),
     process_env w !! "ADMIN_AUTH_SUPABASE_URL" = Some issuer ->
     requireAdmin w req s = (Return (Some a), s') ->
     exists anon supabase,
       log s' = (log s ++ [BearerRead; Sent anon GetUser;
                           Sent supabase (SelectRole (userId a))])%list /\
       client_url anon = issuer /\
       process_env w !! "SUPABASE_URL" = Some (client_url supabase) /\
       isAdminRole (storedRole (userId a) (store_at s (client_url supabase)))).
Proof.
  split; [|split; [|split]].
  - intros lib env env' Hu Hk. unfold createServiceClient, requireEnv.
    rewrite Hu, Hk. reflexivity.
  - intros lib env c (url & key & Hu & _ & Hk & _ & _ & ->)%createServiceClient_Return.
    split; assumption.
  - exact createAnonClientWithJwt_url.
  - intros w req s s' a issuer Hissuer Hadmit.
    destruct (requireAdmin_admits _ _ _ _ _ Hadmit)
      as (jwt & anon & supabase & Hjwt & Hanon & Hsup & -> & Hrole).
    exists anon, supabase. split; [|split; [|split]].
    + cbn [log add_event]. rewrite <- !app_assoc. reflexivity.
    + exact (createAnonClientWithJwt_url _ _ _ _ _ Hissuer Hanon).
    + apply createServiceClient_Return in Hsup as (url & key & Hu & _ & _ & _ & _ & ->).
      exact Hu.
    + exact Hrole.
Qed.

Lemma role_lookup_targets_legacy_project_witness :
  exists anon supabase,
    log (add_event
           (Sent (clientFor "https://data.supabase.co" "data-service-key" None)
                 (SelectRole "u-1"))
           (add_event
              (Sent (clientFor "https://auth.supabase.co" "auth-anon-key"
                                  (Some "Bearer token-1")) GetUser)
              (add_event BearerRead (startState (Some "admin")))))
    = ([] ++ [BearerRead; Sent anon GetUser; Sent supabase (SelectRole "u-1")])%list /\
    client_url anon = "https://auth.supabase.co" /\
    bothProjects !! "SUPABASE_URL" = Some (client_url supabase) /\
    isAdminRole (storedRole "u-1" (store_at (startState (Some "admin")) (client_url supabase))).
Proof.
  apply (proj2 (proj2 (proj2 role_lookup_targets_legacy_project))
           calmWorld (withBearer None) (startState (Some "admin")) _
           {| userId := "u-1" |} "https://auth.supabase.co");
    reflexivity.
Defined.

(** Both sets of variables configured, the user an admin in the project
    that verified the token and a customer in the project at
    SUPABASE_URL: the gate reads the second and denies. *)
Example role_read_at_SUPABASE_URL :
  res (handle getMe calmWorld (withBearer None)
         {| projects :=
              <[ "https://auth.supabase.co" :=
                   {| profiles := [ {| profile_id := "u-1"; role := Some "admin" |} ];
                      scrap_rates := []; vendor_backends := [] |} ]>
              {[ "https://data.supabase.co" :=
                   {| profiles := [ {| profile_id := "u-1"; role := Some "customer" |} ];
                      scrap_rates := []; vendor_backends := [] |} ]};
            log := [];
            res := None |})
  = Some {| status := 403; body := ErrorBody "Admin access required" |}.
Proof. reflexivity. Qed.

(** ** Setting a rate *)

(** The test of the rate, on the number. *)
Lemma rate_test (n : JsValue.Number) :
  negb (JsValue.isFinite n) || JsValue.le0 n = true <-> ~ positiveFinite n.
Proof.
  destruct n as [|negative|q]; simpl.
  - tauto.
  - tauto.
  - rewrite Qle_bool_iff. split.
    + intros Hle Hlt. exact (Qle_not_lt _ _ Hle Hlt).
    + apply Qnot_lt_le.
Qed.

Lemma rate_accepted (n : JsValue.Number) :
  positiveFinite n -> negb (JsValue.isFinite n) || JsValue.le0 n = false.
Proof.
  intros Hpos. destruct (negb (JsValue.isFinite n) || JsValue.le0 n) eqn:Htest;
    [|reflexivity].
  apply rate_test in Htest. contradiction.
Qed.

(** The two conversions throw on the same values, and on no other. *)
Lemma String_Throw (cv : JsValue.Conversions) (v : JsValue.t) (e : Thrown) :
  JsValue.String_ cv v = Throw e <-> v = JsValue.Obj None /\ e = JsValue.cannotConvert.
Proof.
  destruct v as [| |[|]|n|x|[repr|]]; cbn; split;
    try discriminate; try (intros [[=] _]; fail).
  - intros [= <-]. auto.
  - intros [_ ->]. reflexivity.
Qed.

Lemma Number_Throw (cv : JsValue.Conversions) (v : JsValue.t) (e : Thrown) :
  JsValue.Number_ cv v = Throw e <-> v = JsValue.Obj None /\ e = JsValue.cannotConvert.
Proof.
  destruct v as [| |[|]|n|x|[repr|]]; cbn; split;
    try discriminate; try (intros [[=] _]; fail).
  - intros [= <-]. auto.
  - intros [_ ->]. reflexivity.
Qed.

Lemma scrapTypeIdOf_Return (w : World) (req : Request) (id : string) :
  scrapTypeIdOf w req = Return id <->
  exists raw, rawScrapTypeId w req = Return raw /\ id = Js.trim raw.
Proof.
  unfold scrapTypeIdOf. destruct (rawScrapTypeId w req) as [raw|e]; cbn; split.
  - intros [= <-]. eauto.
  - intros (raw' & [= <-] & ->). reflexivity.
  - discriminate.
  - intros (raw' & [=] & _).
Qed.

Lemma scrapTypeIdOf_Throw (w : World) (req : Request) (e : Thrown) :
  scrapTypeIdOf w req = Throw e <-> rawScrapTypeId w req = Throw e.
Proof.
  unfold scrapTypeIdOf. destruct (rawScrapTypeId w req) as [raw|e']; cbn;
    split; congruence.
Qed.

(** POST /scrap-rates after its two conversions. *)
Lemma setRate_converted (w : World) (req : Request) (s : State) (id : string)
    (rate : JsValue.Number) :
  scrapTypeIdOf w req = Return id -> ratePerKgOf w req = Return rate ->
  setRate w req s =
  (if Js.isEmpty id
   then respond 400 (ErrorBody "scrapTypeId is required")
   else if negb (JsValue.isFinite rate) || JsValue.le0 rate
        then respond 400 (ErrorBody "ratePerKg must be a positive number")
        else try_catch (deactivateThenInsert w id rate)
               (fun e => respond 500 (ErrorBody (messageOr e "Admin request failed")))) s.
Proof.
  intros Hid Hrate. unfold setRate, bind, lift. rewrite Hid. cbn beta iota.
  rewrite Hrate. reflexivity.
Qed.

Lemma setRate_thrown (w : World) (req : Request) (s : State) (e : Thrown) :
  scrapTypeIdOf w req = Throw e \/
  (exists id, scrapTypeIdOf w req = Return id) /\ ratePerKgOf w req = Throw e ->
  setRate w req s = (Throw e, s).
Proof.
  unfold setRate, bind, lift. intros [-> | [[id ->] Hrate]]; [reflexivity|].
  cbn beta iota. rewrite Hrate. reflexivity.
Qed.

(** C7, as the code has it. Once the gate has let the request in, the
    two values of the request are converted, the id with [String] and
    [trim], the rate with [Number], and the tests are on what the
    conversions give. When both conversions complete and the id is empty
    or white space only, or the rate converts to a number that is not
    finite and above 0, the request is answered 400 and the state is
    the one the gate left with only the response set: nothing was sent
    to the data service and no table was touched. When a conversion
    throws, the handler throws before either test: it gives no answer,
    and sends nothing. When both conversions complete and pass the
    tests, whatever the request carried, the request is not turned
    away: the first write is sent to the data service. *)
Theorem invalid_rate_rejected_before_any_call (w : World) (req : Request) (s : State) :
  (forall raw rate,
     rawScrapTypeId w req = Return raw -> ratePerKgOf w req = Return rate ->
     allWhiteSpace raw = true \/ ~ positiveFinite rate ->
     exists m,
       let rejected := set_res {| status := 400; body := ErrorBody m |} s in
       setRate w req s = (Return tt, rejected) /\
       (forall (s0 : State) (a : Principal),
          requireAdmin w req s0 = (Return (Some a), s) ->
          postScrapRates w req s0 = (Return tt, rejected)) /\
       log rejected = log s /\
       projects rejected = projects s) /\
  (forall e,
     rawScrapTypeId w req = Throw e \/
     (exists raw, rawScrapTypeId w req = Return raw) /\ ratePerKgOf w req = Throw e ->
     setRate w req s = (Throw e, s) /\
     (forall (s0 : State) (a : Principal),
        requireAdmin w req s0 = (Return (Some a), s) ->
        postScrapRates w req s0 = (Throw e, s))) /\
  (forall raw rate supabase,
     rawScrapTypeId w req = Return raw -> ratePerKgOf w req = Return rate ->
     allWhiteSpace raw = false -> positiveFinite rate ->
     createServiceClient (supabase_js w) (process_env w) = Return supabase ->
     exists evs,
       log (snd (setRate w req s))
       = (log s ++ Sent supabase (DeactivateRates (Js.trim raw)) :: evs)%list).
Proof.
  assert (Hgated : forall out (s0 : State) (a : Principal),
            setRate w req s = out ->
            requireAdmin w req s0 = (Return (Some a), s) ->
            postScrapRates w req s0 = out).
  { intros out s0 a Hset Hgate. unfold postScrapRates, gated, bind. rewrite Hgate.
    exact Hset. }
  split; [|split].
  - intros raw rate Hraw Hrate Hbad.
    assert (Hid : scrapTypeIdOf w req = Return (Js.trim raw))
      by (apply scrapTypeIdOf_Return; eauto).
    assert (Hset : exists m,
              setRate w req s
              = (Return tt, set_res {| status := 400; body := ErrorBody m |} s)).
    { rewrite (setRate_converted w req s _ _ Hid Hrate).
      change (Js.isEmpty (Js.trim raw)) with (blank raw).
      rewrite blank_allWhiteSpace.
      destruct (allWhiteSpace raw) eqn:Hwhite.
      - eexists. reflexivity.
      - destruct Hbad as [Hbad | Hbad]; [discriminate|].
        apply rate_test in Hbad. rewrite Hbad. eexists. reflexivity. }
    destruct Hset as [m Hset]. exists m. cbn zeta.
    split; [exact Hset|]. split; [|split; reflexivity].
    intros s0 a. apply Hgated. exact Hset.
  - intros e He.
    assert (Hset : setRate w req s = (Throw e, s)).
    { apply setRate_thrown. destruct He as [He | [[raw Hraw] He]].
      - left. apply scrapTypeIdOf_Throw. exact He.
      - right. split; [|exact He]. eexists. apply scrapTypeIdOf_Return. eauto. }
    split; [exact Hset|]. intros s0 a. apply Hgated. exact Hset.
  - intros raw rate supabase Hraw Hrate Hwhite Hpos Hsup.
    assert (Hid : scrapTypeIdOf w req = Return (Js.trim raw))
      by (apply scrapTypeIdOf_Return; eauto).
    rewrite (setRate_converted w req s _ _ Hid Hrate).
    change (Js.isEmpty (Js.trim raw)) with (blank raw).
    rewrite blank_allWhiteSpace, Hwhite, (rate_accepted _ Hpos).
    cbv beta iota delta
      [deactivateThenInsert deactivateRates insertRate send respond bind ret throw
       try_catch lift get modify].
    rewrite Hsup. cbn [log add_event set_store set_res].
    destruct (fate w (length (log s))) as [|m|e]; cbn [error data log set_res];
      try (exists []; reflexivity).
    match goal with
    | |- context [fate w ?n] => destruct (fate w n) as [|m|e]
    end; cbn [error data log snd set_res add_event set_store];
      eexists; rewrite <- app_assoc; reflexivity.
Qed.

Lemma invalid_rate_rejected_before_any_call_witness :
  exists m,
    let s := startState (Some "admin") in
    let req := rateRequest "x" (JsValue.Num (JsValue.Finite (-1))) in
    let rejected := set_res {| status := 400; body := ErrorBody m |} s in
    setRate calmWorld req s = (Return tt, rejected) /\
    (forall (s0 : State) (a : Principal),
       requireAdmin calmWorld req s0 = (Return (Some a), s) ->
       postScrapRates calmWorld req s0 = (Return tt, rejected)) /\
    log rejected = log s /\
    projects rejected = projects s.
Proof.
  apply (proj1 (invalid_rate_rejected_before_any_call calmWorld
                  (rateRequest "x" (JsValue.Num (JsValue.Finite (-1))))
                  (startState (Some "admin")))
           "x" (JsValue.Finite (-1)) eq_refl eq_refl).
  right. vm_compute. intros H. discriminate H.
Defined.

(** C7 as it was stated fails: a rate that is not a finite number above
    0 is not always turned away. The rate [true] is not a number; it
    converts to 1, and the request is answered 201 after both writes. *)
Lemma non_numeric_rate_is_accepted :
  ~ (forall (w : World) (req : Request) (s : State),
       ~ validRateAsSpecified (field req "ratePerKg") ->
       exists m,
         setRate w req s
         = (Return tt, set_res {| status := 400; body := ErrorBody m |} s)).
Proof.
  intros H.
  destruct (H calmWorld (rateRequest "cu" (JsValue.Bool true)) (startState (Some "admin")))
    as [m Hm].
  - intros (q & Hq & _). vm_compute in Hq. discriminate Hq.
  - apply (f_equal (fun out => option_map status (res (snd out)))) in Hm.
    vm_compute in Hm. discriminate Hm.
Qed.

(** The scenarios of the specification, from a state the gate left:
    [setRate("x", -1)], [setRate("", 5)], a rate of zero, a white-space
    id, and a request without a rate. *)
Example setRate_negative (s : State) :
  setRate calmWorld (rateRequest "x" (JsValue.Num (JsValue.Finite (-1)))) s
  = (Return tt,
     set_res {| status := 400; body := ErrorBody "ratePerKg must be a positive number" |} s).
Proof. reflexivity. Qed.

Example setRate_empty_id (s : State) :
  setRate calmWorld (rateRequest "" (JsValue.Num (JsValue.Finite 5))) s
  = (Return tt,
     set_res {| status := 400; body := ErrorBody "scrapTypeId is required" |} s).
Proof. reflexivity. Qed.

Example setRate_zero (s : State) :
  setRate calmWorld (rateRequest "x" (JsValue.Num (JsValue.Finite 0))) s
  = (Return tt,
     set_res {| status := 400; body := ErrorBody "ratePerKg must be a positive number" |} s).
Proof. reflexivity. Qed.

Example setRate_white_id (s : State) :
  setRate calmWorld (rateRequest "   " (JsValue.Num (JsValue.Finite 5))) s
  = (Return tt,
     set_res {| status := 400; body := ErrorBody "scrapTypeId is required" |} s).
Proof. reflexivity. Qed.

Example setRate_no_rate (s : State) :
  setRate calmWorld (withBearer (Some {[ "scrapTypeId" := JsValue.Str "x" ]})) s
  = (Return tt,
     set_res {| status := 400; body := ErrorBody "ratePerKg must be a positive number" |} s).
Proof. reflexivity. Qed.

Example postScrapRates_negative_log :
  log (handle postScrapRates calmWorld
         (rateRequest "x" (JsValue.Num (JsValue.Finite (-1)))) (startState (Some "admin")))
  = log (handle getMe calmWorld (withBearer None) (startState (Some "admin"))).
Proof. reflexivity. Qed.

(** A rate that is the string of a number is converted and accepted,
    when the conversion gives a number above 0. *)
Example setRate_rate_as_string :
  let w := {| process_env := bothProjects;
              supabase_js := httpOnly;
              getBearerToken := headerBearer;
              getUser := fun _ _ => Return {| user_error := None; user_id := Some "u-1" |};
              fate := fun _ => Served;
              now := fun n => Z.of_nat n;
              conversions :=
                {| JsValue.NumberToString := fun _ => "NaN";
                   JsValue.StringToNumber :=
                     fun s => if String.eqb s "5" then JsValue.Finite 5 else JsValue.NaN |} |} in
  option_map status
    (res (snd (setRate w (rateRequest "cu" (JsValue.Str "5")) (startState (Some "admin")))))
  = Some 201%nat.
Proof. reflexivity. Qed.

(** An id of white space with a rate whose conversion throws: the
    handler throws, and the request is not answered 400. *)
Example setRate_blank_id_rate_throws (s : State) :
  setRate calmWorld (rateRequest "   " (JsValue.Obj None)) s
  = (Throw JsValue.cannotConvert, s).
Proof. reflexivity. Qed.

(** ** Responses with status 500 *)

Lemma createServiceClient_Throw (lib : SupabaseJs) (env : Env) (e : Thrown) :
  createServiceClient lib env = Throw e ->
  e = missing "SUPABASE_URL" \/ e = missing "SUPABASE_SERVICE_ROLE_KEY" \/
  exists url key,
    env !! "SUPABASE_URL" = Some url /\ env !! "SUPABASE_SERVICE_ROLE_KEY" = Some key /\
    refuses lib url key = Some e.
Proof.
  unfold createServiceClient.
  destruct (requireEnv env "SUPABASE_URL") as [url|e1] eqn:Hu.
  - destruct (requireEnv env "SUPABASE_SERVICE_ROLE_KEY") as [key|e2] eqn:Hk.
    + intros He%createClient_Throw.
      apply requireEnv_Return in Hu as [Hu _], Hk as [Hk _]. eauto 10.
    + intros [= <-]. apply requireEnv_Throw in Hk. auto.
  - intros [= <-]. apply requireEnv_Throw in Hu. auto.
Qed.

Lemma messageOr_cases (e : Thrown) (fallback : string) :
  match e with
  | Js.Error (String c m) => messageOr e fallback = String c m
  | _ => messageOr e fallback = fallback
  end.
Proof. destruct e as [[|c m]|]; reflexivity. Qed.

Lemma lookup_snoc_length {A} (l : list A) (x : A) :
  (l ++ [x])%list !! length l = Some x.
Proof. apply list_lookup_middle. reflexivity. Qed.

(** Where the exception a [catch] caught came from. *)
Ltac find_caught e :=
  match goal with
  | H : createAnonClientWithJwt _ _ (Js.String_ (getBearerToken ?w ?req)) = Throw e |- _ =>
      let jwt := fresh "jwt" in
      let Hjwt := fresh "Hjwt" in
      destruct (getBearerToken w req) as [jwt|] eqn:Hjwt; [|cbn in *; discriminate];
      eapply from_anon_factory; [exact Hjwt | exact H]
  | H : createServiceClient _ _ = Throw e |- _ =>
      eapply from_service_factory; exact H
  | H : getUser _ ?n ?anon = Throw e |- _ =>
      eapply (from_getUser _ _ _ _ n anon);
      [ rewrite ?length_app; cbn; lia | apply lookup_snoc_length | exact H ]
  | H : fate _ ?n = Rejected e |- _ =>
      eapply (from_rejection _ _ _ _ n);
      [ rewrite ?length_app; cbn; lia | apply lookup_snoc_length | discriminate | exact H ]
  end.

Ltac carries :=
  let r := fresh "r" in
  let Hr := fresh "Hr" in
  let Hst := fresh "Hst" in
  intros r Hr Hst; cbn [res log projects set_res add_event] in *; simplify_eq/=;
  try congruence;
  match goal with
  | |- context [messageOr ?e ?fallback] =>
      eexists e, fallback;
      split; [find_caught e | split; [unfold genericMessages; set_solver | reflexivity]]
  end.

(** The gate answers and yields nothing, and a 500 among its answers
    carries what it caught; or it yields a principal, and leaves the
    response and the tables as they were. *)
Lemma requireAdmin_outcome (w : World) (req : Request) (s : State) :
  res s = None ->
  exists s',
    (requireAdmin w req s = (Return None, s') /\
     exists r, res s' = Some r /\ status r <> 201%nat /\ carriesCaught w req s s') \/
    (exists a evs, requireAdmin w req s = (Return (Some a), s') /\
                   res s' = None /\ projects s' = projects s /\
                   log s' = (log s ++ evs)%list).
Proof.
  intros Hres. run.
  repeat (case_match; simplify_eq/=); eexists;
    (try (right; eexists _, _; split; [reflexivity|]; split; [exact Hres|];
          split; [reflexivity|]; cbn [log add_event]; rewrite <- ?app_assoc;
          reflexivity; fail));
    left; (split; [reflexivity|]); eexists; (split; [reflexivity|]);
    (split; [discriminate | carries]).
Qed.



Ltac run_body :=
  cbv beta iota delta
    [setRate deactivateThenInsert selectVendors deactivateRates insertRate
     send respond bind ret throw try_catch lift get modify].




Example getVendors_leaks_rejection :
  res (handle getVendors
         {| process_env := bothProjects;
            supabase_js := httpOnly;
            getBearerToken := headerBearer;
            getUser := fun _ _ => Return {| user_error := None; user_id := Some "u-1" |};
            fate := fun n => if (n =? 3)%nat
                             then Rejected (Js.Error "connect ECONNREFUSED 10.0.0.12:5432")
                             else Served;
            now := fun n => Z.of_nat n;
            conversions := noConversions |}
         (withBearer None) (startState (Some "admin")))
  = Some {| status := 500; body := ErrorBody "connect ECONNREFUSED 10.0.0.12:5432" |}.
Proof. reflexivity. Qed.

(** What [createClient] itself throws is caught and told as well. *)
Example getMe_leaks_library_error :
  res (handle getMe
         {| process_env :=
              <[ "ALLOW_ADMIN_PORTAL" := "true" ]>
              (<[ "SUPABASE_URL" := "data.supabase.co" ]>
              {[ "SUPABASE_ANON_KEY" := "anon-key" ]});
            supabase_js := httpOnly;
            getBearerToken := headerBearer;
            getUser := fun _ _ => Return {| user_error := None; user_id := Some "u-1" |};
            fate := fun _ => Served;
            now := fun n => Z.of_nat n;
            conversions := noConversions |}
         (withBearer None) (startState (Some "admin")))
  = Some {| status := 500;
            body := ErrorBody "Invalid supabaseUrl: Must be a valid HTTP or HTTPS URL." |}.
Proof. reflexivity. Qed.

(** ** One active rate per scrap type *)

Lemma activeRows_deactivated (c : string) (rows : list ScrapRate) :
  filter (fun r => scrap_type_id r = c ∧ is_active r = true) (map (deactivate c) rows) = [].
Proof.
  induction rows as [|r rows IH]; [reflexivity|].
  cbn [map]. rewrite filter_cons, IH.
  rewrite decide_False; [reflexivity|].
  unfold deactivate. intros [Hid Hact].
  destruct (bool_decide (scrap_type_id r = c)) eqn:Hc, (is_active r) eqn:Ha;
    cbn in Hid, Hact; try congruence.
  apply bool_decide_eq_false in Hc. congruence.
Qed.

(** A request to set a rate is answered 201 only when both conversions
    complete, the id is not blank and the rate is finite and above 0,
    and then the tables of the project at SUPABASE_URL differ from those
    before in the rates alone: every row of the scrap type made
    inactive, the new row added. *)
Lemma postScrapRates_201 (w : World) (req : Request) (s : State) (r : Response) :
  res (handle postScrapRates w req s) = Some r -> status r = 201%nat ->
  exists supabase t id rate,
    createServiceClient (supabase_js w) (process_env w) = Return supabase /\
    scrapTypeIdOf w req = Return id /\ ratePerKgOf w req = Return rate /\
    Js.isEmpty id = false /\
    positiveFinite rate /\
    r = {| status := 201; body := RateBody id rate (Some t) |} /\
    projects (handle postScrapRates w req s) =
    <[client_url supabase :=
        set_rates
          (map (deactivate id) (scrap_rates (store_at s (client_url supabase)))
           ++ [ {| scrap_type_id := id;
                   rate_per_kg := rate;
                   effective_from := Some t;
                   is_active := true |} ])%list
          (store_at s (client_url supabase))]> (projects s).
Proof.
  unfold handle, postScrapRates, gated, bind at 1 2.
  destruct (requireAdmin_outcome w req
              {| projects := projects s; log := log s; res := None |} eq_refl)
    as [s' [[-> (r' & Hr & Hne & _)] | (a & evs & -> & Hr & Hp & _)]].
  - simpl. rewrite Hr. intros [= <-] Hst. contradiction.
  - cbn [snd].
    destruct (scrapTypeIdOf w req) as [id|e] eqn:Hid;
      [|rewrite (setRate_thrown w req s' e) by auto; cbn [snd]; rewrite Hr; discriminate].
    destruct (ratePerKgOf w req) as [rate|e] eqn:Hrate;
      [|rewrite (setRate_thrown w req s' e) by eauto; cbn [snd]; rewrite Hr; discriminate].
    rewrite (setRate_converted w req s' id rate Hid Hrate).
    run_body. repeat (case_match; simplify_eq/=); intros [= <-] Hst; try discriminate Hst.
    eexists _, _, id, rate. split; [reflexivity|].
    split; [reflexivity|]. split; [reflexivity|]. split; [assumption|].
    split.
    { destruct rate as [| |q]; try discriminate.
      match goal with
      | H : _ || JsValue.le0 _ = false |- _ =>
          apply orb_false_iff in H as [_ H]; cbn in H
      end.
      cbn. apply Qnot_le_lt. intros Hle. apply Qle_bool_iff in Hle. congruence. }
    split; [reflexivity|].
    unfold store_at, set_res, set_store, add_event. cbn [projects].
    rewrite !lookup_insert_eq. cbn. rewrite insert_insert_eq, Hp. reflexivity.
Qed.

Lemma activeRows_after (c : string) (rows : list ScrapRate) (row : ScrapRate) :
  scrap_type_id row = c -> is_active row = true ->
  filter (fun r => scrap_type_id r = c ∧ is_active r = true)
         (map (deactivate c) rows ++ [row])%list = [row].
Proof.
  intros Hid Hact.
  rewrite filter_app, activeRows_deactivated, filter_cons, decide_True by auto.
  reflexivity.
Qed.

(** C2. Two requests to set the rate of one scrap type, handled one
    after the other and both answered 201, leave exactly one active row
    for that scrap type: the row the second request inserted. Each of
    the two made every active row of the scrap type inactive and added
    one active row, so the row the first request inserted is still in
    the table, inactive. *)
Theorem two_setRates_leave_one_active (w : World) (req1 req2 : Request) (s : State)
    (c : string) (r1 r2 : Response) :
  scrapTypeIdOf w req1 = Return c ->
  scrapTypeIdOf w req2 = Return c ->
  let s1 := handle postScrapRates w req1 s in
  let s2 := handle postScrapRates w req2 s1 in
  res s1 = Some r1 -> status r1 = 201%nat ->
  res s2 = Some r2 -> status r2 = 201%nat ->
  exists url t1 t2 rate1 rate2,
    process_env w !! "SUPABASE_URL" = Some url /\
    ratePerKgOf w req1 = Return rate1 /\
    ratePerKgOf w req2 = Return rate2 /\
    let row1 := {| scrap_type_id := c; rate_per_kg := rate1;
                   effective_from := Some t1; is_active := true |} in
    let row2 := {| scrap_type_id := c; rate_per_kg := rate2;
                   effective_from := Some t2; is_active := true |} in
    activeRows c (store_at s1 url) = [row1] /\
    activeRows c (store_at s2 url) = [row2] /\
    scrap_rates (store_at s1 url) =
      (map (deactivate c) (scrap_rates (store_at s url)) ++ [row1])%list /\
    scrap_rates (store_at s2 url) =
      (map (deactivate c) (scrap_rates (store_at s1 url)) ++ [row2])%list /\
    deactivate c row1 ∈ scrap_rates (store_at s2 url) /\
    is_active (deactivate c row1) = false.
Proof.
  intros Hc1 Hc2 s1 s2 Hr1 Hst1 Hr2 Hst2.
  destruct (postScrapRates_201 w req1 s r1 Hr1 Hst1)
    as (sup & t1 & id1 & rate1 & Hsup & Hid1 & Hrate1 & _ & _ & _ & Hproj1).
  destruct (postScrapRates_201 w req2 s1 r2 Hr2 Hst2)
    as (sup' & t2 & id2 & rate2 & Hsup' & Hid2 & Hrate2 & _ & _ & _ & Hproj2).
  assert (sup' = sup) as -> by congruence.
  assert (id1 = c) as -> by congruence. assert (id2 = c) as -> by congruence.
  fold s1 in Hproj1. fold s2 in Hproj2.
  apply createServiceClient_Return in Hsup as (url & key & Hurl & _ & _ & _ & _ & ->).
  cbn [client_url clientFor] in Hproj1, Hproj2.
  exists url, t1, t2, rate1, rate2.
  split; [exact Hurl|]. split; [exact Hrate1|]. split; [exact Hrate2|]. cbn zeta.
  assert (Hrows1 : scrap_rates (store_at s1 url)
                   = (map (deactivate c) (scrap_rates (store_at s url))
                      ++ [ {| scrap_type_id := c; rate_per_kg := rate1;
                              effective_from := Some t1; is_active := true |} ])%list).
  { unfold store_at at 1. rewrite Hproj1, lookup_insert_eq. reflexivity. }
  assert (Hrows2 : scrap_rates (store_at s2 url)
                   = (map (deactivate c) (scrap_rates (store_at s1 url))
                      ++ [ {| scrap_type_id := c; rate_per_kg := rate2;
                              effective_from := Some t2; is_active := true |} ])%list).
  { unfold store_at at 1. rewrite Hproj2, lookup_insert_eq. reflexivity. }
  unfold activeRows. rewrite Hrows2, Hrows1.
  split; [apply activeRows_after; reflexivity|].
  split; [apply activeRows_after; reflexivity|].
  split; [reflexivity|]. split; [reflexivity|]. split.
  - apply elem_of_app. left. apply list_elem_of_In, in_map, list_elem_of_In.
    apply elem_of_app. right. apply list_elem_of_singleton. reflexivity.
  - unfold deactivate. cbn. rewrite bool_decide_eq_true_2 by reflexivity. reflexivity.
Qed.

Lemma two_setRates_leave_one_active_witness :
  let w := calmWorld in
  let req1 := rateRequest "cu" (JsValue.Num (JsValue.Finite 5.5)) in
  let req2 := rateRequest " cu " (JsValue.Num (JsValue.Finite 6)) in
  let s := startState (Some "admin") in
  let c := "cu" in
  let s1 := handle postScrapRates w req1 s in
  let s2 := handle postScrapRates w req2 s1 in
  exists url t1 t2 rate1 rate2,
    process_env w !! "SUPABASE_URL" = Some url /\
    ratePerKgOf w req1 = Return rate1 /\
    ratePerKgOf w req2 = Return rate2 /\
    let row1 := {| scrap_type_id := c; rate_per_kg := rate1;
                   effective_from := Some t1; is_active := true |} in
    let row2 := {| scrap_type_id := c; rate_per_kg := rate2;
                   effective_from := Some t2; is_active := true |} in
    activeRows c (store_at s1 url) = [row1] /\
    activeRows c (store_at s2 url) = [row2] /\
    scrap_rates (store_at s1 url) =
      (map (deactivate c) (scrap_rates (store_at s url)) ++ [row1])%list /\
    scrap_rates (store_at s2 url) =
      (map (deactivate c) (scrap_rates (store_at s1 url)) ++ [row2])%list /\
    deactivate c row1 ∈ scrap_rates (store_at s2 url) /\
    is_active (deactivate c row1) = false.
Proof.
  cbv zeta.
  apply (two_setRates_leave_one_active calmWorld
           (rateRequest "cu" (JsValue.Num (JsValue.Finite 5.5)))
           (rateRequest " cu " (JsValue.Num (JsValue.Finite 6)))
           (startState (Some "admin")) "cu"
           {| status := 201; body := RateBody "cu" (JsValue.Finite 5.5) (Some 4) |}
           {| status := 201; body := RateBody "cu" (JsValue.Finite 6) (Some 9) |});
    vm_compute; reflexivity.
Defined.

(** ** The active rate of each scrap type *)

Lemma latestOf_snoc (rows : list ScrapRate) (r : ScrapRate) :
  latestOf (rows ++ [r]) = keepLatest (latestOf rows) r.
Proof. unfold latestOf. rewrite fold_left_app. reflexivity. Qed.

(** What the reduction holds for one scrap type: nothing when no row is
    of that type; otherwise a row of that type such that no row of the
    type is in force from a later instant, and every row of the type
    that came after it is in force from an earlier instant. *)
Lemma latestOf_inv (rows : list ScrapRate) (k : string) :
  match latestOf rows !! k with
  | None => forall x, x ∈ rows -> scrap_type_id x <> k
  | Some r =>
      scrap_type_id r = k /\
      exists before after,
        rows = (before ++ r :: after)%list /\
        (forall x, x ∈ before -> scrap_type_id x = k -> since x <= since r) /\
        (forall x, x ∈ after -> scrap_type_id x = k -> since x < since r)
  end.
Proof.
  induction rows as [|x rows IH] using rev_ind.
  - unfold latestOf. cbn. rewrite lookup_empty. intros x Hx. inversion Hx.
  - rewrite latestOf_snoc. unfold keepLatest.
    destruct (decide (scrap_type_id x = k)) as [Hk | Hk].
    + subst k. destruct (latestOf rows !! scrap_type_id x) as [prev|] eqn:Hprev.
      * destruct IH as (Hid & before & after & -> & Hbefore & Hafter).
        fold (since prev). fold (since x).
        destruct (since x >=? since prev) eqn:Hcmp.
        -- apply Z.geb_le in Hcmp. rewrite lookup_insert_eq.
           split; [reflexivity|].
           exists (before ++ prev :: after)%list, []. split; [reflexivity|].
           split; [|intros y Hy; inversion Hy].
           intros y Hy Hyk.
           apply elem_of_app in Hy as [Hy | Hy]; [specialize (Hbefore y Hy Hyk); lia|].
           apply elem_of_cons in Hy as [-> | Hy]; [exact Hcmp|].
           specialize (Hafter y Hy Hyk). lia.
        -- rewrite Z.geb_leb in Hcmp. apply Z.leb_gt in Hcmp. rewrite Hprev.
           split; [exact Hid|].
           exists before, (after ++ [x])%list.
           split; [rewrite <- app_assoc; reflexivity|].
           split; [exact Hbefore|].
           intros y Hy Hyk.
           apply elem_of_app in Hy as [Hy | Hy]; [exact (Hafter y Hy Hyk)|].
           apply list_elem_of_singleton in Hy as ->. exact Hcmp.
      * rewrite lookup_insert_eq. split; [reflexivity|].
        exists rows, []. split; [reflexivity|].
        split; [|intros y Hy; inversion Hy].
        intros y Hy Hyk. destruct (IH y Hy Hyk).
    + assert (Hsame : forall m, (if since x >=? since m then <[scrap_type_id x := x]> (latestOf rows)
                                 else latestOf rows) !! k = latestOf rows !! k).
      { intros m. destruct (since x >=? since m); [|reflexivity].
        apply lookup_insert_ne. exact Hk. }
      assert (Hlook : match latestOf rows !! scrap_type_id x with
                      | Some prev =>
                          if dateOf (effective_from x) >=? dateOf (effective_from prev)
                          then <[scrap_type_id x := x]> (latestOf rows)
                          else latestOf rows
                      | None => <[scrap_type_id x := x]> (latestOf rows)
                      end !! k = latestOf rows !! k).
      { destruct (latestOf rows !! scrap_type_id x) as [prev|];
          [apply (Hsame prev) | apply lookup_insert_ne; exact Hk]. }
      rewrite Hlook.
      destruct (latestOf rows !! k) as [r|].
      * destruct IH as (Hid & before & after & -> & Hbefore & Hafter).
        split; [exact Hid|].
        exists before, (after ++ [x])%list.
        split; [rewrite <- app_assoc; reflexivity|].
        split; [exact Hbefore|].
        intros y Hy Hyk.
        apply elem_of_app in Hy as [Hy | Hy]; [exact (Hafter y Hy Hyk)|].
        apply list_elem_of_singleton in Hy as ->. contradiction.
      * intros y Hy.
        apply elem_of_app in Hy as [Hy | Hy]; [exact (IH y Hy)|].
        apply list_elem_of_singleton in Hy as ->. exact Hk.
Qed.

(** The request behind [getActiveRateByType]: when the data service
    carries it out, the reduction runs over the active rows of the
    table, in the order of the table. *)
Lemma getActiveRateByType_served (w : World) (supabase : Client) (s : State) :
  fate w (length (log s)) = Served ->
  getActiveRateByType w supabase s =
  (Return (latestOf (filter (fun r => is_active r = true)
                            (scrap_rates (store_at s (client_url supabase))))),
   add_event (Sent supabase SelectActiveRates) s).
Proof. intros Hfate. run. rewrite Hfate. reflexivity. Qed.

Lemma getActiveRateByType_refused (w : World) (supabase : Client) (s : State)
    (m : string) :
  fate w (length (log s)) = Refused m ->
  getActiveRateByType w supabase s =
  (Throw (Js.Error m), add_event (Sent supabase SelectActiveRates) s).
Proof. intros Hfate. run. rewrite Hfate. reflexivity. Qed.

(** C3, as the code has it. The reduction holds at most one row for a
    scrap type: none when no row is of that type, and otherwise a row of
    that type whose instant no row of the type exceeds and which every
    later-arrived row of the type falls short of, so that of several
    rows with the latest instant the last to arrive is kept. The instant
    of a row without effective-from is the epoch, time value 0, not the
    earliest possible instant. Of two rows of one scrap type with
    different instants, the later one is kept, in either order of
    arrival. *)
Theorem latestOf_keeps_latest :
  (forall (rows : list ScrapRate) (k : string),
     latestOf rows !! k = None <-> (forall x, x ∈ rows -> scrap_type_id x <> k)) /\
  (forall (rows : list ScrapRate) (k : string) (r : ScrapRate),
     latestOf rows !! k = Some r ->
     scrap_type_id r = k /\
     exists before after,
       rows = (before ++ r :: after)%list /\
       (forall x, x ∈ before -> scrap_type_id x = k -> since x <= since r) /\
       (forall x, x ∈ after -> scrap_type_id x = k -> since x < since r)) /\
  (forall (r : ScrapRate) (t : Z),
     (effective_from r = Some t -> since r = t) /\
     (effective_from r = None -> since r = 0)) /\
  (forall (a b : ScrapRate),
     scrap_type_id a = scrap_type_id b -> since a < since b ->
     latestOf [a; b] !! scrap_type_id b = Some b /\
     latestOf [b; a] !! scrap_type_id b = Some b).
Proof.
  split; [|split; [|split]].
  - intros rows k. pose proof (latestOf_inv rows k) as Hinv.
    destruct (latestOf rows !! k) as [r|].
    + destruct Hinv as (Hid & before & after & -> & _).
      split; [discriminate|]. intros Hnone. exfalso.
      apply (Hnone r); [|exact Hid].
      apply elem_of_app. right. apply elem_of_cons. left. reflexivity.
    + split; [intros _; exact Hinv | reflexivity].
  - intros rows k r Hr. pose proof (latestOf_inv rows k) as Hinv.
    rewrite Hr in Hinv. exact Hinv.
  - intros r t. unfold since, dateOf. split; intros ->; reflexivity.
  - intros a b Hid Hlt. unfold latestOf, since in *. cbn [fold_left].
    unfold keepLatest at 1 2 3 4. rewrite !lookup_empty.
    rewrite Hid, !lookup_insert_eq.
    assert (Hab : (dateOf (effective_from b) >=? dateOf (effective_from a)) = true)
      by (apply Z.geb_le; lia).
    assert (Hba : (dateOf (effective_from a) >=? dateOf (effective_from b)) = false)
      by (rewrite Z.geb_leb; apply Z.leb_gt; lia).
    rewrite Hab, Hba, !lookup_insert_eq. split; reflexivity.
Qed.

Lemma latestOf_keeps_latest_witness :
  let a := {| scrap_type_id := "cu"; rate_per_kg := JsValue.Finite 40;
              effective_from := Some 1700000000000; is_active := true |} in
  let b := {| scrap_type_id := "cu"; rate_per_kg := JsValue.Finite 45;
              effective_from := Some 1700000600000; is_active := true |} in
  latestOf [a; b] !! "cu" = Some b /\ latestOf [b; a] !! "cu" = Some b.
Proof.
  cbv zeta.
  apply (proj2 (proj2 (proj2 latestOf_keeps_latest))
           {| scrap_type_id := "cu"; rate_per_kg := JsValue.Finite 40;
              effective_from := Some 1700000000000; is_active := true |}
           {| scrap_type_id := "cu"; rate_per_kg := JsValue.Finite 45;
              effective_from := Some 1700000600000; is_active := true |});
    [reflexivity | vm_compute; reflexivity].
Defined.

(** C3 as it was stated fails: a row without effective-from is not taken
    for the earliest possible instant. It arrives first, a row dated
    one day before the epoch arrives second; the code keeps the first,
    the reduction of the specification keeps the second. *)
Lemma absent_effective_from_is_epoch :
  let undated := {| scrap_type_id := "cu"; rate_per_kg := JsValue.Finite 40;
                    effective_from := None; is_active := true |} in
  let dated := {| scrap_type_id := "cu"; rate_per_kg := JsValue.Finite 45;
                  effective_from := Some (-86400000); is_active := true |} in
  latestOf [undated; dated] !! "cu" = Some undated /\
  latestOfAsSpecified [undated; dated] !! "cu" = Some dated /\
  latestOf [undated; dated] <> latestOfAsSpecified [undated; dated].
Proof.
  cbv zeta. split; [reflexivity|]. split; [reflexivity|].
  intros H. apply (f_equal (fun m => m !! "cu")) in H.
  vm_compute in H. discriminate H.
Qed.

Example equal_instants_last_arrival_wins :
  let first := {| scrap_type_id := "cu"; rate_per_kg := JsValue.Finite 40;
                  effective_from := Some 1700000000000; is_active := true |} in
  let second := {| scrap_type_id := "cu"; rate_per_kg := JsValue.Finite 45;
                   effective_from := Some 1700000000000; is_active := true |} in
  latestOf [first; second] !! "cu" = Some second /\
  latestOf [second; first] !! "cu" = Some first.
Proof. split; reflexivity. Qed.

(** * Further properties *)

(** ** The client factories *)

Lemma requireEnv_unusable (env : Env) (name : string) :
  unusable (env !! name) -> requireEnv env name = Throw (missing name).
Proof.
  unfold requireEnv. intros [-> | (s & -> & Hb)]; [reflexivity|].
  cbn [Js.String_]. rewrite Hb, orb_true_r. reflexivity.
Qed.

Lemma createServiceClient_no_url (lib : SupabaseJs) (env : Env) :
  unusable (env !! "SUPABASE_URL") ->
  createServiceClient lib env = Throw (missing "SUPABASE_URL").
Proof.
  intros Hu. unfold createServiceClient. rewrite (requireEnv_unusable env _ Hu).
  reflexivity.
Qed.

Lemma createServiceClient_no_key (lib : SupabaseJs) (env : Env) (url : string) :
  env !! "SUPABASE_URL" = Some url -> blank url = false ->
  unusable (env !! "SUPABASE_SERVICE_ROLE_KEY") ->
  createServiceClient lib env = Throw (missing "SUPABASE_SERVICE_ROLE_KEY").
Proof.
  intros Hu Hbu Hk. unfold createServiceClient.
  rewrite (proj2 (requireEnv_Return env _ url)), (requireEnv_unusable env _ Hk); auto.
Qed.

(** X1. When SUPABASE_URL and SUPABASE_SERVICE_ROLE_KEY are both set
    and not blank, the service factory hands these two values to
    [createClient] as they are: it returns the client to that endpoint
    with that key when the library accepts them, and throws what the
    library throws when it does not. When the endpoint is not set or
    blank the error names SUPABASE_URL, whatever the key is; when only
    the key is not set or blank the error names the key. *)
Theorem createServiceClient_needs_both (lib : SupabaseJs) (env : Env) :
  (forall url key,
     env !! "SUPABASE_URL" = Some url -> blank url = false ->
     env !! "SUPABASE_SERVICE_ROLE_KEY" = Some key -> blank key = false ->
     (refuses lib url key = None ->
        createServiceClient lib env = Return (clientFor url key None)) /\
     (forall e, refuses lib url key = Some e -> createServiceClient lib env = Throw e)) /\
  (unusable (env !! "SUPABASE_URL") ->
     createServiceClient lib env = Throw (missing "SUPABASE_URL")) /\
  (forall url,
     env !! "SUPABASE_URL" = Some url -> blank url = false ->
     unusable (env !! "SUPABASE_SERVICE_ROLE_KEY") ->
     createServiceClient lib env = Throw (missing "SUPABASE_SERVICE_ROLE_KEY")).
Proof.
  split; [|split].
  - intros url key Hu Hbu Hk Hbk. unfold createServiceClient.
    rewrite (proj2 (requireEnv_Return env _ url)), (proj2 (requireEnv_Return env _ key))
      by auto.
    split.
    + intros Hlib. apply createClient_Return. auto.
    + intros e He. apply createClient_Throw. exact He.
  - apply createServiceClient_no_url.
  - apply createServiceClient_no_key.
Qed.

Lemma createServiceClient_needs_both_witness :
  createServiceClient httpOnly
    (<[ "SUPABASE_URL" := "data.supabase.co" ]>
       {[ "SUPABASE_SERVICE_ROLE_KEY" := "data-service-key" ]})
  = Throw (Js.Error "Invalid supabaseUrl: Must be a valid HTTP or HTTPS URL.").
Proof.
  refine (proj2 (proj1 (createServiceClient_needs_both httpOnly
                          (<[ "SUPABASE_URL" := "data.supabase.co" ]>
                             {[ "SUPABASE_SERVICE_ROLE_KEY" := "data-service-key" ]}))
                       "data.supabase.co" "data-service-key" _ _ _ _) _ _);
    reflexivity.
Defined.

(** With the explicit variable not set, [requireEnvFromPair] accepts
    the value handed to it exactly when [requireEnv] would accept it. *)
Lemma requireEnvFromPair_unset (env : Env) (name : string) (value : option string) :
  env !! name = None ->
  requireEnvFromPair env name value =
  if negb (Js.truthy value) || blank (Js.String_ value)
  then Throw (missing name) else Return (Js.String_ value).
Proof. unfold requireEnvFromPair. intros ->. reflexivity. Qed.

Lemma requireEnvFromPair_legacy (env : Env) (name legacy : string) :
  env !! name = None ->
  requireEnvFromPair env name (env !! legacy) =
  match requireEnv env legacy with
  | Return v => Return v
  | Throw _ => Throw (missing name)
  end.
Proof.
  intros Hname. rewrite (requireEnvFromPair_unset _ _ _ Hname). unfold requireEnv.
  destruct (negb _ || _); reflexivity.
Qed.

(** X2. A single-project setup: when none of the ADMIN_AUTH, CUSTOMER
    and VENDOR variables is set, the auth, customer and vendor service
    factories build the client exactly when [createServiceClient] does,
    and it is the same client, made of SUPABASE_URL and
    SUPABASE_SERVICE_ROLE_KEY. *)
Theorem single_project_same_client (lib : SupabaseJs) (env : Env) (c : Client) :
  env !! "ADMIN_AUTH_SUPABASE_URL" = None ->
  env !! "ADMIN_AUTH_SUPABASE_SERVICE_ROLE_KEY" = None ->
  env !! "CUSTOMER_SUPABASE_URL" = None ->
  env !! "CUSTOMER_SUPABASE_SERVICE_ROLE_KEY" = None ->
  env !! "VENDOR_SUPABASE_URL" = None ->
  env !! "VENDOR_SUPABASE_SERVICE_ROLE_KEY" = None ->
  (createAuthServiceClient lib env = Return c <-> createServiceClient lib env = Return c) /\
  (createCustomerServiceClient lib env = Return c <-> createServiceClient lib env = Return c) /\
  (createVendorServiceClient lib env = Return c <-> createServiceClient lib env = Return c).
Proof.
  intros Hau Hak Hcu Hck Hvu Hvk.
  unfold createAuthServiceClient, createCustomerServiceClient, createVendorServiceClient,
    createFromPairs, getCustomerProjectEnv, getVendorProjectEnv, getAuthProjectEnv,
    createServiceClient.
  cbn [auth_url auth_serviceKey data_url data_serviceKey].
  rewrite Hau, Hak, Hcu, Hck, Hvu, Hvk.
  repeat change (Js.or None ?b) with b.
  rewrite !requireEnvFromPair_legacy by assumption.
  destruct (requireEnv env "SUPABASE_URL"), (requireEnv env "SUPABASE_SERVICE_ROLE_KEY");
    cbn beta iota; repeat split; intros H; congruence.
Qed.

Lemma single_project_same_client_witness :
  let env : Env := <[ "SUPABASE_URL" := "https://data.supabase.co" ]>
                     {[ "SUPABASE_SERVICE_ROLE_KEY" := "data-service-key" ]} in
  let c := clientFor "https://data.supabase.co" "data-service-key" None in
  (createAuthServiceClient httpOnly env = Return c <->
   createServiceClient httpOnly env = Return c) /\
  (createCustomerServiceClient httpOnly env = Return c <->
   createServiceClient httpOnly env = Return c) /\
  (createVendorServiceClient httpOnly env = Return c <->
   createServiceClient httpOnly env = Return c).
Proof.
  cbv zeta.
  apply (single_project_same_client httpOnly
           (<[ "SUPABASE_URL" := "https://data.supabase.co" ]>
              {[ "SUPABASE_SERVICE_ROLE_KEY" := "data-service-key" ]})
           (clientFor "https://data.supabase.co" "data-service-key" None));
    reflexivity.
Defined.

(** The value a chain of three variables resolves to: the explicit one
    when it is set; else the auth one unless that is not set or empty;
    else the legacy one. *)
Lemma chain_precedence (env : Env) (name auth legacy v : string) :
  resolve env name (Js.or (env !! auth) (env !! legacy)) = Return v ->
  (forall c, env !! name = Some c -> v = c) /\
  (env !! name = None -> forall a, env !! auth = Some a -> a <> "" -> v = a) /\
  (env !! name = None -> env !! auth = None \/ env !! auth = Some "" ->
   env !! legacy = Some v).
Proof.
  intros Hres. split; [|split].
  - intros c Hc. destruct (blank c) eqn:Hb.
    + rewrite (resolve_explicit_blank env name c _ Hc Hb) in Hres. discriminate.
    + rewrite (resolve_explicit env name c _ Hc Hb) in Hres. congruence.
  - intros Hname a Ha Hne. revert Hres.
    unfold resolve. rewrite (requireEnvFromPair_unset _ _ _ Hname), Hname, Ha.
    destruct a as [|ch a]; [congruence|]. cbn [Js.or Js.truthy Js.isEmpty negb].
    case_match; [discriminate|]. cbn [Js.String_]. congruence.
  - intros Hname Hauth. revert Hres.
    unfold resolve. rewrite (requireEnvFromPair_unset _ _ _ Hname), Hname.
    assert (Hor : Js.or None (Js.or (env !! auth) (env !! legacy)) = env !! legacy)
      by (destruct Hauth as [-> | ->]; reflexivity).
    rewrite Hor. destruct (env !! legacy) as [l|]; cbn [Js.truthy negb orb];
      [|discriminate].
    case_match; [discriminate|]. cbn [Js.String_]. congruence.
Qed.

Lemma pair_precedence (env : Env) (name legacy v : string) :
  resolve env name (env !! legacy) = Return v ->
  (forall c, env !! name = Some c -> v = c) /\
  (env !! name = None -> env !! legacy = Some v).
Proof.
  intros Hres. split.
  - intros c Hc. destruct (blank c) eqn:Hb.
    + rewrite (resolve_explicit_blank env name c _ Hc Hb) in Hres. discriminate.
    + rewrite (resolve_explicit env name c _ Hc Hb) in Hres. congruence.
  - intros Hname. revert Hres.
    unfold resolve. rewrite (requireEnvFromPair_unset _ _ _ Hname), Hname.
    change (Js.or None ?b) with b.
    destruct (env !! legacy) as [l|]; cbn [Js.truthy negb orb]; [|discriminate].
    case_match; [discriminate|]. cbn [Js.String_]. congruence.
Qed.

Lemma createFromPairs_Return (lib : SupabaseJs) (env : Env) (urlName keyName : string)
    (url key authorization : option string) (c : Client) :
  createFromPairs lib env urlName url keyName key authorization = Return c ->
  exists u k,
    requireEnvFromPair env urlName url = Return u /\
    requireEnvFromPair env keyName key = Return k /\
    refuses lib u k = None /\
    c = clientFor u k authorization.
Proof.
  unfold createFromPairs.
  destruct (requireEnvFromPair env urlName url) as [u|]; [|discriminate].
  destruct (requireEnvFromPair env keyName key) as [k|]; [|discriminate].
  intros [Hlib ->]%createClient_Return. eauto 10.
Qed.

Lemma createFromPairs_url (lib : SupabaseJs) (env : Env) (urlName keyName : string)
    (url key authorization : option string) (c : Client) :
  createFromPairs lib env urlName url keyName key authorization = Return c ->
  requireEnvFromPair env urlName url = Return (client_url c) /\
  requireEnvFromPair env keyName key = Return (client_key c).
Proof.
  intros (u & k & Hu & Hk & _ & ->)%createFromPairs_Return. split; assumption.
Qed.

(** X3. The endpoint of the customer and of the vendor client follows
    a chain of three variables. When the factory builds a client, its
    endpoint is the project's own variable if that is set; else
    ADMIN_AUTH_SUPABASE_URL if that is set and not empty; else, with
    ADMIN_AUTH_SUPABASE_URL not set or empty, SUPABASE_URL. *)
Theorem data_project_endpoint_chain (lib : SupabaseJs) (env : Env) (c : Client) :
  (createCustomerServiceClient lib env = Return c ->
     (forall u, env !! "CUSTOMER_SUPABASE_URL" = Some u -> client_url c = u) /\
     (env !! "CUSTOMER_SUPABASE_URL" = None ->
        forall a, env !! "ADMIN_AUTH_SUPABASE_URL" = Some a -> a <> "" ->
                  client_url c = a) /\
     (env !! "CUSTOMER_SUPABASE_URL" = None ->
        env !! "ADMIN_AUTH_SUPABASE_URL" = None \/
        env !! "ADMIN_AUTH_SUPABASE_URL" = Some "" ->
        env !! "SUPABASE_URL" = Some (client_url c))) /\
  (createVendorServiceClient lib env = Return c ->
     (forall u, env !! "VENDOR_SUPABASE_URL" = Some u -> client_url c = u) /\
     (env !! "VENDOR_SUPABASE_URL" = None ->
        forall a, env !! "ADMIN_AUTH_SUPABASE_URL" = Some a -> a <> "" ->
                  client_url c = a) /\
     (env !! "VENDOR_SUPABASE_URL" = None ->
        env !! "ADMIN_AUTH_SUPABASE_URL" = None \/
        env !! "ADMIN_AUTH_SUPABASE_URL" = Some "" ->
        env !! "SUPABASE_URL" = Some (client_url c))).
Proof.
  split; intros H; apply createFromPairs_url in H as [Hurl _];
    exact (chain_precedence env _ "ADMIN_AUTH_SUPABASE_URL" "SUPABASE_URL" _ Hurl).
Qed.

Lemma data_project_endpoint_chain_witness :
  client_url (clientFor "https://auth.supabase.co" "data-service-key" None)
  = "https://auth.supabase.co".
Proof.
  refine (proj1 (proj2 (proj1 (data_project_endpoint_chain httpOnly
                                 (delete "ALLOW_ADMIN_PORTAL" bothProjects) _) _)) _
            "https://auth.supabase.co" _ _).
  - reflexivity.
  - reflexivity.
  - reflexivity.
  - discriminate.
Defined.

Lemma requireEnvFromPair_Return (env : Env) (name : string) (value : option string)
    (v : string) :
  requireEnvFromPair env name value = Return v -> blank v = false.
Proof.
  unfold requireEnvFromPair. repeat case_match; try discriminate.
  intros [= <-].
  match goal with
  | H : _ || blank _ = false |- _ => apply orb_false_iff in H as [_ H]; exact H
  end.
Qed.

Lemma createFromPairs_Throw (lib : SupabaseJs) (env : Env) (urlName keyName : string)
    (url key authorization : option string) (e : Thrown) :
  createFromPairs lib env urlName url keyName key authorization = Throw e ->
  e = missing urlName \/ e = missing keyName \/ thrownByLibrary lib e.
Proof.
  unfold createFromPairs, thrownByLibrary.
  destruct (requireEnvFromPair env urlName url) as [u|e1] eqn:Hu.
  - destruct (requireEnvFromPair env keyName key) as [k|e2] eqn:Hk.
    + intros He%createClient_Throw. right. right. exists u, k.
      split; [exact (requireEnvFromPair_Return _ _ _ _ Hu)|].
      split; [exact (requireEnvFromPair_Return _ _ _ _ Hk) | exact He].
    + intros [= <-]. apply requireEnvFromPair_Throw in Hk. auto.
  - intros [= <-]. apply requireEnvFromPair_Throw in Hu. auto.
Qed.

(** X4. A factory that fails either names one of its own two variables
    or throws what [createClient] threw for an endpoint and a key that
    both passed the checks of the file. It names its own variable also
    when the value it found wanting came from further down the chain:
    ADMIN_AUTH_SUPABASE_URL set to white space, with the customer
    variable not set, makes the customer factory fail with an error
    that names CUSTOMER_SUPABASE_URL, whatever SUPABASE_URL holds. *)
Theorem factory_error_names_own_variable (lib : SupabaseJs) (env : Env) (jwt : string)
    (e : Thrown) :
  (createAuthServiceClient lib env = Throw e ->
     e = missing "ADMIN_AUTH_SUPABASE_URL" \/
     e = missing "ADMIN_AUTH_SUPABASE_SERVICE_ROLE_KEY" \/
     thrownByLibrary lib e) /\
  (createCustomerServiceClient lib env = Throw e ->
     e = missing "CUSTOMER_SUPABASE_URL" \/
     e = missing "CUSTOMER_SUPABASE_SERVICE_ROLE_KEY" \/
     thrownByLibrary lib e) /\
  (createVendorServiceClient lib env = Throw e ->
     e = missing "VENDOR_SUPABASE_URL" \/
     e = missing "VENDOR_SUPABASE_SERVICE_ROLE_KEY" \/
     thrownByLibrary lib e) /\
  (createAnonClientWithJwt lib env jwt = Throw e ->
     e = missing "ADMIN_AUTH_SUPABASE_URL" \/
     e = missing "ADMIN_AUTH_SUPABASE_ANON_KEY" \/
     thrownByLibrary lib e) /\
  (forall a,
     env !! "CUSTOMER_SUPABASE_URL" = None ->
     env !! "ADMIN_AUTH_SUPABASE_URL" = Some a -> a <> "" -> blank a = true ->
     createCustomerServiceClient lib env = Throw (missing "CUSTOMER_SUPABASE_URL")).
Proof.
  repeat split; try apply createFromPairs_Throw.
  intros a Hc Ha Hne Hb.
  unfold createCustomerServiceClient, createFromPairs, getCustomerProjectEnv,
    getAuthProjectEnv.
  cbn [data_url auth_url]. rewrite (requireEnvFromPair_unset _ _ _ Hc), Hc, Ha.
  destruct a as [|ch a]; [congruence|]. cbn [Js.or Js.truthy Js.isEmpty negb Js.String_].
  rewrite Hb. reflexivity.
Qed.

Lemma factory_error_names_own_variable_witness :
  createCustomerServiceClient httpOnly
    (<[ "ADMIN_AUTH_SUPABASE_URL" := "  " ]>
       (<[ "SUPABASE_URL" := "https://data.supabase.co" ]>
          {[ "SUPABASE_SERVICE_ROLE_KEY" := "data-service-key" ]}))
  = Throw (missing "CUSTOMER_SUPABASE_URL").
Proof.
  refine (proj2 (proj2 (proj2 (proj2
            (factory_error_names_own_variable httpOnly _ "" Js.Other))))
            "  " _ _ _ _).
  - reflexivity.
  - reflexivity.
  - discriminate.
  - reflexivity.
Defined.

(** A factory passes on what the library throws: the endpoint is set,
    but it is no URL. *)
Example createAnonClientWithJwt_library_error :
  createAnonClientWithJwt httpOnly
    (<[ "SUPABASE_URL" := "data.supabase.co" ]> {[ "SUPABASE_ANON_KEY" := "anon-key" ]})
    "token"
  = Throw (Js.Error "Invalid supabaseUrl: Must be a valid HTTP or HTTPS URL.").
Proof. reflexivity. Qed.

(** X5. The client that verifies a token, when it is built, sends
    [Bearer <jwt>] as its authorization header, presents an anonymous
    key (ADMIN_AUTH_SUPABASE_ANON_KEY when that is set, else
    SUPABASE_ANON_KEY) and keeps no session; the clients of the service
    factories send no authorization header of their own. *)
Theorem anon_client_carries_bearer (lib : SupabaseJs) (env : Env) (jwt : string)
    (c : Client) :
  (createAnonClientWithJwt lib env jwt = Return c ->
     client_authorization c = Some ("Bearer " ++ jwt) /\
     (forall k, env !! "ADMIN_AUTH_SUPABASE_ANON_KEY" = Some k -> client_key c = k) /\
     (env !! "ADMIN_AUTH_SUPABASE_ANON_KEY" = None ->
        env !! "SUPABASE_ANON_KEY" = Some (client_key c)) /\
     persistSession c = false /\ autoRefreshToken c = false /\
     detectSessionInUrl c = false) /\
  (createServiceClient lib env = Return c \/ createAuthServiceClient lib env = Return c \/
   createCustomerServiceClient lib env = Return c \/ createVendorServiceClient lib env = Return c ->
     client_authorization c = None /\
     persistSession c = false /\ autoRefreshToken c = false /\
     detectSessionInUrl c = false).
Proof.
  split.
  - intros (u & k & _ & Hkey & _ & ->)%createFromPairs_Return.
    cbn [client_authorization client_key persistSession autoRefreshToken
         detectSessionInUrl clientFor].
    split; [reflexivity|]. split; [|split; [|auto]].
    + intros k' Hk.
      exact (proj1 (pair_precedence env _ "SUPABASE_ANON_KEY" k Hkey) k' Hk).
    + intros Hk.
      exact (proj2 (pair_precedence env _ "SUPABASE_ANON_KEY" k Hkey) Hk).
  - unfold createAuthServiceClient, createCustomerServiceClient,
      createVendorServiceClient.
    intros [H | [H | [H | H]]];
      [ apply createServiceClient_Return in H as (u & k & _ & _ & _ & _ & _ & ->)
      | apply createFromPairs_Return in H as (u & k & _ & _ & _ & ->) .. ];
      cbn; auto.
Qed.

Lemma anon_client_carries_bearer_witness :
  client_authorization
    (clientFor "https://auth.supabase.co" "auth-anon-key" (Some "Bearer token-1"))
  = Some "Bearer token-1".
Proof.
  refine (proj1 (proj1 (anon_client_carries_bearer httpOnly bothProjects "token-1" _) _)).
  reflexivity.
Defined.

(** ** Every way through the gate *)

Ltac run_gate :=
  cbv beta iota delta
    [verifyIdentity checkRole requireAdminEnabled readBearer selectRole
     auth_getUser send respond bind ret throw try_catch lift get modify].

(** The first half of the gate, whichever way it goes. *)
Lemma verifyIdentity_run (w : World) (req : Request) (s s' : State)
    (r : result (Flow (option Principal) string)) :
  verifyIdentity w req s = (r, s') ->
  projects s' = projects s /\
  ((exists resp m evs,
      r = Return (Returned None) /\ log s' = (log s ++ evs)%list /\
      res s' = Some resp /\ body resp = ErrorBody m /\
      status resp ∈ [401; 403; 500]%nat /\
      (evs = [] \/ evs = [BearerRead] \/ exists anon, evs = [BearerRead; Sent anon GetUser])) \/
   (exists id anon a,
      r = Return (Next id) /\
      log s' = (log s ++ [BearerRead; Sent anon GetUser])%list /\
      res s' = res s /\
      getUser w (S (length (log s))) anon = Return a /\
      user_error a = None /\ user_id a = Some id /\ id <> "")).
Proof.
  run_gate. intros H.
  repeat (case_match; simplify_eq/=); (split; [reflexivity|]).
  all: try (left; eexists _, _, _; split; [reflexivity|];
            split; [first [ symmetry; apply app_nil_r
                          | rewrite <- ?app_assoc; cbn [app]; reflexivity ] |];
            split; [reflexivity|]; split; [reflexivity|];
            split; [cbn; rewrite !elem_of_cons; tauto|];
            first [ left; reflexivity | right; left; reflexivity
                  | right; right; eexists; reflexivity ]).
  right.
  match goal with
  | H : getUser w (length (log _ ++ [BearerRead])) _ = Return ?a |- _ =>
      rewrite length_app, Nat.add_1_r in H;
      destruct (user_error a) eqn:Herr;
        [ rewrite bool_decide_eq_true_2 in * by eauto; discriminate |];
      destruct (user_id a) as [[|ch id]|] eqn:Hid; try discriminate;
      eexists _, _, a;
      split; [reflexivity|]; split; [rewrite <- app_assoc; reflexivity|];
      repeat split; try eassumption; try reflexivity; discriminate
  end.
Qed.

(** The second half of the gate, whichever way it goes. *)
Lemma checkRole_run (w : World) (id : string) (s s' : State)
    (r : result (option Principal)) :
  checkRole w id s = (r, s') ->
  projects s' = projects s /\
  ((exists resp m,
      r = Return None /\ res s' = Some resp /\ body resp = ErrorBody m /\
      status resp ∈ [400; 403; 500]%nat /\
      (log s' = log s \/
       exists supabase,
         createServiceClient (supabase_js w) (process_env w) = Return supabase /\
         log s' = (log s ++ [Sent supabase (SelectRole id)])%list)) \/
   (exists supabase,
      r = Return (Some {| userId := id |}) /\ res s' = res s /\
      createServiceClient (supabase_js w) (process_env w) = Return supabase /\
      log s' = (log s ++ [Sent supabase (SelectRole id)])%list)).
Proof.
  run_gate. intros H.
  repeat (case_match; simplify_eq/=); (split; [reflexivity|]).
  all: try (right; eexists; repeat split; reflexivity).
  all: left; eexists _, _; split; [reflexivity|]; split; [reflexivity|];
         split; [reflexivity|]; split; [cbn; rewrite !elem_of_cons; tauto|];
         first [ left; reflexivity | right; eexists; split; reflexivity ].
Qed.

(** X6. The gate never throws and never writes to a table. It either
    answers and yields nothing, and then the answer is an error
    envelope with status 400, 401, 403 or 500; or it yields a principal
    and leaves the response as it found it. *)
Theorem requireAdmin_answers_or_admits (w : World) (req : Request) (s s' : State)
    (r : result (option Principal)) :
  requireAdmin w req s = (r, s') ->
  projects s' = projects s /\
  ((exists resp m,
      r = Return None /\ res s' = Some resp /\ body resp = ErrorBody m /\
      status resp ∈ [400; 401; 403; 500]%nat) \/
   (exists a, r = Return (Some a) /\ res s' = res s)).
Proof.
  unfold requireAdmin, bind.
  destruct (verifyIdentity w req s) as [r1 s1] eqn:Hv.
  apply verifyIdentity_run in Hv
    as [Hp [(resp & m & evs & -> & _ & Hres & Hbody & Hst & _)
           | (id & anon & a & -> & _ & Hres & _)]].
  - intros [= <- <-]. split; [exact Hp|]. left. exists resp, m.
    repeat split; try assumption.
    revert Hst. rewrite !elem_of_cons. tauto.
  - intros Hc. apply checkRole_run in Hc
      as [Hp' [(resp & m & -> & Hres' & Hbody & Hst & _)
              | (supabase & -> & Hres' & _)]].
    + split; [congruence|]. left. exists resp, m. repeat split; try assumption.
      revert Hst. rewrite !elem_of_cons. tauto.
    + split; [congruence|]. right. eexists. split; [reflexivity | congruence].
Qed.

Lemma requireAdmin_answers_or_admits_witness :
  let s := startState (Some "customer") in
  let s' := set_res {| status := 403; body := ErrorBody "Admin access required" |}
              (add_event
                 (Sent (clientFor "https://data.supabase.co" "data-service-key" None)
                       (SelectRole "u-1"))
                 (add_event
                    (Sent (clientFor "https://auth.supabase.co" "auth-anon-key"
                                        (Some "Bearer token-1")) GetUser)
                    (add_event BearerRead s))) in
  projects s' = projects s /\
  ((exists resp m,
      @Return (option Principal) None = Return None /\ res s' = Some resp /\
      body resp = ErrorBody m /\ status resp ∈ [400; 401; 403; 500]%nat) \/
   (exists a, @Return (option Principal) None = Return (Some a) /\ res s' = res s)).
Proof.
  cbv zeta.
  apply (requireAdmin_answers_or_admits calmWorld (withBearer None)
           (startState (Some "customer"))).
  reflexivity.
Defined.

(** X7. What the gate sends, in order: nothing; or it reads the token;
    or it also asks the identity service; or it also asks the data
    service for the role, once, and only for the user id the identity
    service has just vouched for without an error. A request answered
    401 never reaches the data service. *)
Theorem role_asked_only_for_vouched_user (w : World) (req : Request) (s s' : State)
    (r : result (option Principal)) :
  requireAdmin w req s = (r, s') ->
  exists evs,
    log s' = (log s ++ evs)%list /\
    (evs = [] \/ evs = [BearerRead] \/
     (exists anon, evs = [BearerRead; Sent anon GetUser]) \/
     (exists anon supabase id a,
        evs = [BearerRead; Sent anon GetUser; Sent supabase (SelectRole id)] /\
        getUser w (S (length (log s))) anon = Return a /\
        user_error a = None /\ user_id a = Some id /\ id <> "" /\
        createServiceClient (supabase_js w) (process_env w) = Return supabase)) /\
    (forall resp,
       r = Return None -> res s' = Some resp -> status resp = 401%nat ->
       (length evs <= 2)%nat).
Proof.
  unfold requireAdmin, bind.
  destruct (verifyIdentity w req s) as [r1 s1] eqn:Hv.
  apply verifyIdentity_run in Hv
    as [Hp [(resp & m & evs & -> & Hlog & Hres & Hbody & Hst & Hevs)
           | (id & anon & a & -> & Hlog & Hres & Hget & Herr & Hid & Hne)]].
  - intros [= <- <-]. exists evs. split; [exact Hlog|]. split.
    + destruct Hevs as [-> | [-> | [anon ->]]]; eauto.
    + intros _ _ _ _. destruct Hevs as [-> | [-> | [anon ->]]]; cbn; lia.
  - intros Hc. apply checkRole_run in Hc
      as [Hp' [(resp & m & -> & Hres' & Hbody & Hst & [Hlog' | (sup & Hsup & Hlog')])
              | (sup & -> & Hres' & Hsup & Hlog')]].
    + exists [BearerRead; Sent anon GetUser]. split; [congruence|].
      split; [eauto|]. intros; cbn; lia.
    + exists [BearerRead; Sent anon GetUser; Sent sup (SelectRole id)].
      split; [rewrite Hlog', Hlog, <- app_assoc; reflexivity|].
      split; [right; right; right; eauto 10|].
      intros resp' _ Hr' Hst'. exfalso.
      assert (resp' = resp) as -> by congruence.
      revert Hst. rewrite Hst', !elem_of_cons, elem_of_nil. intuition discriminate.
    + exists [BearerRead; Sent anon GetUser; Sent sup (SelectRole id)].
      split; [rewrite Hlog', Hlog, <- app_assoc; reflexivity|].
      split; [right; right; right; eauto 10|].
      intros resp' [=].
Qed.

Lemma role_asked_only_for_vouched_user_witness :
  exists evs,
    log (set_res {| status := 401; body := ErrorBody "Missing Authorization: Bearer <token>" |}
                 (add_event BearerRead (startState None)))
    = (log (startState None) ++ evs)%list /\
    (evs = [] \/ evs = [BearerRead] \/
     (exists anon, evs = [BearerRead; Sent anon GetUser]) \/
     (exists anon supabase id a,
        evs = [BearerRead; Sent anon GetUser; Sent supabase (SelectRole id)] /\
        getUser calmWorld (S (length (log (startState None)))) anon = Return a /\
        user_error a = None /\ user_id a = Some id /\ id <> "" /\
        createServiceClient (supabase_js calmWorld) (process_env calmWorld) = Return supabase)) /\
    (forall resp,
       @Return (option Principal) None = Return None ->
       res (set_res {| status := 401;
                       body := ErrorBody "Missing Authorization: Bearer <token>" |}
                    (add_event BearerRead (startState None))) = Some resp ->
       status resp = 401%nat ->
       (length evs <= 2)%nat).
Proof.
  apply (role_asked_only_for_vouched_user calmWorld withoutBearer (startState None)).
  reflexivity.
Defined.

(** X8. With the surface enabled, a token in the request and the
    verifying client built, the answer follows the identity service:
    when the service rejects, 500 with the text of the rejection or
    the fallback; when it answers with an error, or without a user id,
    401; in each case the data service is not asked and the gate yields
    nothing. *)
Theorem identity_failure_modes (w : World) (req : Request) (s : State)
    (jwt : string) (anon : Client) :
  isAdminPortalAllowed (process_env w) = true ->
  getBearerToken w req = Some jwt -> jwt <> "" ->
  createAnonClientWithJwt (supabase_js w) (process_env w) jwt = Return anon ->
  let s1 := add_event (Sent anon GetUser) (add_event BearerRead s) in
  let asked := getUser w (S (length (log s))) anon in
  (forall e, asked = Throw e ->
     requireAdmin w req s =
     (Return None,
      set_res {| status := 500; body := ErrorBody (messageOr e "Auth check failed") |} s1)) /\
  (forall a m, asked = Return a -> user_error a = Some m ->
     requireAdmin w req s =
     (Return None,
      set_res {| status := 401; body := ErrorBody "Invalid or expired token" |} s1)) /\
  (forall a, asked = Return a -> user_error a = None ->
     user_id a = None \/ user_id a = Some "" ->
     requireAdmin w req s =
     (Return None,
      set_res {| status := 401; body := ErrorBody "Invalid or expired token" |} s1)).
Proof.
  intros Hon Hjwt Hne Hanon s1 asked. subst s1 asked.
  unfold requireAdmin. run_gate. rewrite Hon, Hjwt.
  destruct jwt as [|ch jwt]; [congruence|].
  cbn [negb Js.truthy Js.isEmpty Js.String_]. rewrite Hanon.
  cbn [log add_event]. rewrite length_app, Nat.add_1_r.
  split; [|split].
  - intros e ->. reflexivity.
  - intros a m -> Herr. rewrite bool_decide_eq_true_2 by (rewrite Herr; eauto).
    reflexivity.
  - intros a -> Herr Hid. rewrite bool_decide_eq_false_2
      by (rewrite Herr; intros [? [=]]).
    destruct Hid as [-> | ->]; reflexivity.
Qed.

Lemma identity_failure_modes_witness :
  let w := {| process_env := bothProjects; supabase_js := httpOnly;
              getBearerToken := headerBearer;
              getUser := fun _ _ => Throw (Js.Error "fetch failed");
              fate := fun _ => Served;
              now := fun n => Z.of_nat n;
              conversions := noConversions |} in
  requireAdmin w (withBearer None) (startState None) =
  (Return None,
   set_res {| status := 500; body := ErrorBody "fetch failed" |}
     (add_event (Sent (clientFor "https://auth.supabase.co" "auth-anon-key"
                                    (Some "Bearer token-1")) GetUser)
                (add_event BearerRead (startState None)))).
Proof.
  cbv zeta.
  refine (proj1 (identity_failure_modes _ (withBearer None) (startState None)
                   "token-1" _ _ _ _ _) (Js.Error "fetch failed") _).
  - reflexivity.
  - reflexivity.
  - discriminate.
  - reflexivity.
  - reflexivity.
Defined.

(** X9. For an identity the first half of the gate has verified, the
    role lookup can fail in four ways, and each yields no principal.
    The service client cannot be built: 500 with the message of what
    the factory threw, and nothing is sent; that message names
    SUPABASE_URL when the variable is not set or blank, names
    SUPABASE_SERVICE_ROLE_KEY when only the key is, and is the
    library's own when [createClient] refuses the two values. The data
    service rejects: 500. It answers with an error: 400 with its
    message. It finds several rows with the id: 400. *)
Theorem role_lookup_failure_modes (w : World) (req : Request) (s s1 : State)
    (id : string) :
  verifyIdentity w req s = (Return (Next id), s1) ->
  (forall e, createServiceClient (supabase_js w) (process_env w) = Throw e ->
     requireAdmin w req s =
     (Return None,
      set_res {| status := 500; body := ErrorBody (messageOr e "Admin check failed") |} s1)) /\
  (unusable (process_env w !! "SUPABASE_URL") ->
     requireAdmin w req s =
     (Return None,
      set_res {| status := 500;
                 body := ErrorBody "Missing required env var: SUPABASE_URL" |} s1)) /\
  (forall url,
     process_env w !! "SUPABASE_URL" = Some url -> blank url = false ->
     (unusable (process_env w !! "SUPABASE_SERVICE_ROLE_KEY") ->
        requireAdmin w req s =
        (Return None,
         set_res {| status := 500;
                    body := ErrorBody "Missing required env var: SUPABASE_SERVICE_ROLE_KEY" |}
                 s1)) /\
     (forall key e,
        process_env w !! "SUPABASE_SERVICE_ROLE_KEY" = Some key -> blank key = false ->
        refuses (supabase_js w) url key = Some e ->
        requireAdmin w req s =
        (Return None,
         set_res {| status := 500; body := ErrorBody (messageOr e "Admin check failed") |}
                 s1))) /\
  (forall supabase,
     createServiceClient (supabase_js w) (process_env w) = Return supabase ->
     let s2 := add_event (Sent supabase (SelectRole id)) s1 in
     (forall e, fate w (length (log s1)) = Rejected e ->
        requireAdmin w req s =
        (Return None,
         set_res {| status := 500; body := ErrorBody (messageOr e "Admin check failed") |}
                 s2)) /\
     (forall m, fate w (length (log s1)) = Refused m ->
        requireAdmin w req s =
        (Return None, set_res {| status := 400; body := ErrorBody m |} s2)) /\
     (fate w (length (log s1)) = Served ->
      (2 <= length (profilesOf id (store_at s1 (client_url supabase))))%nat ->
        requireAdmin w req s =
        (Return None,
         set_res {| status := 400;
                    body := ErrorBody
                      "JSON object requested, multiple (or no) rows returned" |} s2))).
Proof.
  intros Hid.
  assert (Hthrow : forall e,
            createServiceClient (supabase_js w) (process_env w) = Throw e ->
            requireAdmin w req s =
            (Return None,
             set_res {| status := 500;
                        body := ErrorBody (messageOr e "Admin check failed") |} s1)).
  { intros e He. unfold requireAdmin, bind. rewrite Hid. run_gate. rewrite He.
    reflexivity. }
  split; [exact Hthrow|]. split; [|split].
  - intros Hu. exact (Hthrow _ (createServiceClient_no_url _ _ Hu)).
  - intros url Hu Hbu. split.
    + intros Hk. exact (Hthrow _ (createServiceClient_no_key _ _ _ Hu Hbu Hk)).
    + intros key e Hk Hbk He. apply Hthrow. unfold createServiceClient.
      rewrite (proj2 (requireEnv_Return _ _ url)), (proj2 (requireEnv_Return _ _ key))
        by auto.
      apply createClient_Throw. exact He.
  - unfold requireAdmin at 1 2 3, bind. rewrite Hid.
    intros supabase Hsup. cbv zeta. run_gate. rewrite Hsup.
    cbn [log add_event]. split; [|split].
    + intros e ->. reflexivity.
    + intros m ->. reflexivity.
    + intros -> Hlen.
      change (store_at _ (client_url supabase)) with (store_at s1 (client_url supabase)).
      destruct (profilesOf id (store_at s1 (client_url supabase))) as [|p [|q rows]];
        cbn in Hlen; try lia.
      reflexivity.
Qed.

Lemma role_lookup_failure_modes_witness :
  let w := {| process_env := delete "SUPABASE_URL" bothProjects; supabase_js := httpOnly;
              getBearerToken := headerBearer;
              getUser := fun _ _ => Return {| user_error := None; user_id := Some "u-1" |};
              fate := fun _ => Served;
              now := fun n => Z.of_nat n;
              conversions := noConversions |} in
  requireAdmin w (withBearer None) (startState None)
  = (Return None,
     set_res {| status := 500;
                body := ErrorBody "Missing required env var: SUPABASE_URL" |}
       (add_event (Sent (clientFor "https://auth.supabase.co" "auth-anon-key"
                                      (Some "Bearer token-1")) GetUser)
                  (add_event BearerRead (startState None)))).
Proof.
  cbv zeta.
  refine (proj1 (proj2 (role_lookup_failure_modes _ (withBearer None) (startState None) _
                          "u-1" _)) _).
  - reflexivity.
  - left. reflexivity.
Defined.

(** ** More on the active rates *)

Lemma latestOf_elem (rows : list ScrapRate) (k : string) (r : ScrapRate) :
  latestOf rows !! k = Some r -> r ∈ rows /\ scrap_type_id r = k.
Proof.
  intros Hr. pose proof (latestOf_inv rows k) as Hinv. rewrite Hr in Hinv.
  destruct Hinv as (Hid & before & after & -> & _). split; [|exact Hid].
  apply elem_of_app. right. apply elem_of_cons. left. reflexivity.
Qed.

Lemma latestOf_is_Some (rows : list ScrapRate) (x : ScrapRate) :
  x ∈ rows -> is_Some (latestOf rows !! scrap_type_id x).
Proof.
  intros Hx. pose proof (latestOf_inv rows (scrap_type_id x)) as Hinv.
  destruct (latestOf rows !! scrap_type_id x) as [r|]; [eauto|].
  destruct (Hinv x Hx eq_refl).
Qed.

Lemma latestOf_max (rows : list ScrapRate) (k : string) (r x : ScrapRate) :
  latestOf rows !! k = Some r -> x ∈ rows -> scrap_type_id x = k -> since x <= since r.
Proof.
  intros Hr Hx Hk. pose proof (latestOf_inv rows k) as Hinv. rewrite Hr in Hinv.
  destruct Hinv as (Hid & before & after & -> & Hb & Ha).
  apply elem_of_app in Hx as [Hx | Hx]; [exact (Hb x Hx Hk)|].
  apply elem_of_cons in Hx as [-> | Hx]; [lia|].
  specialize (Ha x Hx Hk). lia.
Qed.

(** X10. One call of [getActiveRateByType] sends one request and
    writes nothing. When the data service carries the request out, a
    scrap type has an entry in the map exactly when the table holds an
    active row of that type, and the entry is one of those rows; when
    the service answers with an error, the call throws that error. *)
Theorem getActiveRateByType_reads_active_rows (w : World) (supabase : Client)
    (s s' : State) (r : result (gmap string ScrapRate)) :
  getActiveRateByType w supabase s = (r, s') ->
  s' = add_event (Sent supabase SelectActiveRates) s /\
  (fate w (length (log s)) = Served ->
     exists latest,
       r = Return latest /\
       forall k,
         (forall x, latest !! k = Some x ->
            x ∈ scrap_rates (store_at s (client_url supabase)) /\
            is_active x = true /\ scrap_type_id x = k) /\
         (is_Some (latest !! k) <->
          exists x, x ∈ scrap_rates (store_at s (client_url supabase)) /\
                    is_active x = true /\ scrap_type_id x = k)) /\
  (forall m, fate w (length (log s)) = Refused m -> r = Throw (Js.Error m)) /\
  (forall e, fate w (length (log s)) = Rejected e -> r = Throw e).
Proof.
  intros Hrun. split; [|split; [|split]].
  - revert Hrun. run. destruct (fate w (length (log s)));
      intros H; inversion H; reflexivity.
  - intros Hfate. rewrite (getActiveRateByType_served _ _ _ Hfate) in Hrun.
    injection Hrun as <- <-. eexists. split; [reflexivity|].
    set (rows := scrap_rates (store_at s (client_url supabase))).
    intros k. split.
    + intros x (Hx & Hk)%latestOf_elem.
      apply list_elem_of_filter in Hx as [Hact Hx]. auto.
    + split.
      * intros [x (Hx & Hk)%latestOf_elem].
        apply list_elem_of_filter in Hx as [Hact Hx]. eauto.
      * intros (x & Hx & Hact & <-). apply latestOf_is_Some.
        apply list_elem_of_filter. auto.
  - intros m Hfate. rewrite (getActiveRateByType_refused _ _ _ _ Hfate) in Hrun.
    congruence.
  - intros e Hfate. revert Hrun. run. rewrite Hfate. congruence.
Qed.

Lemma getActiveRateByType_reads_active_rows_witness :
  let s := startState (Some "admin") in
  let c := clientFor "https://data.supabase.co" "data-service-key" None in
  add_event (Sent c SelectActiveRates) s = add_event (Sent c SelectActiveRates) s /\
  (fate calmWorld (length (log s)) = Served ->
     exists latest,
       @Return (gmap string ScrapRate) ∅ = Return latest /\
       forall k,
         (forall x, latest !! k = Some x ->
            x ∈ scrap_rates (store_at s (client_url c)) /\
            is_active x = true /\ scrap_type_id x = k) /\
         (is_Some (latest !! k) <->
          exists x, x ∈ scrap_rates (store_at s (client_url c)) /\
                    is_active x = true /\ scrap_type_id x = k)) /\
  (forall m, fate calmWorld (length (log s)) = Refused m ->
     @Return (gmap string ScrapRate) ∅ = Throw (Js.Error m)) /\
  (forall e, fate calmWorld (length (log s)) = Rejected e ->
     @Return (gmap string ScrapRate) ∅ = Throw e).
Proof.
  cbv zeta.
  apply (getActiveRateByType_reads_active_rows calmWorld
           (clientFor "https://data.supabase.co" "data-service-key" None)
           (startState (Some "admin"))).
  reflexivity.
Defined.

(** X16. The order of arrival matters to the reduction only through
    ties: when no two rows of one scrap type are in force from the same
    instant, any reordering of the rows gives the same map. *)
Theorem latestOf_order_only_breaks_ties (rows rows' : list ScrapRate) :
  rows ≡ₚ rows' ->
  (forall x y, x ∈ rows -> y ∈ rows ->
     scrap_type_id x = scrap_type_id y -> since x = since y -> x = y) ->
  latestOf rows = latestOf rows'.
Proof.
  intros Hperm Hdistinct. apply map_eq. intros k.
  destruct (latestOf rows !! k) as [r|] eqn:Hr, (latestOf rows' !! k) as [r'|] eqn:Hr'.
  - f_equal. destruct (latestOf_elem _ _ _ Hr) as [Hin Hk].
    destruct (latestOf_elem _ _ _ Hr') as [Hin' Hk'].
    rewrite <- Hperm in Hin'.
    apply Hdistinct; [assumption | assumption | congruence |].
    pose proof (latestOf_max _ _ _ _ Hr Hin' Hk').
    assert (Hin2 : r ∈ rows') by (rewrite <- Hperm; exact Hin).
    pose proof (latestOf_max _ _ _ _ Hr' Hin2 Hk). lia.
  - exfalso. destruct (latestOf_elem _ _ _ Hr) as [Hin <-].
    rewrite Hperm in Hin. apply latestOf_is_Some in Hin as [? Hs]. congruence.
  - exfalso. destruct (latestOf_elem _ _ _ Hr') as [Hin <-].
    rewrite <- Hperm in Hin. apply latestOf_is_Some in Hin as [? Hs]. congruence.
  - reflexivity.
Qed.

Lemma latestOf_order_only_breaks_ties_witness :
  let a := {| scrap_type_id := "cu"; rate_per_kg := JsValue.Finite 40;
              effective_from := Some 1700000000000; is_active := true |} in
  let b := {| scrap_type_id := "cu"; rate_per_kg := JsValue.Finite 45;
              effective_from := Some 1700000600000; is_active := true |} in
  let c := {| scrap_type_id := "fe"; rate_per_kg := JsValue.Finite 12;
              effective_from := None; is_active := true |} in
  latestOf [a; b; c] = latestOf [c; b; a].
Proof.
  cbv zeta. apply latestOf_order_only_breaks_ties.
  - apply NoDup_Permutation.
    + repeat constructor; rewrite ?elem_of_cons, ?elem_of_nil; intuition discriminate.
    + repeat constructor; rewrite ?elem_of_cons, ?elem_of_nil; intuition discriminate.
    + intros x. rewrite !elem_of_cons, !elem_of_nil. tauto.
  - intros x y Hx Hy.
    rewrite !elem_of_cons, elem_of_nil in Hx, Hy.
    destruct Hx as [-> | [-> | [-> | []]]], Hy as [-> | [-> | [-> | []]]];
      cbn; intros; try reflexivity; discriminate.
Defined.

(** ** More on setting a rate *)

Lemma deactivate_other (c : string) (rows : list ScrapRate) :
  filter (fun r => scrap_type_id r <> c) (map (deactivate c) rows)
  = filter (fun r => scrap_type_id r <> c) rows.
Proof.
  induction rows as [|r rows IH]; [reflexivity|].
  cbn [map]. rewrite !filter_cons, IH.
  unfold deactivate.
  destruct (decide (scrap_type_id r = c)) as [Heq | Hne].
  - rewrite bool_decide_eq_true_2 by exact Heq.
    destruct (is_active r); cbn; rewrite !decide_False by (intros H; apply H; exact Heq);
      reflexivity.
  - rewrite bool_decide_eq_false_2 by exact Hne. reflexivity.
Qed.

(** X12. One request to set a rate that is answered 201 leaves exactly
    one active row for the scrap type, whatever the table held before,
    none or several active rows included: the new row, with the id
    converted and trimmed, the rate converted, finite and above 0, and
    the answer carries the same id, rate and instant. *)
Theorem one_setRate_leaves_one_active (w : World) (req : Request) (s : State)
    (r : Response) :
  res (handle postScrapRates w req s) = Some r -> status r = 201%nat ->
  exists url t id rate,
    process_env w !! "SUPABASE_URL" = Some url /\
    scrapTypeIdOf w req = Return id /\ ratePerKgOf w req = Return rate /\
    activeRows id (store_at (handle postScrapRates w req s) url)
    = [ {| scrap_type_id := id;
           rate_per_kg := rate;
           effective_from := Some t;
           is_active := true |} ] /\
    r = {| status := 201; body := RateBody id rate (Some t) |} /\
    id <> "" /\
    positiveFinite rate.
Proof.
  intros Hr Hst.
  destruct (postScrapRates_201 w req s r Hr Hst)
    as (sup & t & id & rate & Hsup & Hid & Hrate & Hne & Hpos & -> & Hproj).
  apply createServiceClient_Return in Hsup as (url & key & Hurl & _ & _ & _ & _ & ->).
  cbn [client_url clientFor] in Hproj.
  exists url, t, id, rate. split; [exact Hurl|]. split; [exact Hid|].
  split; [exact Hrate|]. split; [|split; [reflexivity|split]].
  - unfold activeRows, store_at at 1. rewrite Hproj, lookup_insert_eq. cbn.
    apply activeRows_after; reflexivity.
  - intros Hempty. rewrite Hempty in Hne. discriminate.
  - exact Hpos.
Qed.

Lemma one_setRate_leaves_one_active_witness :
  let req := rateRequest " cu " (JsValue.Num (JsValue.Finite 5.5)) in
  let s := startState (Some "admin") in
  exists url t id rate,
    process_env calmWorld !! "SUPABASE_URL" = Some url /\
    scrapTypeIdOf calmWorld req = Return id /\ ratePerKgOf calmWorld req = Return rate /\
    activeRows id (store_at (handle postScrapRates calmWorld req s) url)
    = [ {| scrap_type_id := id;
           rate_per_kg := rate;
           effective_from := Some t;
           is_active := true |} ] /\
    {| status := 201; body := RateBody "cu" (JsValue.Finite 5.5) (Some 4) |}
    = {| status := 201; body := RateBody id rate (Some t) |} /\
    id <> "" /\
    positiveFinite rate.
Proof.
  cbv zeta.
  apply (one_setRate_leaves_one_active calmWorld
           (rateRequest " cu " (JsValue.Num (JsValue.Finite 5.5)))
           (startState (Some "admin"))
           {| status := 201; body := RateBody "cu" (JsValue.Finite 5.5) (Some 4) |});
    vm_compute; reflexivity.
Defined.

(** X13. A request to set a rate that is answered 201 deletes nothing
    and touches nothing else: the table of rates is one row longer, the
    rows of the other scrap types are as they were, the profiles and
    the vendors of the project are as they were, and so are the tables
    of every other project. *)
Theorem setRate_keeps_history (w : World) (req : Request) (s : State) (r : Response) :
  res (handle postScrapRates w req s) = Some r -> status r = 201%nat ->
  let s' := handle postScrapRates w req s in
  exists url id,
    process_env w !! "SUPABASE_URL" = Some url /\
    scrapTypeIdOf w req = Return id /\
    length (scrap_rates (store_at s' url)) = S (length (scrap_rates (store_at s url))) /\
    filter (fun x => scrap_type_id x <> id) (scrap_rates (store_at s' url))
    = filter (fun x => scrap_type_id x <> id) (scrap_rates (store_at s url)) /\
    (forall x, x ∈ scrap_rates (store_at s url) ->
       deactivate id x ∈ scrap_rates (store_at s' url)) /\
    profiles (store_at s' url) = profiles (store_at s url) /\
    vendor_backends (store_at s' url) = vendor_backends (store_at s url) /\
    (forall other, other <> url -> projects s' !! other = projects s !! other).
Proof.
  intros Hr Hst s'.
  destruct (postScrapRates_201 w req s r Hr Hst)
    as (sup & t & id & rate & Hsup & Hid & Hrate & Hne & Hpos & -> & Hproj).
  apply createServiceClient_Return in Hsup as (url & key & Hurl & _ & _ & _ & _ & ->).
  cbn [client_url clientFor] in Hproj. fold s' in Hproj.
  exists url, id. split; [exact Hurl|]. split; [exact Hid|].
  assert (Hstore : store_at s' url =
            set_rates
              (map (deactivate id) (scrap_rates (store_at s url))
               ++ [ {| scrap_type_id := id;
                       rate_per_kg := rate;
                       effective_from := Some t;
                       is_active := true |} ])%list
              (store_at s url)).
  { unfold store_at at 1. rewrite Hproj, lookup_insert_eq. reflexivity. }
  rewrite Hstore. cbn [scrap_rates profiles vendor_backends set_rates].
  split; [rewrite length_app, length_map; cbn; lia|].
  split.
  - rewrite filter_app, deactivate_other, filter_cons, decide_False, app_nil_r
      by (cbn; intros H; apply H; reflexivity).
    reflexivity.
  - split; [|split; [reflexivity | split; [reflexivity|]]].
    + intros x Hx. apply elem_of_app. left.
      apply list_elem_of_In, in_map, list_elem_of_In. exact Hx.
    + intros other Hother. rewrite Hproj. apply lookup_insert_ne. congruence.
Qed.

Lemma setRate_keeps_history_witness :
  let req := rateRequest "cu" (JsValue.Num (JsValue.Finite 5.5)) in
  let s := startState (Some "admin") in
  let s' := handle postScrapRates calmWorld req s in
  exists url id,
    process_env calmWorld !! "SUPABASE_URL" = Some url /\
    scrapTypeIdOf calmWorld req = Return id /\
    length (scrap_rates (store_at s' url)) = S (length (scrap_rates (store_at s url))) /\
    filter (fun x => scrap_type_id x <> id) (scrap_rates (store_at s' url))
    = filter (fun x => scrap_type_id x <> id) (scrap_rates (store_at s url)) /\
    (forall x, x ∈ scrap_rates (store_at s url) ->
       deactivate id x ∈ scrap_rates (store_at s' url)) /\
    profiles (store_at s' url) = profiles (store_at s url) /\
    vendor_backends (store_at s' url) = vendor_backends (store_at s url) /\
    (forall other, other <> url -> projects s' !! other = projects s !! other).
Proof.
  cbv zeta.
  apply (setRate_keeps_history calmWorld
           (rateRequest "cu" (JsValue.Num (JsValue.Finite 5.5)))
           (startState (Some "admin"))
           {| status := 201; body := RateBody "cu" (JsValue.Finite 5.5) (Some 4) |});
    vm_compute; reflexivity.
Defined.

(** X15. When the data service answers the deactivation with an error,
    the request is answered 400 with the message of the service, no row
    is inserted, nothing more is sent, and every table is as it was. *)
Theorem deactivation_refused_changes_nothing (w : World) (req : Request) (s : State)
    (supabase : Client) (m id : string) (rate : JsValue.Number) :
  scrapTypeIdOf w req = Return id -> Js.isEmpty id = false ->
  ratePerKgOf w req = Return rate -> positiveFinite rate ->
  createServiceClient (supabase_js w) (process_env w) = Return supabase ->
  fate w (length (log s)) = Refused m ->
  setRate w req s =
  (Return tt,
   set_res {| status := 400; body := ErrorBody m |}
           (add_event (Sent supabase (DeactivateRates id)) s)).
Proof.
  intros Hid Hne Hrate Hpos Hsup Hfate.
  rewrite (setRate_converted w req s id rate Hid Hrate), Hne, (rate_accepted _ Hpos).
  run_body. rewrite Hsup, Hfate. reflexivity.
Qed.

Lemma deactivation_refused_changes_nothing_witness :
  let req := rateRequest "cu" (JsValue.Num (JsValue.Finite 5.5)) in
  let s := startState (Some "admin") in
  setRate (refusingWorld 0) req s =
  (Return tt,
   set_res {| status := 400; body := ErrorBody "permission denied for table scrap_rates" |}
     (add_event (Sent (clientFor "https://data.supabase.co" "data-service-key" None)
                      (DeactivateRates "cu")) s)).
Proof.
  cbv zeta.
  apply (deactivation_refused_changes_nothing (refusingWorld 0)
           (rateRequest "cu" (JsValue.Num (JsValue.Finite 5.5)))
           (startState (Some "admin")) _ _ "cu" (JsValue.Finite 5.5)).
  - reflexivity.
  - reflexivity.
  - reflexivity.
  - vm_compute. reflexivity.
  - reflexivity.
  - reflexivity.
Defined.

(** X11. The two writes are not one: when the deactivation is carried
    out and the insertion is answered with an error, the request is
    answered 400 with the message of the service and the scrap type is
    left with no active row at all, its former rows all inactive. *)
Theorem insert_refused_leaves_none_active (w : World) (req : Request) (s : State)
    (supabase : Client) (m id : string) (rate : JsValue.Number) :
  scrapTypeIdOf w req = Return id -> Js.isEmpty id = false ->
  ratePerKgOf w req = Return rate -> positiveFinite rate ->
  createServiceClient (supabase_js w) (process_env w) = Return supabase ->
  fate w (length (log s)) = Served ->
  fate w (S (length (log s))) = Refused m ->
  exists s',
    setRate w req s = (Return tt, s') /\
    res s' = Some {| status := 400; body := ErrorBody m |} /\
    scrap_rates (store_at s' (client_url supabase))
    = map (deactivate id) (scrap_rates (store_at s (client_url supabase))) /\
    activeRows id (store_at s' (client_url supabase)) = [].
Proof.
  intros Hid Hne Hrate Hpos Hsup Hserved Hrefused.
  rewrite (setRate_converted w req s id rate Hid Hrate), Hne, (rate_accepted _ Hpos).
  run_body. rewrite Hsup, Hserved. cbn [error data log add_event set_store].
  rewrite length_app, Nat.add_1_r, Hrefused. cbn [error].
  eexists. split; [reflexivity|]. split; [reflexivity|].
  unfold activeRows, store_at, set_res, set_store, add_event. cbn [projects].
  rewrite lookup_insert_eq. cbn [default scrap_rates set_rates].
  split; [reflexivity | apply activeRows_deactivated].
Qed.

Lemma insert_refused_leaves_none_active_witness :
  let req := rateRequest "cu" (JsValue.Num (JsValue.Finite 5.5)) in
  let s := startState (Some "admin") in
  let c := clientFor "https://data.supabase.co" "data-service-key" None in
  exists s',
    setRate (refusingWorld 1) req s = (Return tt, s') /\
    res s' = Some {| status := 400;
                     body := ErrorBody "permission denied for table scrap_rates" |} /\
    scrap_rates (store_at s' (client_url c))
    = map (deactivate "cu") (scrap_rates (store_at s (client_url c))) /\
    activeRows "cu" (store_at s' (client_url c)) = [].
Proof.
  cbv zeta.
  apply (insert_refused_leaves_none_active (refusingWorld 1)
           (rateRequest "cu" (JsValue.Num (JsValue.Finite 5.5)))
           (startState (Some "admin"))
           (clientFor "https://data.supabase.co" "data-service-key" None)
           _ "cu" (JsValue.Finite 5.5)).
  - reflexivity.
  - reflexivity.
  - reflexivity.
  - vm_compute. reflexivity.
  - reflexivity.
  - reflexivity.
  - reflexivity.
Defined.

Lemma latestOf_only (rows : list ScrapRate) (row : ScrapRate) :
  row ∈ rows ->
  (forall x, x ∈ rows -> scrap_type_id x = scrap_type_id row -> x = row) ->
  latestOf rows !! scrap_type_id row = Some row.
Proof.
  intros Hin Honly. destruct (latestOf_is_Some rows row Hin) as [x Hx].
  rewrite Hx. f_equal. destruct (latestOf_elem _ _ _ Hx) as [Hxin Hxid].
  apply Honly; assumption.
Qed.

(** X14. Setting a rate and reading the active rates back: after a
    request answered 201, [getActiveRateByType] on the service client,
    when the data service carries the query out, maps the scrap type to
    the row just inserted, with the rate as requested. *)
Theorem setRate_then_getActiveRates (w : World) (req : Request) (s : State)
    (r : Response) (supabase : Client) :
  res (handle postScrapRates w req s) = Some r -> status r = 201%nat ->
  createServiceClient (supabase_js w) (process_env w) = Return supabase ->
  let s1 := handle postScrapRates w req s in
  fate w (length (log s1)) = Served ->
  exists latest t id rate,
    scrapTypeIdOf w req = Return id /\ ratePerKgOf w req = Return rate /\
    fst (getActiveRateByType w supabase s1) = Return latest /\
    latest !! id
    = Some {| scrap_type_id := id;
              rate_per_kg := rate;
              effective_from := Some t;
              is_active := true |} /\
    r = {| status := 201; body := RateBody id rate (Some t) |}.
Proof.
  intros Hr Hst Hsup s1 Hfate.
  destruct (postScrapRates_201 w req s r Hr Hst)
    as (sup & t & id & rate & Hsup' & Hid & Hrate & Hne & Hpos & -> & Hproj).
  assert (sup = supabase) as -> by congruence.
  rewrite (getActiveRateByType_served _ _ _ Hfate). cbn [fst].
  eexists _, t, id, rate. split; [exact Hid|]. split; [exact Hrate|].
  split; [reflexivity|]. split; [|reflexivity].
  fold s1 in Hproj.
  set (row := {| scrap_type_id := id; rate_per_kg := rate;
                 effective_from := Some t; is_active := true |}) in *.
  assert (Hrows : scrap_rates (store_at s1 (client_url supabase))
                  = (map (deactivate id) (scrap_rates (store_at s (client_url supabase)))
                     ++ [row])%list).
  { unfold store_at at 1. rewrite Hproj, lookup_insert_eq. reflexivity. }
  rewrite Hrows.
  apply (latestOf_only _ row).
  - apply list_elem_of_filter. split; [reflexivity|].
    apply elem_of_app. right. apply list_elem_of_singleton. reflexivity.
  - intros x Hx Hxid. apply list_elem_of_filter in Hx as [Hact Hx].
    assert (Hx' : x ∈ filter (fun r => scrap_type_id r = id ∧ is_active r = true)
                      (map (deactivate id) (scrap_rates (store_at s (client_url supabase)))
                       ++ [row])%list)
      by (apply list_elem_of_filter; auto).
    rewrite activeRows_after in Hx' by reflexivity.
    apply list_elem_of_singleton in Hx'. exact Hx'.
Qed.

Lemma setRate_then_getActiveRates_witness :
  let req := rateRequest "cu" (JsValue.Num (JsValue.Finite 5.5)) in
  let s := startState (Some "admin") in
  let c := clientFor "https://data.supabase.co" "data-service-key" None in
  exists latest t id rate,
    scrapTypeIdOf calmWorld req = Return id /\ ratePerKgOf calmWorld req = Return rate /\
    fst (getActiveRateByType calmWorld c (handle postScrapRates calmWorld req s))
    = Return latest /\
    latest !! id
    = Some {| scrap_type_id := id;
              rate_per_kg := rate;
              effective_from := Some t;
              is_active := true |} /\
    {| status := 201; body := RateBody "cu" (JsValue.Finite 5.5) (Some 4) |}
    = {| status := 201; body := RateBody id rate (Some t) |}.
Proof.
  cbv zeta.
  apply (setRate_then_getActiveRates calmWorld
           (rateRequest "cu" (JsValue.Num (JsValue.Finite 5.5)))
           (startState (Some "admin"))
           {| status := 201; body := RateBody "cu" (JsValue.Finite 5.5) (Some 4) |}
           (clientFor "https://data.supabase.co" "data-service-key" None));
    vm_compute; reflexivity.
Defined.

(** ** The routes that only read *)

Lemma coalesce_Null_defined (v : JsValue.t) :
  JsValue.coalesce v JsValue.Null <> JsValue.Undefined.
Proof. destruct v; discriminate. Qed.

Lemma vendorRow_shape (v : gmap string JsValue.t) :
  map fst (vendorRow v)
  = ["vendor_id"; "vendor_ref"; "offer_url"; "latitude"; "longitude"; "updated_at"] /\
  Forall (fun kv => snd kv <> JsValue.Undefined) (vendorRow v).
Proof.
  split; [reflexivity|].
  unfold vendorRow. repeat constructor; apply coalesce_Null_defined.
Qed.

(** X17. GET /vendors, once the gate has let the request in and the
    data service carries the query out, answers 200 with at most 500
    rows, one for each of the first 500 rows of the table and in their
    order. Each row has the six keys vendor_id, vendor_ref, offer_url,
    latitude, longitude and updated_at and no other, whatever columns
    the table has, and none of its values is undefined. The route
    sends that one query and writes to no table. *)
Theorem getVendors_exposes_six_columns (w : World) (req : Request) (s0 s : State)
    (a : Principal) (supabase : Client) :
  requireAdmin w req s0 = (Return (Some a), s) ->
  createServiceClient (supabase_js w) (process_env w) = Return supabase ->
  fate w (length (log s)) = Served ->
  let table := vendor_backends (store_at s (client_url supabase)) in
  exists rows,
    getVendors w req s0 =
    (Return tt,
     set_res {| status := 200; body := VendorsBody rows |}
             (add_event (Sent supabase SelectVendors) s)) /\
    rows = map vendorRow (take 500 table) /\
    length rows = Nat.min 500 (length table) /\
    Forall (fun row =>
              map fst row = ["vendor_id"; "vendor_ref"; "offer_url";
                             "latitude"; "longitude"; "updated_at"] /\
              Forall (fun kv => snd kv <> JsValue.Undefined) row) rows.
Proof.
  intros Hgate Hsup Hfate table.
  exists (map vendorRow (take 500 table)).
  split; [|split; [reflexivity|split]].
  - unfold getVendors, gated, bind at 1. rewrite Hgate.
    run_body. rewrite Hsup. cbn [log add_event]. rewrite Hfate. reflexivity.
  - rewrite length_map, length_take. reflexivity.
  - induction (take 500 table) as [|v vs IH]; constructor;
      [apply vendorRow_shape | exact IH].
Qed.

Lemma getVendors_exposes_six_columns_witness :
  let s0 := {| projects :=
                 {[ "https://data.supabase.co" :=
                      {| profiles := [ {| profile_id := "u-1"; role := Some "admin" |} ];
                         scrap_rates := [];
                         vendor_backends :=
                           [ <[ "vendor_id" := JsValue.Str "v-1" ]>
                               (<[ "last_latitude" := JsValue.Num (JsValue.Finite 28.6) ]>
                                  {[ "api_secret" := JsValue.Str "s3cr3t" ]}) ] |} ]};
               log := [];
               res := None |} in
  let c := clientFor "https://data.supabase.co" "data-service-key" None in
  let s := add_event (Sent c (SelectRole "u-1"))
             (add_event (Sent (clientFor "https://auth.supabase.co" "auth-anon-key"
                                            (Some "Bearer token-1")) GetUser)
                        (add_event BearerRead s0)) in
  exists rows,
    getVendors calmWorld (withBearer None) s0 =
    (Return tt,
     set_res {| status := 200; body := VendorsBody rows |}
             (add_event (Sent c SelectVendors) s)) /\
    rows = map vendorRow (take 500 (vendor_backends (store_at s (client_url c)))) /\
    length rows = Nat.min 500 (length (vendor_backends (store_at s (client_url c)))) /\
    Forall (fun row =>
              map fst row = ["vendor_id"; "vendor_ref"; "offer_url";
                             "latitude"; "longitude"; "updated_at"] /\
              Forall (fun kv => snd kv <> JsValue.Undefined) row) rows.
Proof.
  cbv zeta.
  apply (getVendors_exposes_six_columns calmWorld (withBearer None) _ _
           {| userId := "u-1" |});
    reflexivity.
Defined.

Example getVendors_hides_other_columns :
  vendorRow (<[ "vendor_id" := JsValue.Str "v-1" ]>
               (<[ "last_latitude" := JsValue.Num (JsValue.Finite 28.6) ]>
                  {[ "api_secret" := JsValue.Str "s3cr3t" ]}))
  = [ ("vendor_id", JsValue.Str "v-1"); ("vendor_ref", JsValue.Null);
      ("offer_url", JsValue.Null); ("latitude", JsValue.Num (JsValue.Finite 28.6));
      ("longitude", JsValue.Null); ("updated_at", JsValue.Null) ].
Proof. reflexivity. Qed.

(** X18. GET /me never reports an admin that is not one. An answer
    with status 200 carries a user id that the identity service has
    vouched for, without an error, in this very request, and for which
    the project at SUPABASE_URL stores the role admin; to give it the
    route read the token, asked the two services once each, and wrote
    to no table. *)
Theorem getMe_reports_a_verified_admin (w : World) (req : Request) (s : State)
    (r : Response) :
  res (handle getMe w req s) = Some r -> status r = 200%nat ->
  let s' := handle getMe w req s in
  exists id anon supabase answer,
    body r = MeBody id /\
    getUser w (S (length (log s))) anon = Return answer /\
    user_error answer = None /\ user_id answer = Some id /\
    createServiceClient (supabase_js w) (process_env w) = Return supabase /\
    isAdminRole (storedRole id (store_at s (client_url supabase))) /\
    log s' = (log s ++ [BearerRead; Sent anon GetUser;
                        Sent supabase (SelectRole id)])%list /\
    projects s' = projects s.
Proof.
  unfold handle, getMe, gated, bind. cbv zeta.
  set (s0 := {| projects := projects s; log := log s; res := None |}).
  destruct (requireAdmin w req s0) as [ra sa] eqn:Hgate.
  pose proof Hgate as Hgate'. revert Hgate'.
  unfold requireAdmin at 1, bind.
  destruct (verifyIdentity w req s0) as [r1 s1] eqn:Hv.
  apply verifyIdentity_run in Hv
    as [Hp [(resp & m & evs & -> & _ & Hres & Hbody & Hst & _)
           | (id & anon & ans & -> & Hlog & Hres & Hget & Herr & Hid & Hne)]].
  - intros [= <- <-]. cbn. rewrite Hres. intros [= <-] H200. exfalso.
    revert Hst. rewrite H200, !elem_of_cons, elem_of_nil. intuition discriminate.
  - intros Hc. pose proof Hc as Hc'. apply checkRole_run in Hc'
      as [Hp' [(resp & m & -> & Hres' & Hbody & Hst & _)
              | (sup & -> & Hres' & Hsup & Hlog')]].
    + cbn. rewrite Hres'. intros [= <-] H200. exfalso.
      revert Hst. rewrite H200, !elem_of_cons, elem_of_nil. intuition discriminate.
    + cbn. intros [= <-] _.
      destruct (requireAdmin_admits _ _ _ _ _ Hgate)
        as (jwt & anon' & sup' & _ & _ & Hsup' & _ & Hrole).
      assert (sup' = sup) as -> by congruence.
      exists id, anon, sup, ans. cbn [userId] in Hrole.
      repeat split; try assumption.
      * cbn. rewrite Hlog', Hlog, <- app_assoc. reflexivity.
      * cbn. rewrite Hp', Hp. reflexivity.
Qed.

Lemma getMe_reports_a_verified_admin_witness :
  let s := startState (Some "ADMIN") in
  let s' := handle getMe calmWorld (withBearer None) s in
  exists id anon supabase answer,
    body {| status := 200; body := MeBody "u-1" |} = MeBody id /\
    getUser calmWorld (S (length (log s))) anon = Return answer /\
    user_error answer = None /\ user_id answer = Some id /\
    createServiceClient (supabase_js calmWorld) (process_env calmWorld) = Return supabase /\
    isAdminRole (storedRole id (store_at s (client_url supabase))) /\
    log s' = (log s ++ [BearerRead; Sent anon GetUser;
                        Sent supabase (SelectRole id)])%list /\
    projects s' = projects s.
Proof.
  cbv zeta.
  apply (getMe_reports_a_verified_admin calmWorld (withBearer None)
           (startState (Some "ADMIN")) {| status := 200; body := MeBody "u-1" |});
    reflexivity.
Defined.

(** ** The routes of the three other tables *)

Ltac run_site :=
  cbv beta iota delta
    [getScrapTypes postScrapType patchScrapType getSiteStats postSiteStat patchSiteStat
     getTestimonials postTestimonial patchTestimonial
     updateRow insertRow listRows
     gatedC liftM bindC retC throwC try_catchC fail succeed selectFrom write caught
     respond lift modify with_core with_page].

Lemma gatedC_denied (b : Backend) (req : Request) (rest : Principal -> C unit)
    (t : Site) (s' : State) :
  requireAdmin (world b) req (core t) = (Return None, s') ->
  gatedC b req rest t = (Return tt, with_core s' t).
Proof. intros Hgate. unfold gatedC, liftM, bindC. rewrite Hgate. reflexivity. Qed.

Lemma gatedC_admitted (b : Backend) (req : Request) (rest : Principal -> C unit)
    (t : Site) (s' : State) (a : Principal) :
  requireAdmin (world b) req (core t) = (Return (Some a), s') ->
  gatedC b req rest t = rest a (with_core s' t).
Proof. intros Hgate. unfold gatedC, liftM, bindC. rewrite Hgate. reflexivity. Qed.

(** X19. A request the gate turns away reaches none of the three
    tables: each of the nine routes ends with the state the gate left,
    nothing sent and no successful answer given. *)
Theorem denied_request_reaches_no_table (b : Backend) (param : string) (req : Request)
    (t : Site) (s' : State) :
  requireAdmin (world b) req (core t) = (Return None, s') ->
  Forall (fun route => route t = (Return tt, with_core s' t)) (contentRoutes b param req).
Proof.
  intros Hgate. unfold contentRoutes.
  repeat constructor; apply gatedC_denied; exact Hgate.
Qed.

Lemma denied_request_reaches_no_table_witness :
  Forall (fun route =>
            route (startSite (Some "customer"))
            = (Return tt,
               with_core
                 (set_res {| status := 403; body := ErrorBody "Admin access required" |}
                          (admittedState (Some "customer")))
                 (startSite (Some "customer"))))
         (contentRoutes calmBackend "row-1" (withBearer None)).
Proof.
  apply (denied_request_reaches_no_table calmBackend "row-1" (withBearer None)
           (startSite (Some "customer"))).
  reflexivity.
Defined.

(** X20. GET /scrap-types, when the gate lets the request in and both
    queries are carried out, lists every scrap type the service
    returned, once and in that order, with its id and name. A type
    with no active row of its id in the table of rates is listed with
    neither rate nor effective-from, not dropped; a type with active
    rows is listed with the rate and the effective-from of one of them,
    which none of them exceeds in effective-from. *)
Theorem getScrapTypes_pairs_types_with_rates (b : Backend) (req : Request) (t : Site)
    (a : Principal) (s1 : State) (supabase : Client) (types : list Row) :
  requireAdmin (world b) req (core t) = (Return (Some a), s1) ->
  createServiceClient (supabase_js (world b)) (process_env (world b)) = Return supabase ->
  listed b (length (sent t)) supabase "scrap_types"
  = Return {| data := Some types; error := None |} ->
  fate (world b) (length (log s1)) = Served ->
  let table := scrap_rates (store_at s1 (client_url supabase)) in
  exists rows,
    getScrapTypes b req t =
    (Return tt,
     {| core := add_event (Sent supabase SelectActiveRates) s1;
        sent := (sent t ++ [(supabase, SelectFrom "scrap_types")])%list;
        page := Some (200%nat, ScrapTypesBody rows) |}) /\
    length rows = length types /\
    forall i ty,
      types !! i = Some ty ->
      exists out,
        rows !! i = Some out /\
        out_id out = prop ty "id" /\ out_name out = prop ty "name" /\
        forall k,
          prop ty "id" = JsValue.Str k ->
          ((forall x, x ∈ table -> is_active x = true -> scrap_type_id x <> k) ->
             out_ratePerKg out = None /\ out_effectiveFrom out = None) /\
          (forall x, x ∈ table -> is_active x = true -> scrap_type_id x = k ->
             exists r,
               r ∈ table /\ is_active r = true /\ scrap_type_id r = k /\
               out_ratePerKg out = Some (rate_per_kg r) /\
               out_effectiveFrom out = effective_from r /\
               since x <= since r).
Proof.
  intros Hgate Hsup Hlist Hfate table.
  set (latest := latestOf (filter (fun r => is_active r = true) table)).
  exists (map (scrapTypeOut latest) types).
  split; [|split].
  - unfold getScrapTypes. rewrite (gatedC_admitted _ _ _ _ _ _ Hgate).
    run_site. cbn [core sent page]. rewrite Hsup, Hlist. cbn [error data core].
    rewrite (getActiveRateByType_served _ _ _ Hfate). reflexivity.
  - apply length_map.
  - intros i ty Hty. exists (scrapTypeOut latest ty).
    split; [change (map ?f ?l) with (f <$> l); rewrite list_lookup_fmap, Hty; reflexivity|].
    split; [reflexivity|]. split; [reflexivity|].
    intros k Hk. unfold scrapTypeOut. rewrite Hk.
    cbn [out_ratePerKg out_effectiveFrom]. split.
    + intros Hnone. destruct (latest !! k) as [r|] eqn:Hr; [|split; reflexivity].
      exfalso. apply latestOf_elem in Hr as [Hin Hid].
      apply list_elem_of_filter in Hin as [Hact Hin]. exact (Hnone r Hin Hact Hid).
    + intros x Hx Hact Hid.
      assert (Hxin : x ∈ filter (fun r => is_active r = true) table)
        by (apply list_elem_of_filter; auto).
      destruct (latestOf_is_Some _ _ Hxin) as [r Hr]. rewrite Hid in Hr.
      fold latest in Hr. rewrite Hr. exists r.
      pose proof (latestOf_max _ _ _ _ Hr Hxin Hid) as Hmax.
      apply latestOf_elem in Hr as [Hin Hrid].
      apply list_elem_of_filter in Hin as [Hract Hin].
      repeat split; assumption.
Qed.

Lemma getScrapTypes_pairs_types_with_rates_witness :
  let types : list Row :=
    [ <[ "id" := JsValue.Str "cu" ]> {[ "name" := JsValue.Str "Copper" ]} ] in
  let b := {| world := calmWorld;
              listed := fun _ _ _ => Return {| data := Some types; error := None |};
              written := written calmBackend |} in
  let t := startSite (Some "admin") in
  let s1 := admittedState (Some "admin") in
  let table := scrap_rates (store_at s1 (client_url dataClient)) in
  exists rows,
    getScrapTypes b (withBearer None) t =
    (Return tt,
     {| core := add_event (Sent dataClient SelectActiveRates) s1;
        sent := (sent t ++ [(dataClient, SelectFrom "scrap_types")])%list;
        page := Some (200%nat, ScrapTypesBody rows) |}) /\
    length rows = length types /\
    forall i ty,
      types !! i = Some ty ->
      exists out,
        rows !! i = Some out /\
        out_id out = prop ty "id" /\ out_name out = prop ty "name" /\
        forall k,
          prop ty "id" = JsValue.Str k ->
          ((forall x, x ∈ table -> is_active x = true -> scrap_type_id x <> k) ->
             out_ratePerKg out = None /\ out_effectiveFrom out = None) /\
          (forall x, x ∈ table -> is_active x = true -> scrap_type_id x = k ->
             exists r,
               r ∈ table /\ is_active r = true /\ scrap_type_id r = k /\
               out_ratePerKg out = Some (rate_per_kg r) /\
               out_effectiveFrom out = effective_from r /\
               since x <= since r).
Proof.
  cbv zeta.
  apply (getScrapTypes_pairs_types_with_rates
           {| world := calmWorld;
              listed := fun _ _ _ =>
                Return {| data := Some [ <[ "id" := JsValue.Str "cu" ]>
                                           {[ "name" := JsValue.Str "Copper" ]} ];
                          error := None |};
              written := written calmBackend |}
           (withBearer None) (startSite (Some "admin")) {| userId := "u-1" |});
    reflexivity.
Defined.

(** X21. In GET /scrap-types the two queries fail differently. When
    the data service answers the query of the types with an error, the
    route answers 400 with the message and does not ask for the rates.
    When it answers the query of the rates with an error, that error is
    thrown and caught, and the route answers 500 with the message, or
    with the fallback text when the message is empty. *)
Theorem getScrapTypes_failure_modes (b : Backend) (req : Request) (t : Site)
    (a : Principal) (s1 : State) (supabase : Client) :
  requireAdmin (world b) req (core t) = (Return (Some a), s1) ->
  createServiceClient (supabase_js (world b)) (process_env (world b)) = Return supabase ->
  let asked := (sent t ++ [(supabase, SelectFrom "scrap_types")])%list in
  (forall d m,
     listed b (length (sent t)) supabase "scrap_types"
     = Return {| data := d; error := Some m |} ->
     getScrapTypes b req t =
     (Return tt,
      {| core := set_res {| status := 400; body := ErrorBody m |} s1;
         sent := asked; page := page t |})) /\
  (forall d m,
     listed b (length (sent t)) supabase "scrap_types"
     = Return {| data := d; error := None |} ->
     fate (world b) (length (log s1)) = Refused m ->
     getScrapTypes b req t =
     (Return tt,
      {| core := set_res {| status := 500;
                            body := ErrorBody (messageOr (Js.Error m)
                                                         "Admin request failed") |}
                         (add_event (Sent supabase SelectActiveRates) s1);
         sent := asked; page := page t |})).
Proof.
  intros Hgate Hsup asked. subst asked. split.
  - intros d m Hlist. unfold getScrapTypes. rewrite (gatedC_admitted _ _ _ _ _ _ Hgate).
    run_site. cbn [core sent page]. rewrite Hsup, Hlist. reflexivity.
  - intros d m Hlist Hfate. unfold getScrapTypes.
    rewrite (gatedC_admitted _ _ _ _ _ _ Hgate).
    run_site. cbn [core sent page]. rewrite Hsup, Hlist. cbn [error data core].
    rewrite (getActiveRateByType_refused _ _ _ _ Hfate). reflexivity.
Qed.

Lemma getScrapTypes_failure_modes_witness :
  let b := {| world := refusingWorld 3;
              listed := listed calmBackend;
              written := written calmBackend |} in
  getScrapTypes b (withBearer None) (startSite (Some "admin")) =
  (Return tt,
   {| core := set_res {| status := 500;
                         body := ErrorBody (messageOr
                                   (Js.Error "permission denied for table scrap_rates")
                                   "Admin request failed") |}
                      (add_event (Sent dataClient SelectActiveRates)
                                 (admittedState (Some "admin")));
      sent := [(dataClient, SelectFrom "scrap_types")];
      page := None |}).
Proof.
  cbv zeta.
  refine (proj2 (getScrapTypes_failure_modes _ (withBearer None)
                   (startSite (Some "admin")) {| userId := "u-1" |} _ _ _ _)
            (Some []) "permission denied for table scrap_rates" _ _);
    reflexivity.
Defined.

(** *** Helpers on the inputs of the routes *)

Lemma trimmedParam_trim (id : string) : trimmedParam id = Js.trim id.
Proof. destruct id; reflexivity. Qed.

Lemma isEmpty_trimmedParam (id : string) :
  Js.isEmpty (trimmedParam id) = allWhiteSpace id.
Proof. rewrite trimmedParam_trim. apply blank_allWhiteSpace. Qed.

Lemma trimmedText_Str (b : Backend) (s : string) :
  trimmedText b (JsValue.Str s) = Return (Js.trim s).
Proof. destruct s; reflexivity. Qed.

Lemma trim_blank (s : string) : allWhiteSpace s = true -> Js.trim s = "".
Proof.
  intros Hs. apply isEmpty_true. change (blank s = true).
  rewrite blank_allWhiteSpace. exact Hs.
Qed.

Lemma isUndefined_false (v : JsValue.t) :
  isUndefined v = false <-> v <> JsValue.Undefined.
Proof. destruct v; simpl; split; congruence. Qed.

Lemma isUndefined_true (v : JsValue.t) :
  isUndefined v = true <-> v = JsValue.Undefined.
Proof. destruct v; simpl; split; congruence. Qed.

(** The conversions of the routes give a value on every value of a
    body but the objects and arrays whose conversion throws. *)
Lemma trimmedText_converts (b : Backend) (v : JsValue.t) :
  converts v -> exists text, trimmedText b v = Return text.
Proof.
  intros Hv. unfold trimmedText, JsValue.or.
  destruct (JsValue.ToBoolean v); [|cbn; eauto].
  destruct v as [| |[|]|n|s|[repr|]]; cbn; eauto.
  exfalso. apply Hv. reflexivity.
Qed.

Lemma Number_converts (cv : JsValue.Conversions) (v : JsValue.t) :
  converts v -> exists n, JsValue.Number_ cv v = Return n.
Proof.
  intros Hv. destruct v as [| |[|]|n|s|[repr|]]; cbn; eauto.
  exfalso. apply Hv. reflexivity.
Qed.

Lemma numberUnlessUndefined_converts (b : Backend) (v : JsValue.t) :
  converts v -> exists n, numberUnlessUndefined b v = Return n.
Proof.
  intros Hv. unfold numberUnlessUndefined. destruct (isUndefined v); [eauto|].
  destruct (Number_converts (conversions (world b)) v Hv) as [n ->]. cbn. eauto.
Qed.

Lemma textUnlessUndefined_converts (b : Backend) (v : JsValue.t) :
  converts v -> exists text, textUnlessUndefined b v = Return text.
Proof.
  intros Hv. unfold textUnlessUndefined. destruct (isUndefined v); [eauto|].
  destruct (trimmedText_converts b v Hv) as [text ->]. cbn. eauto.
Qed.

(** A route after a conversion that gave a value, and after one that
    threw. *)
Lemma converted {A} (r : result A) (x : A) (k : A -> C unit) (t : Site) :
  r = Return x ->
  bindC (liftM (lift r)) k t = k x {| core := core t; sent := sent t; page := page t |}.
Proof. intros ->. reflexivity. Qed.

Lemma conversion_thrown {A} (r : result A) (e : Thrown) (k : A -> C unit) (t : Site) :
  r = Throw e ->
  bindC (liftM (lift r)) k t
  = (Throw e, {| core := core t; sent := sent t; page := page t |}).
Proof. intros ->. reflexivity. Qed.


Lemma insertRow_sent (b : Backend) (table : string) (row : Row)
    (wrap : Row -> ContentBody) (t : Site) (supabase : Client) :
  createServiceClient (supabase_js (world b)) (process_env (world b)) = Return supabase ->
  sent (snd (insertRow b table row wrap t))
  = (sent t ++ [(supabase, InsertInto table row)])%list.
Proof.
  intros Hsup. run_site. cbn [core sent page]. rewrite Hsup.
  destruct (written b (length (sent t)) supabase (InsertInto table row))
    as [[[d|] [m|]]|e]; reflexivity.
Qed.

(** *** What the routes answer *)

Lemma statOut_shape (r : Row) :
  map fst (statOut r) = ["id"; "label"; "value"; "sortOrder"; "isActive"] /\
  (exists act, (statOut r) !! 4%nat = Some ("isActive", JsValue.Bool act)) /\
  (forall v, (statOut r) !! 3%nat = Some ("sortOrder", v) -> v <> JsValue.Undefined).
Proof.
  split; [reflexivity|]. split; [eexists; reflexivity|].
  intros v [= <-]. apply coalesce_Null_defined.
Qed.

Lemma testimonialOut_shape (r : Row) :
  map fst (testimonialOut r)
  = ["id"; "name"; "quote"; "role"; "rating"; "sortOrder"; "isActive"] /\
  (exists act, (testimonialOut r) !! 6%nat = Some ("isActive", JsValue.Bool act)) /\
  (forall i k v, (3 <= i <= 5)%nat -> (testimonialOut r) !! i = Some (k, v) ->
                 v <> JsValue.Undefined).
Proof.
  split; [reflexivity|]. split; [eexists; reflexivity|].
  intros i k v Hi Hv.
  destruct i as [|[|[|[|[|[|i]]]]]]; try lia; injection Hv as _ <-;
    apply coalesce_Null_defined.
Qed.

(** X22. GET /site-stats and GET /testimonials, when the gate lets the
    request in and the data service answers without an error, answer
    200 with one object for each row returned, in the order returned,
    and with none when the service returns [null] for the rows. Each
    object has the keys of its route and no other; [isActive] is a
    boolean whatever the column held, and [sortOrder] (and for a
    testimonial [role] and [rating]) is never undefined. *)
Theorem lists_answer_one_object_per_row (b : Backend) (req : Request) (t : Site)
    (a : Principal) (s1 : State) (supabase : Client) (d : option (list Row)) :
  requireAdmin (world b) req (core t) = (Return (Some a), s1) ->
  createServiceClient (supabase_js (world b)) (process_env (world b)) = Return supabase ->
  (listed b (length (sent t)) supabase "site_stats"
   = Return {| data := d; error := None |} ->
   exists rows,
     getSiteStats b req t =
     (Return tt,
      {| core := s1; sent := (sent t ++ [(supabase, SelectFrom "site_stats")])%list;
         page := Some (200%nat, StatsBody rows) |}) /\
     rows = map statOut (default [] d) /\
     Forall (fun row =>
               map fst row = ["id"; "label"; "value"; "sortOrder"; "isActive"] /\
               (exists act, row !! 4%nat = Some ("isActive", JsValue.Bool act)) /\
               (forall v, row !! 3%nat = Some ("sortOrder", v) -> v <> JsValue.Undefined))
            rows) /\
  (listed b (length (sent t)) supabase "testimonials"
   = Return {| data := d; error := None |} ->
   exists rows,
     getTestimonials b req t =
     (Return tt,
      {| core := s1; sent := (sent t ++ [(supabase, SelectFrom "testimonials")])%list;
         page := Some (200%nat, TestimonialsBody rows) |}) /\
     rows = map testimonialOut (default [] d) /\
     Forall (fun row =>
               map fst row
               = ["id"; "name"; "quote"; "role"; "rating"; "sortOrder"; "isActive"] /\
               (exists act, row !! 6%nat = Some ("isActive", JsValue.Bool act)) /\
               (forall i k v, (3 <= i <= 5)%nat -> row !! i = Some (k, v) ->
                              v <> JsValue.Undefined))
            rows).
Proof.
  intros Hgate Hsup. split; intros Hlist; eexists; (split; [|split; [reflexivity|]]).
  - unfold getSiteStats. rewrite (gatedC_admitted _ _ _ _ _ _ Hgate).
    run_site. cbn [core sent page]. rewrite Hsup, Hlist. reflexivity.
  - induction (default [] d) as [|r rs IH]; constructor;
      [apply statOut_shape | exact IH].
  - unfold getTestimonials. rewrite (gatedC_admitted _ _ _ _ _ _ Hgate).
    run_site. cbn [core sent page]. rewrite Hsup, Hlist. reflexivity.
  - induction (default [] d) as [|r rs IH]; constructor;
      [apply testimonialOut_shape | exact IH].
Qed.

Lemma lists_answer_one_object_per_row_witness :
  let row : Row := <[ "id" := JsValue.Str "s-1" ]>
                     (<[ "label" := JsValue.Str "Tonnes recycled" ]>
                        {[ "is_active" := JsValue.Num (JsValue.Finite 1) ]}) in
  let b := {| world := calmWorld;
              listed := fun _ _ _ => Return {| data := Some [row]; error := None |};
              written := written calmBackend |} in
  exists rows,
    getSiteStats b (withBearer None) (startSite (Some "admin")) =
    (Return tt,
     {| core := admittedState (Some "admin");
        sent := ([] ++ [(dataClient, SelectFrom "site_stats")])%list;
        page := Some (200%nat, StatsBody rows) |}) /\
    rows = map statOut (default [] (Some [row])) /\
    Forall (fun row =>
              map fst row = ["id"; "label"; "value"; "sortOrder"; "isActive"] /\
              (exists act, row !! 4%nat = Some ("isActive", JsValue.Bool act)) /\
              (forall v, row !! 3%nat = Some ("sortOrder", v) -> v <> JsValue.Undefined))
           rows.
Proof.
  cbv zeta.
  refine (proj1 (lists_answer_one_object_per_row _ (withBearer None)
                   (startSite (Some "admin")) {| userId := "u-1" |} _ _ _ _ _) _);
    reflexivity.
Defined.

(** X23. The three PATCH routes ask for the id of the path. PATCH
    /site-stats/:id and PATCH /testimonials/:id test it before they look
    at the body: an id that is empty or white space is answered 400 and
    nothing is sent. PATCH /scrap-types/:id converts the name of the
    body first, outside its [try]: it answers the same 400 when the
    name converts, and throws, without an answer, when the conversion
    throws. With an id and a patch, one update is sent for the trimmed
    id, and the answer follows what comes back: no row and no error,
    404 with the text of the route, not a success; an error, 400 with
    its message; a row, 200. *)
Theorem patch_routes_need_id_and_row (b : Backend) (param : string) (req : Request)
    (t : Site) (a : Principal) (s1 : State) :
  requireAdmin (world b) req (core t) = (Return (Some a), s1) ->
  (allWhiteSpace param = true ->
     let refused :=
       (Return tt,
        with_core (set_res {| status := 400; body := ErrorBody "id is required" |} s1) t) in
     patchSiteStat b param req t = refused /\
     patchTestimonial b param req t = refused /\
     (converts (field req "name") -> patchScrapType b param req t = refused) /\
     (field req "name" = JsValue.Obj None ->
        patchScrapType b param req t = (Throw JsValue.cannotConvert, with_core s1 t))) /\
  (forall supabase table patch notFound wrap,
     createServiceClient (supabase_js (world b)) (process_env (world b)) = Return supabase ->
     let q := UpdateIn table (Js.trim param) patch in
     let t1 := {| core := s1; sent := (sent t ++ [(supabase, q)])%list; page := page t |} in
     let run := updateRow b table (Js.trim param) patch notFound wrap (with_core s1 t) in
     (written b (length (sent t)) supabase q = Return {| data := None; error := None |} ->
        run = (Return tt,
               with_core (set_res {| status := 404; body := ErrorBody notFound |} s1) t1)) /\
     (forall d m,
        written b (length (sent t)) supabase q = Return {| data := d; error := Some m |} ->
        run = (Return tt,
               with_core (set_res {| status := 400; body := ErrorBody m |} s1) t1)) /\
     (forall d,
        written b (length (sent t)) supabase q
        = Return {| data := Some d; error := None |} ->
        run = (Return tt, with_page 200 (wrap d) t1))) /\
  (allWhiteSpace param = false ->
     (forall name,
        trimmedText b (field req "name") = Return name -> Js.isEmpty name = false ->
        patchScrapType b param req t =
        updateRow b "scrap_types" (Js.trim param) {[ "name" := JsValue.Str name ]}
                  "scrap type not found" (fun d => ScrapTypeBody (Some d))
                  (with_core s1 t)) /\
     (forall patch, statPatch b req = Return (inr patch) -> size patch <> 0%nat ->
        patchSiteStat b param req t =
        updateRow b "site_stats" (Js.trim param) patch "stat not found"
                  (fun d => StatBody (statOut d)) (with_core s1 t)) /\
     (forall patch, testimonialPatch b req = Return (inr patch) -> size patch <> 0%nat ->
        patchTestimonial b param req t =
        updateRow b "testimonials" (Js.trim param) patch "testimonial not found"
                  (fun d => TestimonialBody (testimonialOut d)) (with_core s1 t))).
Proof.
  intros Hgate. split; [|split].
  - intros Hid. cbv zeta.
    unfold patchScrapType, patchSiteStat, patchTestimonial.
    rewrite !(gatedC_admitted _ _ _ _ _ _ Hgate), isEmpty_trimmedParam, Hid.
    split; [reflexivity|]. split; [reflexivity|]. split.
    + intros [name Hname]%(trimmedText_converts b).
      rewrite (converted _ name _ _ Hname). reflexivity.
    + intros ->. reflexivity.
  - intros supabase table patch notFound wrap Hsup. cbv zeta.
    run_site. cbn [core sent page]. rewrite Hsup.
    split; [|split].
    + intros ->. reflexivity.
    + intros d m ->. reflexivity.
    + intros d ->. reflexivity.
  - intros Hid.
    unfold patchScrapType, patchSiteStat, patchTestimonial.
    rewrite !(gatedC_admitted _ _ _ _ _ _ Hgate), isEmpty_trimmedParam, Hid,
      trimmedParam_trim.
    split; [|split].
    + intros name Hname Hne. rewrite (converted _ name _ _ Hname), Hne. reflexivity.
    + intros patch Hpatch Hsize. apply Nat.eqb_neq in Hsize.
      rewrite (converted _ _ _ _ Hpatch), Hsize. reflexivity.
    + intros patch Hpatch Hsize. apply Nat.eqb_neq in Hsize.
      rewrite (converted _ _ _ _ Hpatch), Hsize. reflexivity.
Qed.

Lemma patch_routes_need_id_and_row_witness :
  let refused :=
    (Return tt,
     with_core (set_res {| status := 400; body := ErrorBody "id is required" |}
                        (admittedState (Some "admin")))
               (startSite (Some "admin"))) in
  let req := bodyOf [("name", JsValue.Obj None)] in
  patchSiteStat calmBackend "  " req (startSite (Some "admin")) = refused /\
  patchTestimonial calmBackend "  " req (startSite (Some "admin")) = refused /\
  (converts (field req "name") ->
     patchScrapType calmBackend "  " req (startSite (Some "admin")) = refused) /\
  (field req "name" = JsValue.Obj None ->
     patchScrapType calmBackend "  " req (startSite (Some "admin"))
     = (Throw JsValue.cannotConvert,
        with_core (admittedState (Some "admin")) (startSite (Some "admin")))).
Proof.
  cbv zeta.
  refine (proj1 (patch_routes_need_id_and_row calmBackend "  "
                   (bodyOf [("name", JsValue.Obj None)])
                   (startSite (Some "admin")) {| userId := "u-1" |} _ _) _);
    reflexivity.
Defined.

(** *** What the routes write *)

Lemma present_insert (v : JsValue.t) (k col : string) (x : JsValue.t) (p : Row) :
  is_Some ((if negb (isUndefined v) then <[k := x]> p else p) !! col) <->
  is_Some (p !! col) \/ (col = k /\ v <> JsValue.Undefined).
Proof.
  destruct (isUndefined v) eqn:Hv; cbn [negb].
  - assert (v = JsValue.Undefined) as -> by (destruct v; congruence || discriminate).
    split; [auto | intros [H | [_ H]]; [exact H | congruence]].
  - apply isUndefined_false in Hv.
    destruct (decide (col = k)) as [-> | Hne].
    + rewrite lookup_insert_eq. split; [auto | eauto].
    + rewrite lookup_insert_ne by congruence.
      split; [auto | intros [H | [H _]]; [exact H | congruence]].
Qed.

Lemma withText_keys (b : Backend) (req : Request) (name column : string) (p patch : Row) :
  withText b req name column p = Return patch ->
  forall col,
    is_Some (patch !! col) <->
    is_Some (p !! col) \/ (col = column /\ field req name <> JsValue.Undefined).
Proof.
  unfold withText. intros H col.
  destruct (isUndefined (field req name)) eqn:Hu; cbn [negb] in H.
  - injection H as <-. apply isUndefined_true in Hu. rewrite Hu.
    split; [auto | intros [H | [_ H]]; [exact H | congruence]].
  - destruct (trimmedText b (field req name)) as [text|e]; [|discriminate].
    cbn in H. injection H as <-. apply isUndefined_false in Hu.
    destruct (decide (col = column)) as [-> | Hne].
    + rewrite lookup_insert_eq. split; [auto | eauto].
    + rewrite lookup_insert_ne by congruence.
      split; [auto | intros [H | [H _]]; [exact H | congruence]].
Qed.

Lemma orderAndActive_keys (b : Backend) (req : Request) (p patch : Row) :
  orderAndActive b req p = Return (inr patch) ->
  forall col,
    is_Some (patch !! col) <->
    is_Some (p !! col) \/
    (col = "sort_order" /\ field req "sortOrder" <> JsValue.Undefined) \/
    (col = "is_active" /\ field req "isActive" <> JsValue.Undefined).
Proof.
  unfold orderAndActive, withActive. intros H col.
  destruct (isUndefined (field req "sortOrder")) eqn:Hso; cbn [negb] in H.
  - injection H as <-. rewrite present_insert.
    apply isUndefined_true in Hso. intuition congruence.
  - destruct (numberUnlessNull b (field req "sortOrder")) as [sortOrder|e];
      [|discriminate].
    cbn in H. destruct (notFinite sortOrder); [discriminate|]. injection H as <-.
    apply isUndefined_false in Hso.
    rewrite present_insert.
    destruct (decide (col = "sort_order")) as [-> | Hne].
    + rewrite lookup_insert_eq. intuition eauto.
    + rewrite lookup_insert_ne by congruence. intuition congruence.
Qed.

(** X24. A patch changes the fields that are in the body and no
    other. When PATCH /site-stats/:id or PATCH /testimonials/:id gets
    as far as a patch, a column is in the patch exactly when its field
    is present in the body ([sortOrder] for [sort_order], [isActive]
    for [is_active]); so a body with none of the fields makes the empty
    patch, which the route answers 400 [No fields to update] without
    sending anything. *)
Theorem patch_holds_the_fields_present (b : Backend) (param : string) (req : Request) :
  (forall patch,
     statPatch b req = Return (inr patch) ->
     forall col,
       is_Some (patch !! col) <->
       (col = "label" /\ field req "label" <> JsValue.Undefined) \/
       (col = "value" /\ field req "value" <> JsValue.Undefined) \/
       (col = "sort_order" /\ field req "sortOrder" <> JsValue.Undefined) \/
       (col = "is_active" /\ field req "isActive" <> JsValue.Undefined)) /\
  (forall patch,
     testimonialPatch b req = Return (inr patch) ->
     forall col,
       is_Some (patch !! col) <->
       (col = "name" /\ field req "name" <> JsValue.Undefined) \/
       (col = "quote" /\ field req "quote" <> JsValue.Undefined) \/
       (col = "role" /\ field req "role" <> JsValue.Undefined) \/
       (col = "rating" /\ field req "rating" <> JsValue.Undefined) \/
       (col = "sort_order" /\ field req "sortOrder" <> JsValue.Undefined) \/
       (col = "is_active" /\ field req "isActive" <> JsValue.Undefined)) /\
  (forall t a s1,
     requireAdmin (world b) req (core t) = (Return (Some a), s1) ->
     allWhiteSpace param = false ->
     let refused :=
       (Return tt,
        with_core (set_res {| status := 400; body := ErrorBody "No fields to update" |} s1)
                  t) in
     (absent req ["label"; "value"; "sortOrder"; "isActive"] ->
        patchSiteStat b param req t = refused) /\
     (absent req ["name"; "quote"; "role"; "rating"; "sortOrder"; "isActive"] ->
        patchTestimonial b param req t = refused)).
Proof.
  pose proof (@is_Some_None JsValue.t) as Hnone.
  split; [|split].
  - intros patch H col. unfold statPatch in H.
    destruct (withText b req "label" "label" ∅) as [p1|] eqn:H1; [|discriminate].
    cbn [and_then] in H.
    destruct (withText b req "value" "value" p1) as [p2|] eqn:H2; [|discriminate].
    cbn [and_then] in H.
    rewrite (orderAndActive_keys _ _ _ _ H col), (withText_keys _ _ _ _ _ _ H2 col),
      (withText_keys _ _ _ _ _ _ H1 col), lookup_empty.
    tauto.
  - intros patch H col. unfold testimonialPatch in H.
    destruct (withText b req "name" "name" ∅) as [p1|] eqn:H1; [|discriminate].
    cbn [and_then] in H.
    destruct (withText b req "quote" "quote" p1) as [p2|] eqn:H2; [|discriminate].
    cbn [and_then] in H.
    pose proof (withText_keys _ _ _ _ _ _ H1 col) as K1.
    pose proof (withText_keys _ _ _ _ _ _ H2 col) as K2.
    rewrite lookup_empty in K1.
    assert (K3 : forall p3,
              (if negb (isUndefined (field req "role"))
               then and_then (patchedRole b (field req "role"))
                      (fun role => Return (<[ "role" := role ]> p2))
               else Return p2) = Return p3 ->
              is_Some (p3 !! col) <->
              is_Some (p2 !! col) \/ (col = "role" /\ field req "role" <> JsValue.Undefined)).
    { intros p3 H3. destruct (isUndefined (field req "role")) eqn:Hu; cbn [negb] in H3.
      - injection H3 as <-. apply isUndefined_true in Hu. intuition congruence.
      - destruct (patchedRole b (field req "role")) as [role|]; [|discriminate].
        cbn in H3. injection H3 as <-. apply isUndefined_false in Hu.
        destruct (decide (col = "role")) as [-> | Hne].
        + rewrite lookup_insert_eq. intuition eauto.
        + rewrite lookup_insert_ne by congruence. intuition congruence. }
    destruct (if negb (isUndefined (field req "role")) then _ else _) as [p3|] eqn:H3;
      [|discriminate].
    specialize (K3 p3 eq_refl). cbn [and_then] in H.
    destruct (isUndefined (field req "rating")) eqn:Hr; cbn [negb] in H.
    + rewrite (orderAndActive_keys _ _ _ _ H col).
      apply isUndefined_true in Hr. intuition congruence.
    + destruct (numberUnlessNull b (field req "rating")) as [rating|]; [|discriminate].
      cbn [and_then] in H. destruct (badRating rating); [discriminate|].
      apply isUndefined_false in Hr.
      rewrite (orderAndActive_keys _ _ _ _ H col).
      destruct (decide (col = "rating")) as [-> | Hne].
      * rewrite lookup_insert_eq. intuition eauto.
      * rewrite lookup_insert_ne by congruence. intuition congruence.
  - intros t a s1 Hgate Hid. cbv zeta.
    unfold patchSiteStat, patchTestimonial, absent.
    rewrite !(gatedC_admitted _ _ _ _ _ _ Hgate), isEmpty_trimmedParam, Hid.
    split; intros Habsent; repeat (apply Forall_cons in Habsent as [? Habsent]).
    + rewrite (converted _ (inr ∅) _ _); [reflexivity|].
      unfold statPatch, withText, orderAndActive, withActive.
      repeat match goal with H : field req _ = _ |- _ => rewrite H; clear H end.
      reflexivity.
    + rewrite (converted _ (inr ∅) _ _); [reflexivity|].
      unfold testimonialPatch, withText, orderAndActive, withActive.
      repeat match goal with H : field req _ = _ |- _ => rewrite H; clear H end.
      reflexivity.
Qed.

Lemma patch_holds_the_fields_present_witness :
  let refused :=
    (Return tt,
     with_core (set_res {| status := 400; body := ErrorBody "No fields to update" |}
                        (admittedState (Some "admin")))
               (startSite (Some "admin"))) in
  patchSiteStat calmBackend "s-1" (withBearer None) (startSite (Some "admin")) = refused /\
  patchTestimonial calmBackend "s-1" (withBearer None) (startSite (Some "admin")) = refused.
Proof.
  cbv zeta.
  destruct (proj2 (proj2 (patch_holds_the_fields_present calmBackend "s-1"
                            (withBearer None)))
              (startSite (Some "admin")) {| userId := "u-1" |}
              (admittedState (Some "admin")) eq_refl eq_refl) as [Hstat Htestimonial].
  split; [apply Hstat | apply Htestimonial]; repeat constructor.
Defined.



(** *** Trimming twice *)

Lemma trimStart_clean (s : string) : startsClean (Js.trimStart s).
Proof.
  induction s as [|c s IH]; cbn; [exact I|].
  destruct (Js.isWhiteSpace c) eqn:Hc; [exact IH | exact Hc].
Qed.

Lemma clean_trimStart (s : string) : startsClean s -> Js.trimStart s = s.
Proof. destruct s as [|c s]; cbn; [reflexivity | intros ->; reflexivity]. Qed.

Lemma trimEnd_clean (s : string) : startsClean s -> startsClean (Js.trimEnd s).
Proof.
  destruct s as [|c s]; cbn; [auto|]. intros Hc. rewrite Hc. exact Hc.
Qed.

Lemma trimEnd_idem (s : string) : Js.trimEnd (Js.trimEnd s) = Js.trimEnd s.
Proof.
  induction s as [|c s IH]; [reflexivity|]. cbn [Js.trimEnd].
  destruct (Js.isWhiteSpace c && Js.isEmpty (Js.trimEnd s)) eqn:Hcase; [reflexivity|].
  cbn [Js.trimEnd]. rewrite IH, Hcase. reflexivity.
Qed.

(** [trim] leaves nothing for a second [trim] to remove. *)
Lemma trim_idem (s : string) : Js.trim (Js.trim s) = Js.trim s.
Proof.
  unfold Js.trim.
  rewrite (clean_trimStart (Js.trimEnd (Js.trimStart s)))
    by (apply trimEnd_clean, trimStart_clean).
  apply trimEnd_idem.
Qed.

Lemma trimmedText_idem (b : Backend) (v : JsValue.t) (text : string) :
  trimmedText b v = Return text -> Js.trim text = text.
Proof.
  unfold trimmedText. destruct (JsValue.String_ _ _); cbn; [|discriminate].
  intros [= <-]. apply trim_idem.
Qed.

Lemma notFinite_false (n : option JsValue.Number) :
  notFinite n = false ->
  numberOrNull n = JsValue.Null \/ exists q, numberOrNull n = JsValue.Num (JsValue.Finite q).
Proof.
  destruct n as [[| |q]|]; cbn; try discriminate; eauto.
Qed.

(** X26. POST /site-stats never writes a row it should have refused.
    Once the gate has let the request in, the route sends nothing, or
    it sends one insert into [site_stats] whose row has exactly the
    four columns, a label and a value that are not empty and carry no
    white space at either end, a sort order that is [null] or a finite
    number, and a boolean for [is_active]. *)
Theorem postSiteStat_writes_checked_rows (b : Backend) (req : Request) (t : Site)
    (a : Principal) (s1 : State) :
  requireAdmin (world b) req (core t) = (Return (Some a), s1) ->
  let t' := snd (postSiteStat b req t) in
  sent t' = sent t \/
  exists supabase label value sortOrder isActive,
    sent t' =
    (sent t ++
     [(supabase,
       InsertInto "site_stats"
         (<[ "label" := JsValue.Str label ]>
          (<[ "value" := JsValue.Str value ]>
          (<[ "sort_order" := sortOrder ]>
          {[ "is_active" := JsValue.Bool isActive ]}))))])%list /\
    label <> "" /\ Js.trim label = label /\
    value <> "" /\ Js.trim value = value /\
    (sortOrder = JsValue.Null \/ exists q, sortOrder = JsValue.Num (JsValue.Finite q)).
Proof.
  intros Hgate. cbv zeta. unfold postSiteStat.
  rewrite (gatedC_admitted _ _ _ _ _ _ Hgate).
  destruct (trimmedText b (field req "label")) as [label|e] eqn:Hlabel;
    [rewrite (converted _ _ _ _ eq_refl) | left; reflexivity].
  destruct (trimmedText b (field req "value")) as [value|e] eqn:Hvalue;
    [rewrite (converted _ _ _ _ eq_refl) | left; reflexivity].
  destruct (numberUnlessUndefined b (field req "sortOrder")) as [sortOrder|e] eqn:Hsort;
    [rewrite (converted _ _ _ _ eq_refl) | left; reflexivity].
  destruct (Js.isEmpty label) eqn:Hl; [left; reflexivity|].
  destruct (Js.isEmpty value) eqn:Hv; [left; reflexivity|].
  destruct (notFinite sortOrder) eqn:Hs; [left; reflexivity|].
  destruct (createServiceClient (supabase_js (world b)) (process_env (world b)))
    as [supabase|e] eqn:Hsup.
  - right. eexists supabase, _, _, _, _.
    split; [rewrite (insertRow_sent b _ _ _ _ _ Hsup); reflexivity|].
    split; [intros H; rewrite H in Hl; discriminate|].
    split; [exact (trimmedText_idem _ _ _ Hlabel)|].
    split; [intros H; rewrite H in Hv; discriminate|].
    split; [exact (trimmedText_idem _ _ _ Hvalue)|].
    apply notFinite_false. exact Hs.
  - left. run_site. cbn [core sent page]. rewrite Hsup. reflexivity.
Qed.

Lemma postSiteStat_writes_checked_rows_witness :
  let req := bodyOf [("label", JsValue.Str " Tonnes recycled ");
                     ("value", JsValue.Str "1200")] in
  let t' := snd (postSiteStat calmBackend req (startSite (Some "admin"))) in
  sent t' = sent (startSite (Some "admin")) \/
  exists supabase label value sortOrder isActive,
    sent t' =
    (sent (startSite (Some "admin")) ++
     [(supabase,
       InsertInto "site_stats"
         (<[ "label" := JsValue.Str label ]>
          (<[ "value" := JsValue.Str value ]>
          (<[ "sort_order" := sortOrder ]>
          {[ "is_active" := JsValue.Bool isActive ]}))))])%list /\
    label <> "" /\ Js.trim label = label /\
    value <> "" /\ Js.trim value = value /\
    (sortOrder = JsValue.Null \/ exists q, sortOrder = JsValue.Num (JsValue.Finite q)).
Proof.
  cbv zeta.
  apply (postSiteStat_writes_checked_rows calmBackend
           (bodyOf [("label", JsValue.Str " Tonnes recycled ");
                    ("value", JsValue.Str "1200")])
           (startSite (Some "admin")) {| userId := "u-1" |}
           (admittedState (Some "admin"))).
  reflexivity.
Defined.

Example postSiteStat_defaults :
  sent (snd (postSiteStat calmBackend
               (bodyOf [("label", JsValue.Str " Tonnes recycled ");
                        ("value", JsValue.Str "1200")])
               (startSite (Some "admin"))))
  = [(dataClient,
      InsertInto "site_stats"
        (<[ "label" := JsValue.Str "Tonnes recycled" ]>
         (<[ "value" := JsValue.Str "1200" ]>
         (<[ "sort_order" := JsValue.Null ]>
         {[ "is_active" := JsValue.Bool true ]}))))].
Proof. reflexivity. Qed.

(** X27. [sortOrder: null] is not the same in POST and in PATCH. POST
    /site-stats turns it into a number, and [Number(null)] is 0, so the
    row is written with sort order 0; PATCH /site-stats/:id keeps it,
    and the patch sets the sort order to [null]. A [sortOrder] that is
    not in the body is written as [null] by POST. *)
Theorem sortOrder_null_is_zero_on_post (b : Backend) (req : Request) (t : Site)
    (a : Principal) (s1 : State) (supabase : Client) (label value : string) :
  requireAdmin (world b) req (core t) = (Return (Some a), s1) ->
  createServiceClient (supabase_js (world b)) (process_env (world b)) = Return supabase ->
  trimmedText b (field req "label") = Return label -> Js.isEmpty label = false ->
  trimmedText b (field req "value") = Return value -> Js.isEmpty value = false ->
  (field req "sortOrder" = JsValue.Null ->
     (exists row,
        sent (snd (postSiteStat b req t))
        = (sent t ++ [(supabase, InsertInto "site_stats" row)])%list /\
        row !! "sort_order" = Some (JsValue.Num (JsValue.Finite 0))) /\
     (forall patch, statPatch b req = Return (inr patch) ->
                    patch !! "sort_order" = Some JsValue.Null)) /\
  (field req "sortOrder" = JsValue.Undefined ->
     exists row,
       sent (snd (postSiteStat b req t))
       = (sent t ++ [(supabase, InsertInto "site_stats" row)])%list /\
       row !! "sort_order" = Some JsValue.Null).
Proof.
  intros Hgate Hsup Hlabel Hl Hvalue Hv. split.
  - intros Hnull. split.
    + eexists. split.
      * unfold postSiteStat.
        rewrite (gatedC_admitted _ _ _ _ _ _ Hgate), (converted _ _ _ _ Hlabel),
          (converted _ _ _ _ Hvalue), Hnull.
        rewrite (converted (numberUnlessUndefined b JsValue.Null)
                   (Some (JsValue.Finite 0)) _ _ eq_refl), Hl, Hv.
        cbn [notFinite JsValue.isFinite negb].
        rewrite (insertRow_sent b _ _ _ _ _ Hsup); reflexivity.
      * rewrite !lookup_insert_ne by discriminate. apply lookup_insert_eq.
    + intros patch. unfold statPatch.
      destruct (withText b req "label" "label" ∅) as [p1|]; [|discriminate].
      cbn [and_then].
      destruct (withText b req "value" "value" p1) as [p2|]; [|discriminate].
      cbn [and_then]. unfold orderAndActive, withActive. rewrite Hnull.
      cbn [isUndefined negb numberUnlessNull isNull notFinite numberOrNull and_then].
      intros [= <-]. destruct (negb (isUndefined (field req "isActive")));
        rewrite ?lookup_insert_ne by discriminate; apply lookup_insert_eq.
  - intros Habsent. eexists. split.
    + unfold postSiteStat.
      rewrite (gatedC_admitted _ _ _ _ _ _ Hgate), (converted _ _ _ _ Hlabel),
        (converted _ _ _ _ Hvalue), Habsent.
      rewrite (converted (numberUnlessUndefined b JsValue.Undefined) None _ _ eq_refl),
        Hl, Hv.
      cbn [notFinite].
      rewrite (insertRow_sent b _ _ _ _ _ Hsup); reflexivity.
    + rewrite !lookup_insert_ne by discriminate. apply lookup_insert_eq.
Qed.

Lemma sortOrder_null_is_zero_on_post_witness :
  let req := bodyOf [("label", JsValue.Str "Tonnes"); ("value", JsValue.Str "1200");
                     ("sortOrder", JsValue.Null)] in
  (exists row,
     sent (snd (postSiteStat calmBackend req (startSite (Some "admin"))))
     = (sent (startSite (Some "admin")) ++ [(dataClient, InsertInto "site_stats" row)])%list /\
     row !! "sort_order" = Some (JsValue.Num (JsValue.Finite 0))) /\
  (forall patch, statPatch calmBackend req = Return (inr patch) ->
                 patch !! "sort_order" = Some JsValue.Null).
Proof.
  cbv zeta.
  refine (proj1 (sortOrder_null_is_zero_on_post calmBackend
                   (bodyOf [("label", JsValue.Str "Tonnes"); ("value", JsValue.Str "1200");
                            ("sortOrder", JsValue.Null)])
                   (startSite (Some "admin")) {| userId := "u-1" |}
                   (admittedState (Some "admin")) dataClient "Tonnes" "1200" _ _ _ _ _ _) _);
    reflexivity.
Defined.

Lemma badRating_false (r : option JsValue.Number) :
  badRating r = false <->
  r = None \/ exists q, r = Some (JsValue.Finite q) /\ (1 <= q)%Q /\ (q <= 5)%Q.
Proof.
  destruct r as [[| |q]|]; cbn.
  - split; [discriminate | intros [[=] | (q & [=] & _)]].
  - split; [discriminate | intros [[=] | (q & [=] & _)]].
  - rewrite !orb_false_iff, !negb_false_iff, !Qle_bool_iff.
    split.
    + intros [H1 H5]. right. exists q. auto.
    + intros [[=] | (q' & [= <-] & H1 & H5)]. auto.
  - split; [auto | reflexivity].
Qed.

(** X28. A rating is accepted exactly when it is absent or a finite
    number from 1 to 5, whole or not. POST /testimonials converts the
    five fields of the body first, outside its [try]; when they all
    convert and the name and the quote are not empty, it answers 400
    [rating must be between 1 and 5] to any other rating and sends
    nothing; this includes [rating: null], which POST turns into the
    number 0. PATCH /testimonials/:id keeps [rating: null] and sets the
    rating to [null]; when the name, the quote and the role convert, it
    ends with the same 400 on any other rating that converts to a
    number out of range, whatever the fields after it. *)
Theorem rating_between_1_and_5 (b : Backend) (req : Request) :
  (forall r,
     badRating r = false <->
     r = None \/ exists q, r = Some (JsValue.Finite q) /\ (1 <= q)%Q /\ (q <= 5)%Q) /\
  (forall t a s1 name quote rating,
     requireAdmin (world b) req (core t) = (Return (Some a), s1) ->
     trimmedText b (field req "name") = Return name -> Js.isEmpty name = false ->
     trimmedText b (field req "quote") = Return quote -> Js.isEmpty quote = false ->
     converts (field req "role") -> converts (field req "sortOrder") ->
     numberUnlessUndefined b (field req "rating") = Return rating ->
     badRating rating = true ->
     postTestimonial b req t =
     (Return tt,
      with_core (set_res {| status := 400;
                            body := ErrorBody "rating must be between 1 and 5" |} s1) t)) /\
  (field req "rating" = JsValue.Null ->
     numberUnlessUndefined b (field req "rating") = Return (Some (JsValue.Finite 0)) /\
     badRating (Some (JsValue.Finite 0)) = true /\
     forall patch, testimonialPatch b req = Return (inr patch) ->
                   patch !! "rating" = Some JsValue.Null) /\
  (forall n,
     field req "rating" <> JsValue.Undefined -> field req "rating" <> JsValue.Null ->
     JsValue.Number_ (conversions (world b)) (field req "rating") = Return n ->
     badRating (Some n) = true ->
     converts (field req "name") -> converts (field req "quote") ->
     converts (field req "role") ->
     testimonialPatch b req = Return (inl "rating must be between 1 and 5")).
Proof.
  split; [exact badRating_false|]. split; [|split].
  - intros t a s1 name quote rating Hgate Hname Hn Hquote Hq
           [role Hrole]%(textUnlessUndefined_converts b)
           [sortOrder Hsort]%(numberUnlessUndefined_converts b) Hrating Hbad.
    unfold postTestimonial.
    rewrite (gatedC_admitted _ _ _ _ _ _ Hgate), (converted _ _ _ _ Hname),
      (converted _ _ _ _ Hquote), (converted _ _ _ _ Hrole), (converted _ _ _ _ Hrating),
      (converted _ _ _ _ Hsort), Hn, Hq, Hbad.
    reflexivity.
  - intros Hnull. rewrite Hnull. split; [reflexivity|]. split; [reflexivity|].
    intros patch. unfold testimonialPatch.
    destruct (withText b req "name" "name" ∅) as [p1|]; [|discriminate].
    cbn [and_then].
    destruct (withText b req "quote" "quote" p1) as [p2|]; [|discriminate].
    cbn [and_then].
    destruct (if negb (isUndefined (field req "role")) then _ else _) as [p3|];
      [|discriminate].
    cbn [and_then]. rewrite Hnull.
    cbn [isUndefined negb numberUnlessNull isNull badRating numberOrNull and_then].
    unfold orderAndActive, withActive, and_then.
    intros H. repeat case_match; simplify_eq/=;
      rewrite ?lookup_insert_ne by discriminate; apply lookup_insert_eq.
  - intros n Hpresent Hnotnull Hnumber Hbad Hname Hquote Hrole.
    assert (Htext : forall name column p,
              converts (field req name) -> exists p', withText b req name column p = Return p').
    { intros name column p [text Htext]%(trimmedText_converts b). unfold withText.
      rewrite Htext. destruct (negb _); cbn; eauto. }
    unfold testimonialPatch.
    destruct (Htext "name" "name" ∅ Hname) as [p1 ->]. cbn [and_then].
    destruct (Htext "quote" "quote" p1 Hquote) as [p2 ->]. cbn [and_then].
    assert (Hr : exists p3,
              (if negb (isUndefined (field req "role"))
               then and_then (patchedRole b (field req "role"))
                      (fun role => Return (<[ "role" := role ]> p2))
               else Return p2) = Return p3).
    { destruct (negb _); [|eauto]. unfold patchedRole.
      destruct (JsValue.ToBoolean (field req "role")); [|cbn; eauto].
      destruct (JsValue.String_ (conversions (world b)) (field req "role")) as [text|e] eqn:Hs;
        [cbn; eauto|].
      apply String_Throw in Hs as [Hs _]. contradiction. }
    destruct Hr as [p3 ->]. cbn [and_then].
    rewrite (proj2 (isUndefined_false _) Hpresent). cbn [negb].
    unfold numberUnlessNull.
    assert (isNull (field req "rating") = false) as ->
      by (destruct (field req "rating"); congruence || reflexivity).
    rewrite Hnumber. cbn [result_map and_then]. rewrite Hbad. reflexivity.
Qed.

Lemma rating_between_1_and_5_witness :
  let req := bodyOf [("name", JsValue.Str "Asha"); ("quote", JsValue.Str "Quick pickup");
                     ("rating", JsValue.Num (JsValue.Finite 6))] in
  postTestimonial calmBackend req (startSite (Some "admin")) =
  (Return tt,
   with_core (set_res {| status := 400;
                         body := ErrorBody "rating must be between 1 and 5" |}
                      (admittedState (Some "admin")))
             (startSite (Some "admin"))).
Proof.
  cbv zeta.
  refine (proj1 (proj2 (rating_between_1_and_5 calmBackend
                          (bodyOf [("name", JsValue.Str "Asha");
                                   ("quote", JsValue.Str "Quick pickup");
                                   ("rating", JsValue.Num (JsValue.Finite 6))])))
            (startSite (Some "admin")) {| userId := "u-1" |} _
            "Asha" "Quick pickup" (Some (JsValue.Finite 6)) _ _ _ _ _ _ _ _ _).
  - reflexivity.
  - reflexivity.
  - reflexivity.
  - reflexivity.
  - reflexivity.
  - discriminate.
  - discriminate.
  - reflexivity.
  - reflexivity.
Defined.

Example postTestimonial_fractional_rating :
  sent (snd (postTestimonial calmBackend
               (bodyOf [("name", JsValue.Str "Asha"); ("quote", JsValue.Str "Quick pickup");
                        ("rating", JsValue.Num (JsValue.Finite 4.5))])
               (startSite (Some "admin"))))
  = [(dataClient,
      InsertInto "testimonials"
        (<[ "name" := JsValue.Str "Asha" ]>
         (<[ "quote" := JsValue.Str "Quick pickup" ]>
         (<[ "role" := JsValue.Null ]>
         (<[ "rating" := JsValue.Num (JsValue.Finite 4.5) ]>
         (<[ "sort_order" := JsValue.Null ]>
         {[ "is_active" := JsValue.Bool true ]}))))))].
Proof. reflexivity. Qed.

(** A sibling field whose conversion throws: the rating is out of
    range, and the route throws before it tests it. *)
Example postTestimonial_throws_before_the_rating :
  postTestimonial calmBackend
    (bodyOf [("name", JsValue.Str "Asha"); ("quote", JsValue.Str "Quick pickup");
             ("rating", JsValue.Num (JsValue.Finite 6)); ("sortOrder", JsValue.Obj None)])
    (startSite (Some "admin"))
  = (Throw JsValue.cannotConvert,
     with_core (admittedState (Some "admin")) (startSite (Some "admin"))).
Proof. reflexivity. Qed.

(** X29. A role of white space is not written the same by POST and by
    PATCH. POST /testimonials trims it to the empty string and writes
    [null]; PATCH /testimonials/:id, for which the untrimmed string is
    truthy, writes the empty string. *)
Theorem role_of_white_space (b : Backend) (req : Request) (s : string) :
  field req "role" = JsValue.Str s -> s <> "" -> allWhiteSpace s = true ->
  (forall t a s1 supabase name quote rating sortOrder,
     requireAdmin (world b) req (core t) = (Return (Some a), s1) ->
     createServiceClient (supabase_js (world b)) (process_env (world b)) = Return supabase ->
     trimmedText b (field req "name") = Return name -> Js.isEmpty name = false ->
     trimmedText b (field req "quote") = Return quote -> Js.isEmpty quote = false ->
     numberUnlessUndefined b (field req "rating") = Return rating ->
     badRating rating = false ->
     numberUnlessUndefined b (field req "sortOrder") = Return sortOrder ->
     notFinite sortOrder = false ->
     exists row,
       sent (snd (postTestimonial b req t))
       = (sent t ++ [(supabase, InsertInto "testimonials" row)])%list /\
       row !! "role" = Some JsValue.Null) /\
  (forall patch, testimonialPatch b req = Return (inr patch) ->
                 patch !! "role" = Some (JsValue.Str "")).
Proof.
  intros Hrole Hne Hblank.
  assert (Htext : trimmedText b (field req "role") = Return "")
    by (rewrite Hrole, trimmedText_Str, (trim_blank _ Hblank); reflexivity).
  split.
  - intros t a s1 supabase name quote rating sortOrder
           Hgate Hsup Hname Hn Hquote Hq Hrating Hr Hsort Hs.
    assert (Hopt : textUnlessUndefined b (field req "role") = Return (Some "")).
    { unfold textUnlessUndefined. rewrite Htext, Hrole. reflexivity. }
    eexists. split.
    + unfold postTestimonial.
      rewrite (gatedC_admitted _ _ _ _ _ _ Hgate), (converted _ _ _ _ Hname),
        (converted _ _ _ _ Hquote), (converted _ _ _ _ Hopt), (converted _ _ _ _ Hrating),
        (converted _ _ _ _ Hsort), Hn, Hq, Hr, Hs.
      rewrite (insertRow_sent b _ _ _ _ _ Hsup); reflexivity.
    + rewrite !lookup_insert_ne by discriminate. rewrite lookup_insert_eq. reflexivity.
  - intros patch. unfold testimonialPatch.
    destruct (withText b req "name" "name" ∅) as [p1|]; [|discriminate].
    cbn [and_then].
    destruct (withText b req "quote" "quote" p1) as [p2|]; [|discriminate].
    cbn [and_then]. unfold patchedRole. rewrite Hrole.
    destruct s as [|c s]; [congruence|].
    cbn [isUndefined negb JsValue.ToBoolean Js.isEmpty JsValue.String_ result_map and_then].
    rewrite (trim_blank _ Hblank).
    unfold orderAndActive, withActive, and_then.
    intros H. repeat case_match; simplify_eq/=;
      rewrite ?lookup_insert_ne by discriminate; apply lookup_insert_eq.
Qed.

Lemma role_of_white_space_witness :
  let req := bodyOf [("name", JsValue.Str "Asha"); ("quote", JsValue.Str "Quick pickup");
                     ("role", JsValue.Str "  ")] in
  (forall t a s1 supabase name quote rating sortOrder,
     requireAdmin (world calmBackend) req (core t) = (Return (Some a), s1) ->
     createServiceClient (supabase_js (world calmBackend)) (process_env (world calmBackend))
     = Return supabase ->
     trimmedText calmBackend (field req "name") = Return name -> Js.isEmpty name = false ->
     trimmedText calmBackend (field req "quote") = Return quote ->
     Js.isEmpty quote = false ->
     numberUnlessUndefined calmBackend (field req "rating") = Return rating ->
     badRating rating = false ->
     numberUnlessUndefined calmBackend (field req "sortOrder") = Return sortOrder ->
     notFinite sortOrder = false ->
     exists row,
       sent (snd (postTestimonial calmBackend req t))
       = (sent t ++ [(supabase, InsertInto "testimonials" row)])%list /\
       row !! "role" = Some JsValue.Null) /\
  (forall patch, testimonialPatch calmBackend req = Return (inr patch) ->
                 patch !! "role" = Some (JsValue.Str "")).
Proof.
  cbv zeta.
  apply (role_of_white_space calmBackend
           (bodyOf [("name", JsValue.Str "Asha"); ("quote", JsValue.Str "Quick pickup");
                    ("role", JsValue.Str "  ")]) "  ");
    [reflexivity | discriminate | reflexivity].
Defined.

(** ** Responses with status 500, on every route *)




























